(** * cruddl: domain model, relation resolution, field-access and update-input compilation

    A shallow embedding of
      - src/model/implementation/field.ts            (class Field)
      - src/schema-generation/field-nodes.ts         (createFieldNode and helpers)
      - src/schema-generation/update-input-types/    (input fields and their generator)
    together with the statements that are established about them.

    Objects of the model (types, fields, relations, generated input types) have
    an identity in the program: [===] compares references.  Types and fields
    are created once when the model is built, so each carries the slot it
    occupies in the model and equality of the embedded values coincides with
    reference equality.  Objects that are created by [new] while the program
    runs draw a fresh identity from an allocation counter. *)

From stdpp Require Import base decidable option list strings.
From Stdlib Require Import ZArith.

Set Default Proof Using "Type".

(** ** Configuration objects *)

Inductive TypeKind :=
  | SCALAR | ENUM | VALUE_OBJECT | ENTITY_EXTENSION | CHILD_ENTITY | ROOT_ENTITY.

#[global] Instance TypeKind_eq_dec : EqDecision TypeKind.
Proof. solve_decision. Defined.

(** A location in the schema source ([astNode] and friends); only its
    identity matters. *)
Definition ASTNode := nat.

(** Values that arrive as operation input or as configured defaults
    ([AnyValue]); numbers are kept as integers, no arithmetic is done on
    them here. *)
#[local] Set Warnings "-register-all".
Inductive AnyValue :=
  | VUndefined
  | VNull
  | VBool (b : bool)
  | VNumber (z : Z)
  | VString (s : string)
  | VArray (items : list AnyValue)
  | VObject (props : list (string * AnyValue)).

Module Config.

Record PermissionsConfig := {
  permissionProfileName : option string;
  permissionProfileNameAstNode : option ASTNode;
  roles : option (list string)
}.

#[global] Instance PermissionsConfig_eq_dec : EqDecision PermissionsConfig.
Proof. solve_decision. Defined.

(** [FieldConfig & { isSystemField?: boolean }], the argument of the [Field]
    constructor.  The optional flags are given as booleans: the constructor
    reads [input.isList || false], so an absent flag is [false]; likewise an
    absent [calcMutationOperators] is the empty list.  [hasDefault] records
    whether [defaultValue] is present. *)
Record FieldConfig := {
  name : string;
  typeName : string;
  astNode : option ASTNode;
  typeNameAST : option ASTNode;
  isList : bool;
  isReference : bool;
  isRelation : bool;
  isSystemField : bool;
  inverseOfFieldName : option string;
  inverseOfASTNode : option ASTNode;
  calcMutationOperators : list string;
  permissions : option PermissionsConfig;
  hasDefault : bool;
  defaultValueASTNode : option ASTNode
}.

#[global] Instance FieldConfig_eq_dec : EqDecision FieldConfig.
Proof. solve_decision. Defined.

Record PermissionProfile := {
  profileName : string;
  profileId : nat
}.

#[global] Instance PermissionProfile_eq_dec : EqDecision PermissionProfile.
Proof. solve_decision. Defined.

(** Modelled from the spec: the type classes (type-base.ts, object-type-base.ts,
    root-entity-type.ts, ...) are not among the sources, apart from
    enum-type.ts.  A type is "tagged by kind", "owns an ordered collection of
    fields" and, for root entities, "a designated key field".  The field list
    given here is the complete [fields] array of the built type, the
    system-maintained fields included.  [namespaceProfiles] are the permission
    profiles that the type's namespace resolves. *)
Record TypeConfig := {
  tcName : string;
  tcKind : TypeKind;
  tcFields : list FieldConfig;
  tcKeyFieldName : option string;
  namespaceProfiles : list PermissionProfile
}.

#[global] Instance TypeConfig_eq_dec : EqDecision TypeConfig.
Proof. solve_decision. Defined.

End Config.

Abbreviation FieldConfig := Config.FieldConfig.
Abbreviation TypeConfig := Config.TypeConfig.
Abbreviation PermissionProfile := Config.PermissionProfile.

(** ** JavaScript helpers *)

(** The double-quote character, for the quoted names in messages. *)
Definition dq : string := String (Ascii.ascii_of_nat 34) EmptyString.
Definition quoted (s : string) : string := dq +:+ s +:+ dq.

Module JsString.
(** [s.startsWith(p)] *)
Definition startsWith (s p : string) : bool := String.prefix p s.

(** [s.includes(p)] *)
Definition includes (s p : string) : bool :=
  match String.index 0 p s with
  | Some _ => true
  | None => false
  end.

(** [s.match(/^[a-z]/)], as a truth value *)
Definition matchesLowercaseInitial (s : string) : bool :=
  match s with
  | EmptyString => false
  | String c _ => (97 <=? Ascii.nat_of_ascii c)%nat && (Ascii.nat_of_ascii c <=? 122)%nat
  end.

(** [items.join(sep)] *)
Definition join (sep : string) (items : list string) : string := String.concat sep items.
End JsString.

(** A JavaScript [Set]: insertion-ordered, an element that is already present
    is not added again. *)
Module JsSet.
Section WithElements.
Context {A : Type} `{EqDecision A}.

Definition add (s : list A) (x : A) : list A :=
  if decide (x ∈ s) then s else s ++ [x].

Definition ofList (l : list A) : list A := foldl add [] l.

Definition size (s : list A) : nat := length s.
End WithElements.
End JsSet.

(** [a || b] on possibly-undefined objects. *)
Definition orElse {A} (a b : option A) : option A :=
  match a with
  | Some _ => a
  | None => b
  end.

(** ** Object allocation *)

(** [new] draws the next object identity from a counter; a computation that
    may allocate threads the counter. *)
Definition Heap := nat.
Definition New (A : Type) : Type := Heap -> A * Heap.

Definition alloc : New nat := fun h => (h, S h).
Definition pureNew {A} (a : A) : New A := fun h => (a, h).
Definition bindNew {A B} (c : New A) (k : A -> New B) : New B :=
  fun h => let (a, h') := c h in k a h'.

(** ** Stateful computations that may throw *)

(** The outcome of running a computation from a state: it returns a value and
    the state it leaves, or it throws.  [OutOfFuel] is not an outcome of the
    program; it marks that the recursion bound given to a recursive function
    was too small to tell. *)
Inductive Outcome (S A : Type) :=
  | Done (a : A) (s : S)
  | Thrown (error : string)
  | OutOfFuel.
Arguments Done {S A} a s.
Arguments Thrown {S A} error.
Arguments OutOfFuel {S A}.

Definition M (S A : Type) : Type := S -> Outcome S A.

#[global] Instance M_ret {S} : MRet (M S) := fun A a s => Done a s.
#[global] Instance M_bind {S} : MBind (M S) := fun A B k c s =>
  match c s with
  | Done a s' => k a s'
  | Thrown e => Thrown e
  | OutOfFuel => OutOfFuel
  end.

Definition throw {S A} (error : string) : M S A := fun _ => Thrown error.
Definition outOfFuel {S A} : M S A := fun _ => OutOfFuel.

(** A computation that only allocates never throws. *)
Definition liftNew {A} (c : New A) : M Heap A := fun h => let (a, h') := c h in Done a h'.

(** Modelled from the spec: the string values of the [TypeKind] enumeration
    (config) are not among the sources. *)
Definition kindName (k : TypeKind) : string :=
  match k with
  | SCALAR => "SCALAR"
  | ENUM => "ENUM"
  | VALUE_OBJECT => "VALUE_OBJECT"
  | ENTITY_EXTENSION => "ENTITY_EXTENSION"
  | CHILD_ENTITY => "CHILD_ENTITY"
  | ROOT_ENTITY => "ROOT_ENTITY"
  end.

(** ** Model objects *)

(** A type object.  [typeSlot] is its position among the types of the model;
    the placeholder that stands for an unresolved type name has none. *)
Record Type_ := {
  typeSlot : option nat;
  typeInput : TypeConfig
}.

#[global] Instance Type_eq_dec : EqDecision Type_.
Proof. solve_decision. Defined.

(** A field object: the configuration it was constructed from, its declaring
    type, and its position in that type's field list. *)
Record Field := {
  input : FieldConfig;
  declaringType : Type_;
  fieldSlot : nat
}.

#[global] Instance Field_eq_dec : EqDecision Field.
Proof. solve_decision. Defined.

Module Type_.
Definition name (ty : Type_) : string := Config.tcName (typeInput ty).
Definition kind (ty : Type_) : TypeKind := Config.tcKind (typeInput ty).

(** The kind flags, as each type class declares them (see enum-type.ts). *)
Definition isRootEntityType (ty : Type_) : bool := bool_decide (kind ty = ROOT_ENTITY).
Definition isChildEntityType (ty : Type_) : bool := bool_decide (kind ty = CHILD_ENTITY).
Definition isEntityExtensionType (ty : Type_) : bool := bool_decide (kind ty = ENTITY_EXTENSION).
Definition isValueObjectType (ty : Type_) : bool := bool_decide (kind ty = VALUE_OBJECT).
Definition isScalarType (ty : Type_) : bool := bool_decide (kind ty = SCALAR).
Definition isEnumType (ty : Type_) : bool := bool_decide (kind ty = ENUM).
Definition isObjectType (ty : Type_) : bool :=
  isRootEntityType ty || isChildEntityType ty || isEntityExtensionType ty || isValueObjectType ty.

(** [type.fields]: one field object per configured field, in order. *)
Definition fields (ty : Type_) : list Field :=
  imap (fun i c => {| input := c; declaringType := ty; fieldSlot := i |}) (Config.tcFields (typeInput ty)).

(** Modelled from the spec: [getField] of object-type-base.ts is not among
    the sources; it resolves a field of the type by its name. *)
Definition getField (ty : Type_) (n : string) : option Field :=
  List.find (fun f => bool_decide (Config.name (input f) = n)) (fields ty).

(** Modelled from the spec: [keyField] of root-entity-type.ts is not among
    the sources; a root entity type "owns a designated key field". *)
Definition keyField (ty : Type_) : option Field :=
  match Config.tcKeyFieldName (typeInput ty) with
  | Some n => getField ty n
  | None => None
  end.

(** Modelled from the spec: [getKeyFieldOrThrow] of root-entity-type.ts is
    not among the sources; it yields the key field of the type and throws
    when there is none (the text of the error is not known). *)
Definition getKeyFieldOrThrow {S} (ty : Type_) : M S Field :=
  match keyField ty with
  | Some f => mret f
  | None => throw ("Expected " +:+ quoted (name ty) +:+ " to have a key field")
  end.

(** Modelled from the spec: [namespace.getPermissionProfile] is not among
    the sources; the model "stores references to permission profiles", which
    are looked up by name. *)
Definition getPermissionProfile (ty : Type_) (n : string) : option PermissionProfile :=
  List.find (fun p => bool_decide (Config.profileName p = n))
            (Config.namespaceProfiles (typeInput ty)).
End Type_.

(** Modelled from the spec: class Model (model.ts) is not among the sources.
    "Fields carry type-name references resolved against the whole
    collection": a model is the ordered collection of its types (built-in
    scalar types included), a type name resolves to the type registered under
    it, and an unresolved name falls back to a field-less placeholder that
    carries the requested name and is no object type. *)
Module Model.
Definition t := list TypeConfig.

Definition types (m : t) : list Type_ :=
  imap (fun i c => {| typeSlot := Some i; typeInput := c |}) m.

Definition getType (m : t) (n : string) : option Type_ :=
  List.find (fun ty => bool_decide (Type_.name ty = n)) (types m).

Definition invalidType (n : string) : Type_ :=
  {| typeSlot := None;
     typeInput := {| Config.tcName := n; Config.tcKind := SCALAR; Config.tcFields := [];
                     Config.tcKeyFieldName := None; Config.namespaceProfiles := [] |} |}.

Definition getTypeOrFallback (m : t) (n : string) : Type_ :=
  default (invalidType n) (getType m n).
End Model.

(** ** Relations *)

Inductive RelationFieldSide := FROM_SIDE | TO_SIDE.

#[global] Instance RelationFieldSide_eq_dec : EqDecision RelationFieldSide.
Proof. solve_decision. Defined.

(** Modelled from the spec: class Relation (relation.ts) is not among the
    sources.  A relation is "a value computed from a pair of fields:
    fromType, fromField, toType, toField (the inverse field may be absent)";
    it "has two RelationSide views (from-side, to-side)" that are projections
    of the same relation.  [relationId] is the identity of the object that
    [new Relation] created. *)
Record Relation := {
  relationId : nat;
  fromType : Type_;
  fromField : Field;
  toType : Type_;
  toField : option Field
}.

Record RelationSide := {
  relation : Relation;
  side : RelationFieldSide
}.

#[global] Instance Relation_eq_dec : EqDecision Relation.
Proof. solve_decision. Defined.
#[global] Instance RelationSide_eq_dec : EqDecision RelationSide.
Proof. solve_decision. Defined.

Module Relation.
Definition new (fromT : Type_) (fromF : Field) (toT : Type_) (toF : option Field) : New Relation :=
  bindNew alloc (fun id =>
    pureNew {| relationId := id; fromType := fromT; fromField := fromF;
               toType := toT; toField := toF |}).

Definition fromSide (r : Relation) : RelationSide := {| relation := r; side := FROM_SIDE |}.
Definition toSide (r : Relation) : RelationSide := {| relation := r; side := TO_SIDE |}.

(** The four components the relation was constructed from. *)
Definition components (r : Relation) : Type_ * Field * Type_ * option Field :=
  (fromType r, fromField r, toType r, toField r).
End Relation.

(** ** Validation messages and the validation context *)

Inductive Severity := ERROR | WARNING | INFO.

#[global] Instance Severity_eq_dec : EqDecision Severity.
Proof. solve_decision. Defined.

Record ValidationMessage := {
  severity : Severity;
  message : string;
  location : option ASTNode
}.

#[global] Instance ValidationMessage_eq_dec : EqDecision ValidationMessage.
Proof. solve_decision. Defined.

Module ValidationMessage.
Definition error (msg : string) (loc : option ASTNode) : ValidationMessage :=
  {| severity := ERROR; message := msg; location := loc |}.
Definition warn (msg : string) (loc : option ASTNode) : ValidationMessage :=
  {| severity := WARNING; message := msg; location := loc |}.
Definition info (msg : string) (loc : option ASTNode) : ValidationMessage :=
  {| severity := INFO; message := msg; location := loc |}.
End ValidationMessage.

(** The validation context is a sink: the messages added so far, oldest
    first. *)
Definition ValidationContext := list ValidationMessage.

Module ValidationContext.
Definition addMessage (context : ValidationContext) (msg : ValidationMessage) : ValidationContext :=
  context ++ [msg].
End ValidationContext.

(** How a call that may [throw] ends. *)
Inductive Completion (A : Type) :=
  | Return (a : A)
  | Throw (error : string).
Arguments Return {A} a.
Arguments Throw {A} error.

(** An entry of [CALC_MUTATIONS_OPERATORS].  The table itself
    (schema/constants.ts) is not among the sources; the functions that
    consult it take it as an argument. *)
Record CalcMutationOperator := {
  opName : string;
  opPrefix : string;
  supportedTypes : list string
}.

(** ** class Field (field.ts) *)

Module Field.
(** The read-only properties that the constructor copies from its input. *)
Definition name (f : Field) : string := Config.name (input f).
Definition astNode (f : Field) : option ASTNode := Config.astNode (input f).
Definition isList (f : Field) : bool := Config.isList (input f).
Definition isReference (f : Field) : bool := Config.isReference (input f).
Definition isRelation (f : Field) : bool := Config.isRelation (input f).
Definition isSystemField (f : Field) : bool := Config.isSystemField (input f).

Definition isReadOnly (f : Field) : bool := isSystemField f.

Definition type (m : Model.t) (f : Field) : Type_ :=
  Model.getTypeOrFallback m (Config.typeName (input f)).

Definition hasValidType (m : Model.t) (f : Field) : bool :=
  bool_decide (is_Some (Model.getType m (Config.typeName (input f)))).

Definition hasDefaultValue (f : Field) : bool := Config.hasDefault (input f).

Definition permissionProfile (f : Field) : option PermissionProfile :=
  match Config.permissions (input f) with
  | None => None
  | Some p =>
      match Config.permissionProfileName p with
      | None => None
      | Some n => Type_.getPermissionProfile (declaringType f) n
      end
  end.

Definition inverseOf (m : Model.t) (f : Field) : option Field :=
  match Config.inverseOfFieldName (input f) with
  | None => None
  | Some n =>
      let ty := type m f in
      if Type_.isObjectType ty then Type_.getField ty n else None
  end.

Definition inverseField (m : Model.t) (f : Field) : option Field :=
  let ty := type m f in
  if Type_.isObjectType ty
  then List.find (fun g => bool_decide (inverseOf m g = Some f)) (Type_.fields ty)
  else None.

Definition relationSide (m : Model.t) (f : Field) : New (option RelationSide) :=
  if negb (isRelation f)
     || negb (Type_.isRootEntityType (declaringType f))
     || negb (Type_.isRootEntityType (type m f))
  then pureNew None
  else
    match inverseOf m f with
    | Some inv =>
        (* this is the to side *)
        bindNew (Relation.new (type m f) inv (declaringType f) (Some f))
                (fun r => pureNew (Some (Relation.toSide r)))
    | None =>
        (* this is the from side *)
        bindNew (Relation.new (declaringType f) f (type m f) (inverseField m f))
                (fun r => pureNew (Some (Relation.fromSide r)))
    end.

(** [`${this}`] prints an object. *)
Definition getRelationSideOrThrow (m : Model.t) (f : Field) : M Heap RelationSide :=
  if bool_decide (Type_.kind (type m f) <> ROOT_ENTITY) then
    throw ("Expected " +:+ quoted (Type_.name (type m f))
             +:+ " to be a root entity, but is " +:+ kindName (Type_.kind (type m f)))
  else if bool_decide (Type_.kind (declaringType f) <> ROOT_ENTITY) then
    throw ("Expected " +:+ quoted (Type_.name (declaringType f))
             +:+ " to be a root entity, but is " +:+ kindName (Type_.kind (declaringType f)))
  else
    relationSide_ ← liftNew (relationSide m f);
    match relationSide_ with
    | None =>
        throw ("Expected " +:+ quoted (Type_.name (declaringType f) +:+ ".[object Object]")
                 +:+ " to be a relation")
    | Some s => mret s
    end.

Definition getRelationOrThrow (m : Model.t) (f : Field) : M Heap Relation :=
  s ← getRelationSideOrThrow m f; mret (relation s).

(** The getter [relation] (field.ts, lines 86-92); it comes last here, since
    from here on the name stands for it and no longer for the relation of a
    side. *)
Definition relation (m : Model.t) (f : Field) : New (option Relation) :=
  bindNew (relationSide m f) (fun rs =>
    pureNew (match rs with
             | None => None
             | Some s => Some (relation s)
             end)).

(** [this.calcMutationOperators = new Set(input.calcMutationOperators || [])] *)
Definition calcMutationOperators (f : Field) : list string :=
  JsSet.ofList (Config.calcMutationOperators (input f)).

(** *** Validation (field.ts, lines 152-367) *)

Import ValidationContext.

Definition validateName (f : Field) (context : ValidationContext) : ValidationContext :=
  if bool_decide (name f = "") then
    addMessage context (ValidationMessage.error "Field name is empty." (astNode f))
  else if JsString.startsWith (name f) "_" then
    (* leading underscores are reserved for internal names *)
    addMessage context
      (ValidationMessage.error "Field names cannot start with an underscore." (astNode f))
  else if JsString.includes (name f) "_" then
    addMessage context
      (ValidationMessage.warn "Field names should not include underscores." (astNode f))
  else if negb (JsString.matchesLowercaseInitial (name f)) then
    addMessage context
      (ValidationMessage.warn "Field names should start with a lowercase character." (astNode f))
  else context.

Definition validateType (m : Model.t) (f : Field) (context : ValidationContext) : ValidationContext :=
  if negb (bool_decide (is_Some (Model.getType m (Config.typeName (input f))))) then
    addMessage context
      (ValidationMessage.error ("Type " +:+ quoted (Config.typeName (input f)) +:+ " not found.")
         (orElse (Config.typeNameAST (input f)) (astNode f)))
  else context.

(** [`Field "${this.type.name}.${this.input.inverseOfFieldName}" used as
    inverse field of "${this.declaringType.name}.${this.name}"`] *)
Definition inverseFieldDesc (m : Model.t) (f : Field) (inverseOfFieldName : string) : string :=
  "Field " +:+ quoted (Type_.name (type m f) +:+ "." +:+ inverseOfFieldName)
    +:+ " used as inverse field of "
    +:+ quoted (Type_.name (declaringType f) +:+ "." +:+ name f).

Definition validateRelation (m : Model.t) (f : Field) (context : ValidationContext)
  : ValidationContext :=
  if negb (isRelation f) then context
  else
    let context :=
      if bool_decide (Type_.kind (declaringType f) <> ROOT_ENTITY) then
        addMessage context
          (ValidationMessage.error
             "Relations can only be defined on root entity types. Consider using @reference instead."
             (astNode f))
      else context in
    (* do target type validations only if it resolved correctly *)
    if negb (hasValidType m f) then context
    else if bool_decide (Type_.kind (type m f) <> ROOT_ENTITY) then
      addMessage context
        (ValidationMessage.error
           ("Type " +:+ quoted (Type_.name (type m f))
              +:+ " cannot be used with @relation because it is not a root entity type.")
           (astNode f))
    else
      match Config.inverseOfFieldName (input f) with
      | Some inverseOfFieldName =>
          let inverseOfLoc := orElse (Config.inverseOfASTNode (input f)) (astNode f) in
          match Type_.getField (type m f) inverseOfFieldName with
          | None =>
              addMessage context
                (ValidationMessage.error
                   ("Field " +:+ quoted inverseOfFieldName +:+ " does not exist on type "
                      +:+ quoted (Type_.name (type m f)) +:+ ".")
                   inverseOfLoc)
          | Some inverseOf_ =>
              if bool_decide (type m inverseOf_ <> declaringType f) then
                addMessage context
                  (ValidationMessage.error
                     (inverseFieldDesc m f inverseOfFieldName +:+ " has named type "
                        +:+ quoted (Type_.name (type m inverseOf_)) +:+ " but should be of type "
                        +:+ quoted (Type_.name (declaringType f)) +:+ ".")
                     inverseOfLoc)
              else if negb (isRelation inverseOf_) then
                addMessage context
                  (ValidationMessage.error
                     (inverseFieldDesc m f inverseOfFieldName
                        +:+ " does not have the @relation directive.")
                     inverseOfLoc)
              else if bool_decide (is_Some (inverseOf m inverseOf_)) then
                addMessage context
                  (ValidationMessage.error
                     (inverseFieldDesc m f inverseOfFieldName
                        +:+ " should not declare inverseOf itself.")
                     inverseOfLoc)
              else context
          end
      | None =>
          (* look for @relation(inverseOf: "thisField") in the target type *)
          let inverseFields :=
            filter (fun g => inverseOf m g = Some f) (Type_.fields (type m f)) in
          if bool_decide (length inverseFields = 0) then
            match List.find
                    (fun g => isRelation g
                              && bool_decide (type m g = declaringType f)
                              && bool_decide (Config.inverseOfFieldName (input g) = None))
                    (Type_.fields (type m f)) with
            | Some matchingRelation =>
                addMessage context
                  (ValidationMessage.warn
                     ("This field and "
                        +:+ quoted (Type_.name (declaringType matchingRelation) +:+ "."
                                      +:+ name matchingRelation)
                        +:+ " define separate relations. Consider using the "
                        +:+ quoted "inverseOf"
                        +:+ " argument to add a backlink to an existing relation.")
                     (astNode f))
            | None => context
            end
          else if bool_decide (1 < length inverseFields) then
            let names :=
              JsString.join ", "
                (map (fun g => quoted (Type_.name (type m f) +:+ "." +:+ name g)) inverseFields) in
            (* found multiple inverse fields - this is an error *)
            foldl (fun ctx inverseField_ =>
                     addMessage ctx
                       (ValidationMessage.error
                          ("Multiple fields (" +:+ names +:+ ") declare inverseOf to "
                             +:+ quoted (Type_.name (declaringType f) +:+ "." +:+ name f) +:+ ".")
                          (astNode inverseField_)))
                  context inverseFields
          else context
      end.

(** The loop of [validateCalcMutations] over the declared operators.  An
    operator that is not in the table throws; what was added to the context
    before stays there. *)
Fixpoint checkCalcMutationOperators (operators : list CalcMutationOperator)
    (typeName_ : string) (loc : option ASTNode) (supportedOperatorsDesc : string)
    (declared : list string) (context : ValidationContext)
  : Completion unit * ValidationContext :=
  match declared with
  | [] => (Return tt, context)
  | operator :: rest =>
      match List.find (fun op => bool_decide (opName op = operator)) operators with
      | None => (Throw ("Unknown calc mutation operator: " +:+ operator), context)
      | Some desc =>
          let context :=
            if negb (bool_decide (typeName_ ∈ supportedTypes desc)) then
              addMessage context
                (ValidationMessage.error
                   ("Calc mutation operator " +:+ quoted operator
                      +:+ " is not supported on type " +:+ quoted typeName_
                      +:+ " (supported operators: " +:+ supportedOperatorsDesc +:+ ").")
                   loc)
            else context in
          checkCalcMutationOperators operators typeName_ loc supportedOperatorsDesc rest context
      end
  end.

Definition validateCalcMutations (operators : list CalcMutationOperator)
    (m : Model.t) (f : Field) (context : ValidationContext)
  : Completion unit * ValidationContext :=
  if bool_decide (JsSet.size (calcMutationOperators f) = 0) then (Return tt, context)
  else if isList f then
    (Return tt,
     addMessage context
       (ValidationMessage.error "Calc mutations are not supported on list fields." (astNode f)))
  else
    let supportedOperators :=
      filter (fun op => Type_.name (type m f) ∈ supportedTypes op) operators in
    let supportedOperatorsDesc :=
      JsString.join ", " (map (fun op => quoted (opName op)) supportedOperators) in
    if bool_decide (0 < JsSet.size (calcMutationOperators f))
       && bool_decide (length supportedOperators = 0) then
      (Return tt,
       addMessage context
         (ValidationMessage.error
            ("Type " +:+ quoted (Type_.name (type m f))
               +:+ " does not support any calc mutation operators.")
            (astNode f)))
    else
      checkCalcMutationOperators operators (Type_.name (type m f)) (astNode f)
        supportedOperatorsDesc (calcMutationOperators f) context.

Definition validateRootEntityType (m : Model.t) (f : Field) (context : ValidationContext)
  : ValidationContext :=
  (* this does not fit anywhere else properly *)
  let context :=
    if isReference f && isRelation f then
      addMessage context
        (ValidationMessage.error "@reference and @relation cannot be combined." (astNode f))
    else context in
  if bool_decide (Type_.kind (type m f) <> ROOT_ENTITY) then context
  else
    (* root entities are not embeddable *)
    if negb (isRelation f) && negb (isReference f) then
      if bool_decide (Type_.kind (declaringType f) = VALUE_OBJECT) then
        addMessage context
          (ValidationMessage.error
             ("Type " +:+ quoted (Type_.name (type m f))
                +:+ " is a root entity type and cannot be embedded. Consider adding @reference.")
             (astNode f))
      else
        addMessage context
          (ValidationMessage.error
             ("Type " +:+ quoted (Type_.name (type m f))
                +:+ " is a root entity type and cannot be embedded. Consider adding @reference or @relation.")
             (astNode f))
    else context.

Definition validateReference (m : Model.t) (f : Field) (context : ValidationContext)
  : ValidationContext :=
  if negb (isReference f) then context
  (* do target type validations only if it resolved correctly *)
  else if negb (hasValidType m f) then context
  else if bool_decide (Type_.kind (type m f) <> ROOT_ENTITY) then
    addMessage context
      (ValidationMessage.error
         (quoted (Type_.name (type m f))
            +:+ " cannot be used as @reference type because is not a root entity type.")
         (astNode f))
  else
    let context :=
      if isList f then
        addMessage context
          (ValidationMessage.error
             "@reference is not supported with list types. Consider wrapping the reference in a child entity or value object type."
             (astNode f))
      else context in
    match Type_.keyField (type m f) with
    | None =>
        addMessage context
          (ValidationMessage.error
             (quoted (Type_.name (type m f))
                +:+ " cannot be used as @reference type because it does not have a field annotated with @key.")
             (astNode f))
    | Some _ => context
    end.

Definition validateEntityExtensionType (m : Model.t) (f : Field) (context : ValidationContext)
  : ValidationContext :=
  if bool_decide (Type_.kind (type m f) <> ENTITY_EXTENSION) then context
  else if bool_decide (Type_.kind (declaringType f) = VALUE_OBJECT) then
    addMessage context
      (ValidationMessage.error
         ("Type " +:+ quoted (Type_.name (type m f))
            +:+ " is an entity extension type and cannot be used within value object types. Change "
            +:+ quoted (Type_.name (declaringType f))
            +:+ " to an entity extension type or use a value object type for "
            +:+ quoted (name f) +:+ ".")
         (astNode f))
  else if isList f then
    addMessage context
      (ValidationMessage.error
         ("Type " +:+ quoted (Type_.name (type m f))
            +:+ " is an entity extension type and cannot be used in a list. Change the field type to "
            +:+ quoted (Type_.name (type m f))
            +:+ " (without brackets), or use a child entity or value object type instead.")
         (astNode f))
  else context.

Definition validateChildEntityType (m : Model.t) (f : Field) (context : ValidationContext)
  : ValidationContext :=
  if bool_decide (Type_.kind (type m f) <> CHILD_ENTITY) then context
  else if bool_decide (Type_.kind (declaringType f) = VALUE_OBJECT) then
    addMessage context
      (ValidationMessage.error
         ("Type " +:+ quoted (Type_.name (type m f))
            +:+ " is a child entity type and cannot be used within value object types. Change "
            +:+ quoted (Type_.name (declaringType f))
            +:+ " to an entity extension type or use a value object type for "
            +:+ quoted (name f) +:+ ".")
         (astNode f))
  else if negb (isList f) then
    addMessage context
      (ValidationMessage.error
         ("Type " +:+ quoted (Type_.name (type m f))
            +:+ " is a child entity type and can only be used in a list. Change the field type to "
            +:+ quoted ("[" +:+ Type_.name (type m f) +:+ "]")
            +:+ ", or use an entity extension or value object type instead.")
         (astNode f))
  else context.

Definition validateDefaultValue (f : Field) (context : ValidationContext) : ValidationContext :=
  if negb (Config.hasDefault (input f)) then context
  else if isRelation f then
    addMessage context
      (ValidationMessage.error "Default values are not supported on relations."
         (orElse (Config.defaultValueASTNode (input f)) (astNode f)))
  else
    addMessage context
      (ValidationMessage.info "Take care, there are no type checks for default values yet."
         (orElse (Config.defaultValueASTNode (input f)) (astNode f))).

Section WithRoles.
(** [RolesSpecifier] (roles-specifier.ts) and the roles configuration are not
    among the sources: the location of the roles configuration and the
    validation of the role specifier are taken as given. *)
Variable rolesAstNode : list string -> option ASTNode.
Variable rolesValidate : list string -> ValidationContext -> Completion unit * ValidationContext.

(** [this.roles]: the role specifier, when the permissions configure roles. *)
Definition roles (f : Field) : option (list string) :=
  match Config.permissions (input f) with
  | Some p => Config.roles p
  | None => None
  end.

Definition validatePermissions (f : Field) (context : ValidationContext)
  : Completion unit * ValidationContext :=
  (* [this.input.permissions || {}] *)
  let profileName_ :=
    match Config.permissions (input f) with
    | Some p => Config.permissionProfileName p
    | None => None
    end in
  let profileLoc :=
    orElse (match Config.permissions (input f) with
            | Some p => Config.permissionProfileNameAstNode p
            | None => None
            end)
           (astNode f) in
  let context :=
    match profileName_, roles f with
    | Some _, Some r =>
        let msg := "Permission profile and explicit role specifiers cannot be combined." in
        addMessage (addMessage context (ValidationMessage.error msg profileLoc))
          (ValidationMessage.error msg (orElse (rolesAstNode r) (astNode f)))
    | _, _ => context
    end in
  let context :=
    match profileName_ with
    | Some n =>
        match Type_.getPermissionProfile (declaringType f) n with
        | None =>
            addMessage context
              (ValidationMessage.error ("Permission profile " +:+ quoted n +:+ " not found.")
                 profileLoc)
        | Some _ => context
        end
    | None => context
    end in
  match roles f with
  | Some r => rolesValidate r context
  | None => (Return tt, context)
  end.

(** [validate]: the validators in the order of the source; the two that may
    throw end the validation when they do. *)
Definition validate (operators : list CalcMutationOperator) (m : Model.t) (f : Field)
    (context : ValidationContext) : Completion unit * ValidationContext :=
  let context := validateName f context in
  let context := validateType m f context in
  match validatePermissions f context with
  | (Throw e, context) => (Throw e, context)
  | (Return _, context) =>
      let context := validateRootEntityType m f context in
      let context := validateEntityExtensionType m f context in
      let context := validateChildEntityType m f context in
      let context := validateRelation m f context in
      let context := validateReference m f context in
      let context := validateDefaultValue f context in
      validateCalcMutations operators m f context
  end.
End WithRoles.
End Field.

(** ** Collection names (src/unnamed/part_000) *)

Module CollectionNames.
Section WithNaming.
(** [pluralize] is a library and [decapitalize] (utils) is not among the
    sources. *)
Variable pluralize : string -> string.
Variable decapitalize : string -> string.

Definition getCollectionNameForRootEntity (ty : Type_) : string :=
  decapitalize (pluralize (Type_.name ty)).

Definition getCollectionNameForRelation (r : Relation) : string :=
  getCollectionNameForRootEntity (fromType r) +:+ "_" +:+ Field.name (fromField r).
End WithNaming.
End CollectionNames.

(** ** The query tree (the node classes used by field-nodes.ts) *)

Inductive BasicType := OBJECT | LIST | SCALAR_VALUE | NULL.
Inductive BinaryOperator := AND | OR | EQUAL | UNEQUAL.

(** Modelled from the spec: the node classes (query-tree) are not among the
    sources; each constructor carries the arguments that field-nodes.ts
    passes to the class constructor.  A [VariableQueryNode] is a binder, so
    the identity of the object is kept next to its label. *)
Inductive QueryNode :=
  | FieldQueryNode (objectNode : QueryNode) (field : Field)
  | VariableQueryNode (variableId : nat) (label : string)
  | BinaryOperationQueryNode (lhs : QueryNode) (operator : BinaryOperator) (rhs : QueryNode)
  | NullQueryNode
  | EntitiesQueryNode (rootEntityType : Type_)
  | TransformListQueryNode (listNode filterNode : QueryNode) (maxCount : option nat)
      (itemVariable : QueryNode)
  | FirstOfListQueryNode (listNode : QueryNode)
  | ConditionalQueryNode (condition expr1 expr2 : QueryNode)
  | TypeCheckQueryNode (valueNode : QueryNode) (type : BasicType)
  | RootEntityIDQueryNode (objectNode : QueryNode)
  | FollowEdgeQueryNode (relationSide : RelationSide) (sourceEntityNode : QueryNode)
  | ListQueryNode (itemNodes : list QueryNode)
  | ObjectQueryNode (properties : list (string * QueryNode))
  | LiteralQueryNode (value : AnyValue).

Module QueryNode.
(** [NullQueryNode.NULL] and [ObjectQueryNode.EMPTY] *)
Definition NULL_NODE : QueryNode := NullQueryNode.
Definition EMPTY : QueryNode := ObjectQueryNode [].

(** Does the tree contain a node that yields entities: an entity-set node,
    or an edge traversal, which yields the entities connected to its
    source? *)
Fixpoint readsEntities (n : QueryNode) : bool :=
  match n with
  | FieldQueryNode o _ => readsEntities o
  | VariableQueryNode _ _ => false
  | BinaryOperationQueryNode l _ r => readsEntities l || readsEntities r
  | NullQueryNode => false
  | EntitiesQueryNode _ => true
  | TransformListQueryNode l f _ v => readsEntities l || readsEntities f || readsEntities v
  | FirstOfListQueryNode l => readsEntities l
  | ConditionalQueryNode c a b => readsEntities c || readsEntities a || readsEntities b
  | TypeCheckQueryNode v _ => readsEntities v
  | RootEntityIDQueryNode o => readsEntities o
  | FollowEdgeQueryNode _ _ => true
  | ListQueryNode items => existsb readsEntities items
  | ObjectQueryNode props => existsb (fun p => readsEntities (snd p)) props
  | LiteralQueryNode _ => false
  end.
End QueryNode.

(** Modelled from the spec: [ID_FIELD] (schema/constants.ts) is not among the
    sources; the system identity field is the one named "id". *)
Definition ID_FIELD : string := "id".

Module FilterConstants.
(** Modelled from the spec: [and] (filter-input-types/constants.ts) is not
    among the sources; it builds "the conjunction" of two filter nodes. *)
Definition and (lhs rhs : QueryNode) : QueryNode := BinaryOperationQueryNode lhs AND rhs.
End FilterConstants.

(** ** field-nodes.ts *)

Module FieldNodes.

Definition createSafeListQueryNode (listNode : QueryNode) : QueryNode :=
  (* to avoid errors because of eagerly evaluated list expression, we just
     convert non-lists to an empty list *)
  ConditionalQueryNode (TypeCheckQueryNode listNode LIST) listNode (ListQueryNode []).

Definition createToNRelationNode (m : Model.t) (field : Field) (sourceNode : QueryNode)
  : M Heap QueryNode :=
  relationSide ← Field.getRelationSideOrThrow m field;
  mret (FollowEdgeQueryNode relationSide sourceNode).

Definition createTo1RelationNode (m : Model.t) (field : Field) (sourceNode : QueryNode)
  : M Heap QueryNode :=
  relationSide ← Field.getRelationSideOrThrow m field;
  let followNode := FollowEdgeQueryNode relationSide sourceNode in
  mret (FirstOfListQueryNode followNode).

(** [createTo1ReferenceNode] calls back into [createFieldNode] for the key
    field of the referenced type; the call is the argument
    [createFieldNode_]. *)
Definition createTo1ReferenceNode
    (createFieldNode_ : Field -> QueryNode -> M Heap QueryNode)
    (m : Model.t) (field : Field) (sourceNode : QueryNode) : M Heap QueryNode :=
  let referencedEntityType := Field.type m field in
  keyFieldInReferencedEntity ← Type_.getKeyFieldOrThrow referencedEntityType;
  let referenceKeyNode := FieldQueryNode sourceNode field in
  variableId ← liftNew alloc;
  let listItemVar := VariableQueryNode variableId (Field.name field) in
  itemKeyNode ← createFieldNode_ keyFieldInReferencedEntity listItemVar;
  let equalFilterNode := BinaryOperationQueryNode itemKeyNode EQUAL referenceKeyNode in
  (* a hint for the database that we are not interested in items where the
     key is null so it can use sparse indices *)
  let nonNullFilterNode := BinaryOperationQueryNode itemKeyNode UNEQUAL QueryNode.NULL_NODE in
  let filterNode := FilterConstants.and nonNullFilterNode equalFilterNode in
  let listNode := EntitiesQueryNode referencedEntityType in
  let filteredListNode :=
    TransformListQueryNode listNode filterNode (Some 1) listItemVar in
  let rawNode := FirstOfListQueryNode filteredListNode in
  mret (ConditionalQueryNode (TypeCheckQueryNode referenceKeyNode NULL)
          QueryNode.NULL_NODE rawNode).

(** [fuel] bounds the depth of the calls of [createFieldNode] through key
    fields that are themselves references. *)
Fixpoint createFieldNode (fuel : nat) (m : Model.t) (field : Field) (sourceNode : QueryNode)
  : M Heap QueryNode :=
  match fuel with
  | 0 => outOfFuel
  | S fuel' =>
      if Field.isList field then
        if Field.isRelation field then createToNRelationNode m field sourceNode
        else
          (* there are no lists of references *)
          mret (createSafeListQueryNode (FieldQueryNode sourceNode field))
      else if Field.isRelation field then createTo1RelationNode m field sourceNode
      else if Field.isReference field then
        createTo1ReferenceNode (createFieldNode fuel' m) m field sourceNode
      else if Type_.isRootEntityType (declaringType field)
              && Field.isSystemField field
              && bool_decide (Field.name field = ID_FIELD) then
        mret (RootEntityIDQueryNode sourceNode)
      else
        let fieldNode := FieldQueryNode sourceNode field in
        if Type_.isEntityExtensionType (Field.type m field) then
          mret (ConditionalQueryNode (TypeCheckQueryNode fieldNode OBJECT) fieldNode
                  QueryNode.EMPTY)
        else mret fieldNode
  end.
End FieldNodes.

(** ** Update input fields (update-input-types/input-fields.ts) *)

(** Modelled from the spec: the GraphQL type constructors come from the
    graphql library; a named type is kept by its name. *)
Inductive GraphQLInputType :=
  | GraphQLID
  | GraphQLNamedType (typeName : string)
  | GraphQLList (ofType : GraphQLInputType)
  | GraphQLNonNull (ofType : GraphQLInputType).

(** [CreateObjectInputType] (create-input-types) is not among the sources.
    The update input fields use three of its methods; an object of the class
    is the record of these methods. *)
Record CreateObjectInputType := {
  getInputType : GraphQLInputType;
  prepareValue : AnyValue -> Completion AnyValue;
  createCollectAffectedFields : AnyValue -> M (list Field) unit
}.

(** [new SetFieldQueryNode(field, valueNode)] *)
Record SetFieldQueryNode := {
  setField : Field;
  valueNode : QueryNode
}.

(** The compiled input object types ([UpdateRootEntityInputType] and its
    siblings, input-types.ts, not among the sources).  The constructor
    receives the type, the name of the input type and a thunk that yields the
    input fields when it is first needed; the thunk is kept by the options it
    passes to [generateFields]. *)
Inductive UpdateObjectInputTypeClass :=
  | UpdateRootEntityInputType
  | UpdateEntityExtensionInputType
  | UpdateChildEntityInputType.

Record GenerateFieldsOptions := {
  skipID : bool;
  skipRelations : bool
}.

Record UpdateObjectInputType := {
  inputTypeId : nat;
  inputTypeClass : UpdateObjectInputTypeClass;
  objectType : Type_;
  inputTypeName : string;
  fieldOptions : GenerateFieldsOptions
}.

#[global] Instance UpdateObjectInputTypeClass_eq_dec : EqDecision UpdateObjectInputTypeClass.
Proof. solve_decision. Defined.
#[global] Instance GenerateFieldsOptions_eq_dec : EqDecision GenerateFieldsOptions.
Proof. solve_decision. Defined.
#[global] Instance UpdateObjectInputType_eq_dec : EqDecision UpdateObjectInputType.
Proof. solve_decision. Defined.

(** The classes that implement [UpdateInputField].  The first five are
    defined in input-fields.ts; of the others only the constructor calls in
    [generateFields] are among the sources. *)
Inductive UpdateInputField :=
  | UpdateFilterInputField (field : Field) (inputType : GraphQLInputType)
  | BasicUpdateInputField (field : Field) (inputType : GraphQLInputType)
  | BasicListUpdateInputField (field : Field) (inputType : GraphQLInputType)
  | UpdateValueObjectInputField (field : Field) (objectInputType : CreateObjectInputType)
  | UpdateValueObjectListInputField (field : Field) (objectInputType : CreateObjectInputType)
  | CalcMutationInputField (field : Field) (inputType : GraphQLInputType)
      (operator : string) (operatorPrefix : string)
  | UpdateEntityExtensionInputField (field : Field) (inputType : UpdateObjectInputType)
  | AddChildEntitiesInputField (field : Field) (createInputType : CreateObjectInputType)
  | UpdateChildEntitiesInputField (field : Field) (inputType : UpdateObjectInputType)
  | RemoveChildEntitiesInputField (field : Field)
  | AddEdgesInputField (field : Field)
  | RemoveEdgesInputField (field : Field)
  | CreateAndAddEdgesInputField (field : Field) (createInputType : CreateObjectInputType)
  | SetEdgeInputField (field : Field)
  | CreateAndSetEdgeInputField (field : Field) (createInputType : CreateObjectInputType).

Module UpdateInputField.
(** The [field] every input field is constructed with. *)
Definition field (i : UpdateInputField) : Field :=
  match i with
  | UpdateFilterInputField f _ | BasicUpdateInputField f _ | BasicListUpdateInputField f _
  | UpdateValueObjectInputField f _ | UpdateValueObjectListInputField f _
  | CalcMutationInputField f _ _ _ | UpdateEntityExtensionInputField f _
  | AddChildEntitiesInputField f _ | UpdateChildEntitiesInputField f _
  | RemoveChildEntitiesInputField f | AddEdgesInputField f | RemoveEdgesInputField f
  | CreateAndAddEdgesInputField f _ | SetEdgeInputField f
  | CreateAndSetEdgeInputField f _ => f
  end.
End UpdateInputField.

(** [xs.forEach(body)] over a body that works on a state and may throw. *)
Fixpoint forEach {S A} (body : A -> M S unit) (xs : list A) : M S unit :=
  match xs with
  | [] => mret tt
  | x :: rest => _ ← body x; forEach body rest
  end.

(** [xs.map(f)] over an [f] that may throw. *)
Fixpoint mapCompletion {A B} (f : A -> Completion B) (xs : list A) : Completion (list B) :=
  match xs with
  | [] => Return []
  | x :: rest =>
      match f x with
      | Throw e => Throw e
      | Return y =>
          match mapCompletion f rest with
          | Throw e => Throw e
          | Return ys => Return (y :: ys)
          end
      end
  end.

Module UpdateFilterInputField.
Definition name (field : Field) : string := Field.name field.
Definition appliesToMissingFields : bool := false.

(** [getProperties()] ignores its arguments. *)
Definition getProperties (value : AnyValue) (currentEntityNode : QueryNode)
  : list SetFieldQueryNode := [].

(** [collectAffectedFields()] ignores its arguments, leaves the set alone
    (this field is not updated) and returns an empty array. *)
Definition collectAffectedFields (value : AnyValue) : M (list Field) (list Field) :=
  mret [].
End UpdateFilterInputField.

Module BasicUpdateInputField.
Definition coerceValue (value : AnyValue) : AnyValue := value.

(** [getProperties] of the base class, over the [coerceValue] of the class
    of the receiver. *)
Definition getPropertiesWith (coerceValue_ : AnyValue -> Completion AnyValue)
    (field : Field) (value : AnyValue) : Completion (list SetFieldQueryNode) :=
  match coerceValue_ value with
  | Throw e => Throw e
  | Return value =>
      Return [ {| setField := field; valueNode := LiteralQueryNode value |} ]
  end.

Definition getProperties (field : Field) (value : AnyValue)
  : Completion (list SetFieldQueryNode) :=
  getPropertiesWith (fun v => Return (coerceValue v)) field value.

(** [fields.add(this.field)] *)
Definition collectAffectedFields (field : Field) (value : AnyValue) : M (list Field) unit :=
  fun fields => Done tt (JsSet.add fields field).

Definition appliesToMissingFields : bool := false.
End BasicUpdateInputField.

Module BasicListUpdateInputField.
Definition coerceValue (value : AnyValue) : AnyValue :=
  let value := BasicUpdateInputField.coerceValue value in
  match value with
  | VNull =>
      (* null is not a valid list value - if the user specified it, coerce
         it to [] to not have a mix of [] and null in the database *)
      VArray []
  | _ => value
  end.

Definition getProperties (field : Field) (value : AnyValue)
  : Completion (list SetFieldQueryNode) :=
  BasicUpdateInputField.getPropertiesWith (fun v => Return (coerceValue v)) field value.

(** inherited *)
Definition collectAffectedFields := BasicUpdateInputField.collectAffectedFields.
End BasicListUpdateInputField.

Module UpdateValueObjectInputField.
Definition inputType (objectInputType : CreateObjectInputType) : GraphQLInputType :=
  getInputType objectInputType.

Definition coerceValue (objectInputType : CreateObjectInputType) (value : AnyValue)
  : Completion AnyValue :=
  let value := BasicUpdateInputField.coerceValue value in
  match value with
  | VUndefined | VNull => Return value
  | _ => prepareValue objectInputType value
  end.

Definition getProperties (field : Field) (objectInputType : CreateObjectInputType)
    (value : AnyValue) : Completion (list SetFieldQueryNode) :=
  BasicUpdateInputField.getPropertiesWith (coerceValue objectInputType) field value.

Definition collectAffectedFields (field : Field) (objectInputType : CreateObjectInputType)
    (value : AnyValue) : M (list Field) unit :=
  _ ← BasicUpdateInputField.collectAffectedFields field value;
  match value with
  | VUndefined | VNull => mret tt
  | _ => createCollectAffectedFields objectInputType value
  end.
End UpdateValueObjectInputField.

Module UpdateValueObjectListInputField.
Definition inputType (objectInputType : CreateObjectInputType) : GraphQLInputType :=
  GraphQLList (GraphQLNonNull (getInputType objectInputType)).

(** [typeof value] for the values that are not arrays *)
Definition typeOf (value : AnyValue) : string :=
  match value with
  | VUndefined => "undefined"
  | VNull | VArray _ | VObject _ => "object"
  | VBool _ => "boolean"
  | VNumber _ => "number"
  | VString _ => "string"
  end.

Definition notAnArray (field : Field) (value : AnyValue) : string :=
  "Expected value for " +:+ quoted (Field.name field) +:+ " to be an array, but is "
    +:+ quoted (typeOf value).

Definition coerceValue (field : Field) (objectInputType : CreateObjectInputType)
    (value : AnyValue) : Completion AnyValue :=
  let value := BasicUpdateInputField.coerceValue value in
  match value with
  | VNull =>
      (* null is not a valid list value - if the user specified it, coerce
         it to [] to not have a mix of [] and null in the database *)
      Return (VArray [])
  | VUndefined => Return VUndefined
  | VArray items =>
      match mapCompletion (prepareValue objectInputType) items with
      | Throw e => Throw e
      | Return items' => Return (VArray items')
      end
  | _ => Throw (notAnArray field value)
  end.

Definition getProperties (field : Field) (objectInputType : CreateObjectInputType)
    (value : AnyValue) : Completion (list SetFieldQueryNode) :=
  BasicUpdateInputField.getPropertiesWith (coerceValue field objectInputType) field value.

Definition collectAffectedFields (field : Field) (objectInputType : CreateObjectInputType)
    (value : AnyValue) : M (list Field) unit :=
  _ ← BasicUpdateInputField.collectAffectedFields field value;
  match value with
  | VUndefined | VNull => mret tt
  | VArray items => forEach (createCollectAffectedFields objectInputType) items
  | _ => throw (notAnArray field value)
  end.
End UpdateValueObjectListInputField.

(** ** The update input type generator (update-input-types/generator.ts) *)

(** The collaborators the generator is constructed with (enum-type-generator
    and create-input-types are not among the sources): objects given by the
    methods that the generator calls. *)
Record EnumTypeGenerator := {
  enumGenerate : Type_ -> GraphQLInputType
}.

Record CreateInputTypeGenerator := {
  createGenerate : Type_ -> CreateObjectInputType;
  createGenerateForChildEntityType : Type_ -> CreateObjectInputType;
  createGenerateForRootEntityType : Type_ -> CreateObjectInputType
}.

Record UpdateInputTypeGenerator := {
  enumTypeGenerator : EnumTypeGenerator;
  createInputTypeGenerator : CreateInputTypeGenerator
}.

(** The methods of the generator that carry the [@memorize()] decorator. *)
Inductive MemoizedMethod :=
  | generate_
  | generateForRootEntityType_
  | generateUpdateAllRootEntitiesInputType_
  | generateForEntityExtensionType_
  | generateForChildEntityType_.

#[global] Instance MemoizedMethod_eq_dec : EqDecision MemoizedMethod.
Proof. solve_decision. Defined.

(** What a generator object holds while the program runs: the allocation
    counter and, per memoized method, the results computed so far, keyed by
    the argument object. *)
Record GeneratorState := {
  heap : Heap;
  memo : list (MemoizedMethod * Type_ * UpdateObjectInputType)
}.

Module Memorize.
Definition lookup (method : MemoizedMethod) (ty : Type_) (st : GeneratorState)
  : option UpdateObjectInputType :=
  match List.find (fun e => bool_decide (fst e = (method, ty))) (memo st) with
  | Some e => Some (snd e)
  | None => None
  end.

Definition store (method : MemoizedMethod) (ty : Type_) (r : UpdateObjectInputType)
    (st : GeneratorState) : GeneratorState :=
  {| heap := heap st; memo := memo st ++ [(method, ty, r)] |}.

(** Modelled from the spec: the decorator of the memorize-decorator library;
    the result of a call is kept per argument, "so repeated requests for the
    same type's input shape return the identical compiled object".  A call
    that throws leaves nothing behind. *)
Definition memorize (method : MemoizedMethod)
    (body : Type_ -> M GeneratorState UpdateObjectInputType) (ty : Type_)
  : M GeneratorState UpdateObjectInputType :=
  fun st =>
    match lookup method ty st with
    | Some r => Done r st
    | None =>
        match body ty st with
        | Done r st' => Done r (store method ty r st')
        | Thrown e => Thrown e
        | OutOfFuel => OutOfFuel
        end
    end.
End Memorize.

Module UpdateInputTypeGenerator.
Import Memorize.

(** Modelled from the spec: [graphQLScalarType] of scalar-type.ts is not
    among the sources; the GraphQL type of a scalar type, kept by name. *)
Definition graphQLScalarType (ty : Type_) : GraphQLInputType :=
  GraphQLNamedType (Type_.name ty).

(** Modelled from the spec: [getKeyFieldTypeOrThrow] of root-entity-type.ts
    is not among the sources; the scalar type of the key field, or an
    error (its text is not known). *)
Definition getKeyFieldTypeOrThrow {S} (m : Model.t) (ty : Type_) : M S Type_ :=
  keyField ← Type_.getKeyFieldOrThrow ty;
  if Type_.isScalarType (Field.type m keyField) then mret (Field.type m keyField)
  else throw ("Expected the key field of " +:+ quoted (Type_.name ty) +:+ " to be a scalar").

(** [new UpdateRootEntityInputType(type, name, () => ...)] and siblings *)
Definition newInputType (class : UpdateObjectInputTypeClass) (ty : Type_) (n : string)
    (options : GenerateFieldsOptions) : M GeneratorState UpdateObjectInputType :=
  fun st =>
    Done {| inputTypeId := heap st; inputTypeClass := class; objectType := ty;
            inputTypeName := n; fieldOptions := options |}
         {| heap := S (heap st); memo := memo st |}.

Definition defaultOptions : GenerateFieldsOptions :=
  {| skipID := false; skipRelations := false |}.

Section Generator.
(** [getUpdateInputTypeName] and [getUpdateAllInputTypeName]
    (schema/names.ts) and [CALC_MUTATIONS_OPERATORS]
    (schema/constants.ts) are not among the sources. *)
Variable getUpdateInputTypeName : string -> string.
Variable getUpdateAllInputTypeName : string -> string.
Variable CALC_MUTATIONS_OPERATORS : list CalcMutationOperator.

(** [this] *)
Variable this : UpdateInputTypeGenerator.
Variable m : Model.t.

Definition generateForRootEntityType : Type_ -> M GeneratorState UpdateObjectInputType :=
  memorize generateForRootEntityType_ (fun ty =>
    newInputType UpdateRootEntityInputType ty (getUpdateInputTypeName (Type_.name ty))
      defaultOptions).

Definition generateUpdateAllRootEntitiesInputType
  : Type_ -> M GeneratorState UpdateObjectInputType :=
  memorize generateUpdateAllRootEntitiesInputType_ (fun ty =>
    newInputType UpdateRootEntityInputType ty (getUpdateAllInputTypeName (Type_.name ty))
      {| skipID := true;
         (* can't do this properly at the moment because it would need a
            dynamic number of pre-execs *)
         skipRelations := true |}).

Definition generateForEntityExtensionType
  : Type_ -> M GeneratorState UpdateObjectInputType :=
  memorize generateForEntityExtensionType_ (fun ty =>
    newInputType UpdateEntityExtensionInputType ty (getUpdateInputTypeName (Type_.name ty))
      defaultOptions).

Definition generateForChildEntityType : Type_ -> M GeneratorState UpdateObjectInputType :=
  memorize generateForChildEntityType_ (fun ty =>
    newInputType UpdateChildEntityInputType ty (getUpdateInputTypeName (Type_.name ty))
      defaultOptions).

Definition generate : Type_ -> M GeneratorState UpdateObjectInputType :=
  memorize generate_ (fun ty =>
    if Type_.isRootEntityType ty then generateForRootEntityType ty
    else if Type_.isEntityExtensionType ty then generateForEntityExtensionType ty
    else if Type_.isChildEntityType ty then generateForChildEntityType ty
    else throw ("Unsupported type " +:+ kindName (Type_.kind ty)
                  +:+ " for update input type generation")).

Definition getCalcMutationOperatorOrThrow {S} (operator : string)
  : M S (CalcMutationOperator * string) :=
  match List.find (fun op => bool_decide (opName op = operator)) CALC_MUTATIONS_OPERATORS with
  | None => throw ("Calc mutation operator " +:+ quoted operator +:+ " is not defined")
  | Some value => mret (value, operator)
  end.

(** [xs.map(f)] over an [f] that may throw, in the state monad. *)
Fixpoint mapM_ {S A B} (f : A -> M S B) (xs : list A) : M S (list B) :=
  match xs with
  | [] => mret []
  | x :: rest => y ← f x; ys ← mapM_ f rest; mret (y :: ys)
  end.

Definition generateFields (field : Field) (options : GenerateFieldsOptions)
  : M GeneratorState (list UpdateInputField) :=
  let ty := Field.type m field in
  if Field.isSystemField field then
    if negb (skipID options)
       && (Type_.isRootEntityType (declaringType field)
           || Type_.isChildEntityType (declaringType field))
       && bool_decide (Field.name field = ID_FIELD) then
      (* id is always required because it is the filter (unless skipID is
         true, then we have a special filter argument and can't set the id
         at all) *)
      mret [UpdateFilterInputField field (GraphQLNonNull GraphQLID)]
    else mret []
  else if Type_.isScalarType ty || Type_.isEnumType ty then
    let inputType :=
      if Type_.isEnumType ty then enumGenerate (enumTypeGenerator this) ty
      else graphQLScalarType ty in
    if Field.isList field then
      (* don't allow null values in lists *)
      mret [BasicListUpdateInputField field (GraphQLList (GraphQLNonNull inputType))]
    else
      calcMutationOperators ←
        mapM_ getCalcMutationOperatorOrThrow (Field.calcMutationOperators field);
      let calcMutationFields :=
        map (fun op => CalcMutationInputField field inputType (snd op) (opPrefix (fst op)))
            calcMutationOperators in
      mret (BasicUpdateInputField field inputType :: calcMutationFields)
  else if Type_.isValueObjectType ty then
    let inputType := createGenerate (createInputTypeGenerator this) ty in
    if Field.isList field then mret [UpdateValueObjectListInputField field inputType]
    else mret [UpdateValueObjectInputField field inputType]
  else if Type_.isEntityExtensionType ty then
    inputType ← generate ty;
    mret [UpdateEntityExtensionInputField field inputType]
  else if Type_.isChildEntityType ty then
    let addType := createGenerateForChildEntityType (createInputTypeGenerator this) ty in
    updateType ← generateForChildEntityType ty;
    mret [AddChildEntitiesInputField field addType;
          UpdateChildEntitiesInputField field updateType;
          RemoveChildEntitiesInputField field]
  else if Field.isReference field then
    (* we intentionally do not check if the referenced object exists
       (loose coupling), so this behaves just like a regular field *)
    keyType ← getKeyFieldTypeOrThrow m ty;
    mret [BasicUpdateInputField field (graphQLScalarType keyType)]
  else if Field.isRelation field then
    if skipRelations options then mret []
    else
      let inputType := createGenerateForRootEntityType (createInputTypeGenerator this) ty in
      if Field.isList field then
        mret [AddEdgesInputField field; RemoveEdgesInputField field;
              CreateAndAddEdgesInputField field inputType]
      else mret [SetEdgeInputField field; CreateAndSetEdgeInputField field inputType]
  else
    throw ("Field " +:+ quoted (Type_.name (declaringType field) +:+ "." +:+ Field.name field)
             +:+ " has an unexpected configuration").

(** The thunk handed to the input type:
    [() => flatMap(type.fields, field => this.generateFields(field, options))] *)
Definition inputFields (inputType : UpdateObjectInputType)
  : M GeneratorState (list UpdateInputField) :=
  perField ← mapM_ (fun field => generateFields field (fieldOptions inputType))
                   (Type_.fields (objectType inputType));
  mret (concat perField).
End Generator.
End UpdateInputTypeGenerator.

(** ** Sample models *)

Module Samples.
Definition fieldConfig (n ty : string) : FieldConfig :=
  {| Config.name := n; Config.typeName := ty; Config.astNode := None;
     Config.typeNameAST := None; Config.isList := false; Config.isReference := false;
     Config.isRelation := false; Config.isSystemField := false;
     Config.inverseOfFieldName := None; Config.inverseOfASTNode := None;
     Config.calcMutationOperators := []; Config.permissions := None;
     Config.hasDefault := false; Config.defaultValueASTNode := None |}.

Definition relationTo (n ty : string) (loc : nat) (inv : option string) : FieldConfig :=
  {| Config.name := n; Config.typeName := ty; Config.astNode := Some loc;
     Config.typeNameAST := None; Config.isList := false; Config.isReference := false;
     Config.isRelation := true; Config.isSystemField := false;
     Config.inverseOfFieldName := inv; Config.inverseOfASTNode := None;
     Config.calcMutationOperators := []; Config.permissions := None;
     Config.hasDefault := false; Config.defaultValueASTNode := None |}.

Definition typeConfig (k : TypeKind) (n : string) (fs : list FieldConfig)
    (key : option string) : TypeConfig :=
  {| Config.tcName := n; Config.tcKind := k; Config.tcFields := fs;
     Config.tcKeyFieldName := key; Config.namespaceProfiles := [] |}.

Definition rootEntity := typeConfig ROOT_ENTITY.

(** The [i]-th type of a model and the [j]-th field of a type, as the
    objects the model holds. *)
Definition typeAt (m : Model.t) (i : nat) : Type_ :=
  default (Model.invalidType "") (Model.types m !! i).
Definition fieldAt (m : Model.t) (i j : nat) : Field :=
  default {| input := fieldConfig "" ""; declaringType := typeAt m i; fieldSlot := j |}
          (Type_.fields (typeAt m i) !! j).

(** [Movie.director] is a relation to [Person]; [Person.movies] declares
    inverseOf "director". *)
Definition oneInverse : Model.t :=
  [ rootEntity "Movie" [relationTo "director" "Person" 1 None] None;
    rootEntity "Person" [relationTo "movies" "Movie" 2 (Some "director")] None ].

(** As before, but [Person.films] declares inverseOf "director" as well. *)
Definition twoInverses : Model.t :=
  [ rootEntity "Movie" [relationTo "director" "Person" 1 None] None;
    rootEntity "Person" [relationTo "movies" "Movie" 2 (Some "director");
                         relationTo "films" "Movie" 3 (Some "director")] None ].

(** [Order.delivery] declares inverseOf "order"; [Delivery.order] is a
    relation back to [Order] that declares inverseOf "delivery" itself. *)
Definition mutualInverses : Model.t :=
  [ rootEntity "Order" [relationTo "delivery" "Delivery" 1 (Some "order")] None;
    rootEntity "Delivery" [relationTo "order" "Order" 2 (Some "delivery")] None ].

(** As before, but the inverse that [Delivery.order] declares names a field
    that [Order] does not have. *)
Definition danglingInverse : Model.t :=
  [ rootEntity "Order" [relationTo "delivery" "Delivery" 1 (Some "order")] None;
    rootEntity "Delivery" [relationTo "order" "Order" 2 (Some "shipment")] None ].

(** [Movie.director] is a relation whose target [Person] is a child entity
    type; two fields of [Person] declare inverseOf "director". *)
Definition childEntityTarget : Model.t :=
  [ rootEntity "Movie" [relationTo "director" "Person" 1 None] None;
    typeConfig CHILD_ENTITY "Person"
      [relationTo "movies" "Movie" 2 (Some "director");
       relationTo "films" "Movie" 3 (Some "director")] None ].

(** A table in the shape of [CALC_MUTATIONS_OPERATORS]. *)
Definition operators : list CalcMutationOperator :=
  [ {| opName := "ADD"; opPrefix := "addTo_"; supportedTypes := ["Int"; "Float"] |};
    {| opName := "MULTIPLY"; opPrefix := "multiplyWith_"; supportedTypes := ["Int"; "Float"] |};
    {| opName := "APPEND"; opPrefix := "appendTo_"; supportedTypes := ["String"] |} ].

Definition scalarWithOperators (n ty : string) (loc : nat) (ops : list string) : FieldConfig :=
  {| Config.name := n; Config.typeName := ty; Config.astNode := Some loc;
     Config.typeNameAST := None; Config.isList := false; Config.isReference := false;
     Config.isRelation := false; Config.isSystemField := false;
     Config.inverseOfFieldName := None; Config.inverseOfASTNode := None;
     Config.calcMutationOperators := ops; Config.permissions := None;
     Config.hasDefault := false; Config.defaultValueASTNode := None |}.

(** [Account.balance: Int] declares ADD and APPEND, [Account.active:
    Boolean] declares NEGATE, which the table does not have, and
    [Account.score: Int] declares APPEND, NEGATE and ADD. *)
Definition accounts : Model.t :=
  [ typeConfig SCALAR "Int" [] None;
    typeConfig SCALAR "Boolean" [] None;
    rootEntity "Account"
      [ scalarWithOperators "balance" "Int" 1 ["ADD"; "APPEND"];
        scalarWithOperators "active" "Boolean" 2 ["NEGATE"];
        scalarWithOperators "score" "Int" 3 ["APPEND"; "NEGATE"; "ADD"] ] None ].

Definition systemField (n ty : string) : FieldConfig :=
  {| Config.name := n; Config.typeName := ty; Config.astNode := None;
     Config.typeNameAST := None; Config.isList := false; Config.isReference := false;
     Config.isRelation := false; Config.isSystemField := true;
     Config.inverseOfFieldName := None; Config.inverseOfASTNode := None;
     Config.calcMutationOperators := []; Config.permissions := None;
     Config.hasDefault := false; Config.defaultValueASTNode := None |}.

Definition referenceTo (n ty : string) : FieldConfig :=
  {| Config.name := n; Config.typeName := ty; Config.astNode := None;
     Config.typeNameAST := None; Config.isList := false; Config.isReference := true;
     Config.isRelation := false; Config.isSystemField := false;
     Config.inverseOfFieldName := None; Config.inverseOfASTNode := None;
     Config.calcMutationOperators := []; Config.permissions := None;
     Config.hasDefault := false; Config.defaultValueASTNode := None |}.

Definition listOf (n ty : string) : FieldConfig :=
  {| Config.name := n; Config.typeName := ty; Config.astNode := None;
     Config.typeNameAST := None; Config.isList := true; Config.isReference := false;
     Config.isRelation := false; Config.isSystemField := false;
     Config.inverseOfFieldName := None; Config.inverseOfASTNode := None;
     Config.calcMutationOperators := []; Config.permissions := None;
     Config.hasDefault := false; Config.defaultValueASTNode := None |}.

(** [Order.customer] is a reference to [Customer], which is keyed by
    [number]; [Order.items] is a list of the child entity [Item];
    [Order.tags] is a list of strings and [Order.addresses] a list of the
    value object [Address].  The root and child entities have the system
    field [id]. *)
Definition shop : Model.t :=
  [ typeConfig SCALAR "ID" [] None;
    typeConfig SCALAR "String" [] None;
    rootEntity "Customer" [systemField "id" "ID"; fieldConfig "number" "String"]
      (Some "number");
    rootEntity "Order"
      [ systemField "id" "ID"; referenceTo "customer" "Customer"; listOf "items" "Item";
        listOf "tags" "String"; listOf "addresses" "Address" ] None;
    typeConfig CHILD_ENTITY "Item" [systemField "id" "ID"; fieldConfig "title" "String"] None;
    typeConfig VALUE_OBJECT "Address" [fieldConfig "city" "String"] None ].

(** Collaborators for the sample generator. *)
Definition createObjectInputType (n : string) : CreateObjectInputType :=
  {| getInputType := GraphQLNamedType n;
     prepareValue := Return;
     createCollectAffectedFields := fun _ => mret tt |}.

Definition generator : UpdateInputTypeGenerator :=
  {| enumTypeGenerator := {| enumGenerate := fun ty => GraphQLNamedType (Type_.name ty) |};
     createInputTypeGenerator :=
       {| createGenerate := fun ty => createObjectInputType (Type_.name ty);
          createGenerateForChildEntityType := fun ty => createObjectInputType (Type_.name ty);
          createGenerateForRootEntityType := fun ty => createObjectInputType (Type_.name ty) |} |}.

Definition updateName (n : string) : string := "Update" +:+ n +:+ "Input".
Definition updateAllName (n : string) : string := "UpdateAll" +:+ n +:+ "Input".

(** A generator that has not been asked for anything yet. *)
Definition freshGenerator : GeneratorState := {| heap := 0; memo := [] |}.

(** The expression for the current object in the sample compilations. *)
Definition current : QueryNode := VariableQueryNode 0 "current".
End Samples.

(** ** The naming rules, as the specification words them *)

(** "at most one diagnostic, selected by the first matching rule in the fixed
    order: empty name (error), leading underscore (error), embedded
    underscore (warning), non-lowercase initial letter (warning)" *)
Module NameRules.
Inductive Rule := EmptyName | LeadingUnderscore | EmbeddedUnderscore | NonLowercaseInitial.

Definition inOrder : list Rule :=
  [EmptyName; LeadingUnderscore; EmbeddedUnderscore; NonLowercaseInitial].

Definition isLowercase (c : Ascii.ascii) : bool :=
  (97 <=? Ascii.nat_of_ascii c)%nat && (Ascii.nat_of_ascii c <=? 122)%nat.
Definition isUppercase (c : Ascii.ascii) : bool :=
  (65 <=? Ascii.nat_of_ascii c)%nat && (Ascii.nat_of_ascii c <=? 90)%nat.
Definition isUnderscore (c : Ascii.ascii) : bool :=
  bool_decide (c = Ascii.ascii_of_nat 95).

Fixpoint hasUnderscore (s : string) : bool :=
  match s with
  | EmptyString => false
  | String c rest => isUnderscore c || hasUnderscore rest
  end.

(** An embedded underscore is one after the first character. *)
Definition matches (r : Rule) (n : string) : bool :=
  match r, n with
  | EmptyName, EmptyString => true
  | EmptyName, _ => false
  | LeadingUnderscore, String c _ => isUnderscore c
  | LeadingUnderscore, _ => false
  | EmbeddedUnderscore, String _ rest => hasUnderscore rest
  | EmbeddedUnderscore, _ => false
  | NonLowercaseInitial, String c _ => negb (isLowercase c)
  | NonLowercaseInitial, EmptyString => true
  end.

Definition diagnostic (r : Rule) (loc : option ASTNode) : ValidationMessage :=
  match r with
  | EmptyName => ValidationMessage.error "Field name is empty." loc
  | LeadingUnderscore =>
      ValidationMessage.error "Field names cannot start with an underscore." loc
  | EmbeddedUnderscore =>
      ValidationMessage.warn "Field names should not include underscores." loc
  | NonLowercaseInitial =>
      ValidationMessage.warn "Field names should start with a lowercase character." loc
  end.

Definition firstMatching (n : string) : option Rule :=
  List.find (fun r => matches r n) inOrder.

Definition diagnostics (n : string) (loc : option ASTNode) : list ValidationMessage :=
  match firstMatching n with
  | Some r => [diagnostic r loc]
  | None => []
  end.

Definition startsWithUppercase (n : string) : bool :=
  match n with
  | String c _ => isUppercase c
  | EmptyString => false
  end.
End NameRules.

(** ** What [validateRelation] reports, by situation *)

Module RelationRules.
(** The check of the declaring type, which comes first and does not stop
    the validation of the relation. *)
Definition declaringTypeErrors (f : Field) : list ValidationMessage :=
  if bool_decide (Type_.kind (declaringType f) = ROOT_ENTITY) then []
  else [ValidationMessage.error
          "Relations can only be defined on root entity types. Consider using @reference instead."
          (Field.astNode f)].

(** The error for an inverse field that declares an inverse itself; it is
    located at the inverseOf argument of [f], or at [f]. *)
Definition secondLevelInverseError (m : Model.t) (f : Field) (inverseOfFieldName : string)
  : ValidationMessage :=
  ValidationMessage.error
    (Field.inverseFieldDesc m f inverseOfFieldName +:+ " should not declare inverseOf itself.")
    (orElse (Config.inverseOfASTNode (input f)) (Field.astNode f)).

(** The fields of the target type of [f] whose inverseOf resolves to [f]. *)
Definition inverseFields (m : Model.t) (f : Field) : list Field :=
  filter (fun g => Field.inverseOf m g = Some f) (Type_.fields (Field.type m f)).

(** The error that each of several inverse fields of [f] receives. *)
Definition multipleInverseError (m : Model.t) (f : Field) (inverseField_ : Field)
  : ValidationMessage :=
  ValidationMessage.error
    ("Multiple fields ("
       +:+ JsString.join ", "
             (map (fun g => quoted (Type_.name (Field.type m f) +:+ "." +:+ Field.name g))
                  (inverseFields m f))
       +:+ ") declare inverseOf to "
       +:+ quoted (Type_.name (declaringType f) +:+ "." +:+ Field.name f) +:+ ".")
    (Field.astNode inverseField_).
End RelationRules.

(** ** What [validateCalcMutations] reports, by situation *)

Module CalcMutationRules.
Section WithTable.
Variable operators : list CalcMutationOperator.
Variable m : Model.t.
Variable f : Field.

(** The operators of the table that support the type of the field, and
    their description in the messages. *)
Definition supportedOperators : list CalcMutationOperator :=
  filter (fun op => Type_.name (Field.type m f) ∈ supportedTypes op) operators.

Definition supportedOperatorsDesc : string :=
  JsString.join ", " (map (fun op => quoted (opName op)) supportedOperators).

Definition lookup (operator : string) : option CalcMutationOperator :=
  List.find (fun op => bool_decide (opName op = operator)) operators.

Definition listError : ValidationMessage :=
  ValidationMessage.error "Calc mutations are not supported on list fields." (Field.astNode f).

Definition noOperatorsError : ValidationMessage :=
  ValidationMessage.error
    ("Type " +:+ quoted (Type_.name (Field.type m f))
       +:+ " does not support any calc mutation operators.")
    (Field.astNode f).

Definition unsupportedError (operator : string) : ValidationMessage :=
  ValidationMessage.error
    ("Calc mutation operator " +:+ quoted operator
       +:+ " is not supported on type " +:+ quoted (Type_.name (Field.type m f))
       +:+ " (supported operators: " +:+ supportedOperatorsDesc +:+ ").")
    (Field.astNode f).

(** One error for each of the given operators that the table has and that
    does not support the type of the field. *)
Definition operatorErrors (declared : list string) : list ValidationMessage :=
  flat_map (fun operator =>
              match lookup operator with
              | Some desc =>
                  if bool_decide (Type_.name (Field.type m f) ∈ supportedTypes desc) then []
                  else [unsupportedError operator]
              | None => []
              end) declared.
End WithTable.
End CalcMutationRules.

(** ** What [createFieldNode] builds, by situation *)

Module FieldNodeShapes.
(** The read of the stored value of a field: the field node, and for a
    field of an entity extension type the guard that substitutes an empty
    object. *)
Definition storedValue (m : Model.t) (field : Field) (sourceNode : QueryNode) : QueryNode :=
  let fieldNode := FieldQueryNode sourceNode field in
  if Type_.isEntityExtensionType (Field.type m field) then
    ConditionalQueryNode (TypeCheckQueryNode fieldNode OBJECT) fieldNode QueryNode.EMPTY
  else fieldNode.

(** The lookup of the entity that a reference field points to. *)
Definition referenceLookup (referencedEntityType : Type_) (itemKeyNode referenceKeyNode : QueryNode)
    (listItemVar : QueryNode) : QueryNode :=
  FirstOfListQueryNode
    (TransformListQueryNode
       (EntitiesQueryNode referencedEntityType)
       (BinaryOperationQueryNode
          (BinaryOperationQueryNode itemKeyNode UNEQUAL NullQueryNode)
          AND
          (BinaryOperationQueryNode itemKeyNode EQUAL referenceKeyNode))
       (Some 1)
       listItemVar).
End FieldNodeShapes.

(** ** The side of a relation on which a field sits *)

Module RelationSides.
(** The field and the type at the end of the relation that a side stands
    for. *)
Definition ownField (s : RelationSide) : option Field :=
  match side s with
  | FROM_SIDE => Some (fromField (relation s))
  | TO_SIDE => toField (relation s)
  end.

Definition ownType (s : RelationSide) : Type_ :=
  match side s with
  | FROM_SIDE => fromType (relation s)
  | TO_SIDE => toType (relation s)
  end.
End RelationSides.

(** Sample naming functions for the collection names. *)
Module SampleNaming.
Definition pluralize (s : string) : string := s +:+ "s".
Definition decapitalize (s : string) : string :=
  match s with
  | EmptyString => EmptyString
  | String c rest =>
      if (65 <=? Ascii.nat_of_ascii c)%nat && (Ascii.nat_of_ascii c <=? 90)%nat
      then String (Ascii.ascii_of_nat (Ascii.nat_of_ascii c + 32)) rest
      else s
  end.
End SampleNaming.

(** ** Which fields the embedding rules accept *)

Module EmbeddingRules.
(** The rules "keyed by declaring-type kind and target-type kind": a field of
    a root entity type has to be a reference or a relation; a field of an
    entity extension type cannot sit in a value object type and cannot be a
    list; a field of a child entity type cannot sit in a value object type
    and has to be a list.  A field cannot be both a reference and a
    relation. *)
Definition accepts (m : Model.t) (f : Field) : bool :=
  negb (Field.isReference f && Field.isRelation f)
  && match Type_.kind (Field.type m f) with
     | ROOT_ENTITY => Field.isRelation f || Field.isReference f
     | ENTITY_EXTENSION =>
         negb (bool_decide (Type_.kind (declaringType f) = VALUE_OBJECT))
         && negb (Field.isList f)
     | CHILD_ENTITY =>
         negb (bool_decide (Type_.kind (declaringType f) = VALUE_OBJECT))
         && Field.isList f
     | _ => true
     end.

(** What the three validators of the embedding add to an empty context. *)
Definition messages (m : Model.t) (f : Field) : list ValidationMessage :=
  Field.validateChildEntityType m f
    (Field.validateEntityExtensionType m f (Field.validateRootEntityType m f [])).
End EmbeddingRules.

(** ** Relations that are not linked *)

Module SeparateRelations.
(** The first relation of the target type back to the declaring type that
    declares no inverse: with it, an unclaimed relation is suspicious. *)
Definition separateRelation (m : Model.t) (f : Field) : option Field :=
  List.find
    (fun g => Field.isRelation g
              && bool_decide (Field.type m g = declaringType f)
              && bool_decide (Config.inverseOfFieldName (input g) = None))
    (Type_.fields (Field.type m f)).
End SeparateRelations.

(** Further sample models. *)
Module MoreSamples.
Import Samples.

(** [Movie.director] and [Person.favourite] are relations to each other's
    type, and neither declares an inverse. *)
Definition separateRelations : Model.t :=
  [ rootEntity "Movie" [relationTo "director" "Person" 1 None] None;
    rootEntity "Person" [relationTo "favourite" "Movie" 2 None] None ].

(** [Order.delivery] declares inverseOf "order", but [Delivery] has no such
    field. *)
Definition missingInverse : Model.t :=
  [ rootEntity "Order" [relationTo "delivery" "Delivery" 1 (Some "order")] None;
    rootEntity "Delivery" [fieldConfig "number" "String"] None ].
End MoreSamples.

Module ReferenceSamples.
Import Samples.

(** [Order.customers] is a list of references to [Customer], which has no
    key field. *)
Definition listReferenceWithoutKey : Model.t :=
  [ typeConfig SCALAR "String" [] None;
    rootEntity "Customer" [fieldConfig "number" "String"] None;
    rootEntity "Order"
      [ {| Config.name := "customers"; Config.typeName := "Customer"; Config.astNode := Some 4;
           Config.typeNameAST := None; Config.isList := true; Config.isReference := true;
           Config.isRelation := false; Config.isSystemField := false;
           Config.inverseOfFieldName := None; Config.inverseOfASTNode := None;
           Config.calcMutationOperators := []; Config.permissions := None;
           Config.hasDefault := false; Config.defaultValueASTNode := None |} ] None ].
End ReferenceSamples.

(** A role specifier validation for the samples: it accepts everything. *)
Module SampleRoles.
Definition rolesAstNode (r : list string) : option ASTNode := None.
Definition rolesValidate (r : list string) (context : ValidationContext)
  : Completion unit * ValidationContext := (Return tt, context).
End SampleRoles.

Module NodeSamples.
Import Samples.

(** [Node.parent] is a reference to [Node] itself, and it is the key field of
    [Node]. *)
Definition selfKeyed : Model.t :=
  [ rootEntity "Node" [referenceTo "parent" "Node"] (Some "parent") ].

(** [Order.customer] is a reference to [Customer], which is keyed by its
    system field [id]. *)
Definition keyedById : Model.t :=
  [ typeConfig SCALAR "ID" [] None;
    rootEntity "Customer" [systemField "id" "ID"] (Some "id");
    rootEntity "Order" [systemField "id" "ID"; referenceTo "customer" "Customer"] None ].

End NodeSamples.

(** ** Shapes of input values *)

Module ValueShapes.
(** The values for which [value == undefined] holds. *)
Definition isNullish (v : AnyValue) : bool :=
  match v with
  | VUndefined | VNull => true
  | _ => false
  end.

(** [Array.isArray(value)] *)
Definition isArray (v : AnyValue) : bool :=
  match v with
  | VArray _ => true
  | _ => false
  end.
End ValueShapes.

(** A create input type whose [prepareValue] wraps every item and whose
    collector adds nothing. *)
Module SampleInputTypes.
Definition wrapping : CreateObjectInputType :=
  {| getInputType := GraphQLNamedType "CreateAddressInput";
     prepareValue := fun v => Return (VObject [("value", v)]);
     createCollectAffectedFields := fun _ => mret tt |}.
End SampleInputTypes.

(** ** Kinds of update input fields *)

Module InputKinds.
(** The inputs that change the edges of a relation. *)
Definition isEdgeInput (i : UpdateInputField) : bool :=
  match i with
  | AddEdgesInputField _ | RemoveEdgesInputField _ | CreateAndAddEdgesInputField _ _
  | SetEdgeInputField _ | CreateAndSetEdgeInputField _ _ => true
  | _ => false
  end.
End InputKinds.

(** ** The memo of the generator *)

Module GeneratorInvariant.
(** The memoized method that [generate] hands a type to. *)
Definition delegate (ty : Type_) : option MemoizedMethod :=
  if Type_.isRootEntityType ty then Some generateForRootEntityType_
  else if Type_.isEntityExtensionType ty then Some generateForEntityExtensionType_
  else if Type_.isChildEntityType ty then Some generateForChildEntityType_
  else None.

(** What [generate] has recorded for a type is what the method it hands the
    type to has recorded for it. *)
Definition consistent (st : GeneratorState) : Prop :=
  forall ty r,
    Memorize.lookup generate_ ty st = Some r ->
    exists method, delegate ty = Some method /\ Memorize.lookup method ty st = Some r.

(** The generator method behind the key of a memoized method of a kind; for
    the key of [generate] itself, which [delegate] never yields, the method
    for root entity types stands in. *)
Definition specific (getUpdateInputTypeName getUpdateAllInputTypeName : string -> string)
    (method : MemoizedMethod) : Type_ -> M GeneratorState UpdateObjectInputType :=
  match method with
  | generateForRootEntityType_ | generate_ =>
      UpdateInputTypeGenerator.generateForRootEntityType getUpdateInputTypeName
  | generateUpdateAllRootEntitiesInputType_ =>
      UpdateInputTypeGenerator.generateUpdateAllRootEntitiesInputType getUpdateAllInputTypeName
  | generateForEntityExtensionType_ =>
      UpdateInputTypeGenerator.generateForEntityExtensionType getUpdateInputTypeName
  | generateForChildEntityType_ =>
      UpdateInputTypeGenerator.generateForChildEntityType getUpdateInputTypeName
  end.
End GeneratorInvariant.

(** * Properties *)

(** ** The objects of a model *)

Section ModelObjects.
Lemma fields_lookup (ty : Type_) (i : nat) (g : Field) :
  Type_.fields ty !! i = Some g ->
  declaringType g = ty /\ fieldSlot g = i /\ Config.tcFields (typeInput ty) !! i = Some (input g).
Proof.
  unfold Type_.fields. rewrite list_lookup_imap.
  destruct (Config.tcFields (typeInput ty) !! i) as [c|] eqn:E; simpl; [|done].
  intros [= <-]. done.
Qed.

Lemma fields_declaringType (ty : Type_) (g : Field) :
  g ∈ Type_.fields ty -> declaringType g = ty.
Proof.
  intros [i Hi]%list_elem_of_lookup. by apply fields_lookup in Hi as [? _].
Qed.

Lemma getField_Some (ty : Type_) (n : string) (g : Field) :
  Type_.getField ty n = Some g -> g ∈ Type_.fields ty /\ Field.name g = n.
Proof.
  unfold Type_.getField. intros H. apply find_some in H as [Hin Hn].
  apply bool_decide_eq_true in Hn. split; [by apply list_elem_of_In | done].
Qed.

Lemma inverseOf_Some (m : Model.t) (g a : Field) :
  Field.inverseOf m g = Some a ->
  declaringType a = Field.type m g /\ Config.inverseOfFieldName (input g) = Some (Field.name a).
Proof.
  unfold Field.inverseOf. destruct (Config.inverseOfFieldName (input g)) as [n|]; [|done].
  destruct (Type_.isObjectType (Field.type m g)); [|done].
  intros [Hin Hn]%getField_Some. split; [by apply fields_declaringType | by rewrite Hn].
Qed.

(** [find] returns the first element that satisfies the test. *)
Lemma find_first {A} (p : A -> bool) (pre post : list A) (x : A) :
  Forall (fun y => p y = false) pre -> p x = true -> List.find p (pre ++ x :: post) = Some x.
Proof.
  induction 1 as [|y pre Hy _ IH]; simpl; intros Hx.
  - by rewrite Hx.
  - rewrite Hy. by apply IH.
Qed.
End ModelObjects.

(** ** Name validation *)

Section ValidateName.
Import NameRules.

Lemma startsWith_underscore (c : Ascii.ascii) (rest : string) :
  JsString.startsWith (String c rest) "_" = isUnderscore c.
Proof.
  unfold JsString.startsWith, isUnderscore.
  change (String.prefix "_" (String c rest))
    with (if Ascii.ascii_dec (Ascii.ascii_of_nat 95) c then String.prefix "" rest else false).
  destruct (Ascii.ascii_dec (Ascii.ascii_of_nat 95) c) as [<-|Hne].
  - rewrite bool_decide_eq_true_2 by done. by destruct rest.
  - by rewrite bool_decide_eq_false_2 by congruence.
Qed.

Lemma includes_underscore (c : Ascii.ascii) (rest : string) :
  JsString.includes (String c rest) "_" = isUnderscore c || JsString.includes rest "_".
Proof.
  unfold JsString.includes.
  change (String.index 0 "_" (String c rest))
    with (if String.prefix "_" (String c rest) then Some 0
          else match String.index 0 "_" rest with Some n => Some (S n) | None => None end).
  change (String.prefix "_" (String c rest)) with (JsString.startsWith (String c rest) "_").
  rewrite startsWith_underscore.
  destruct (isUnderscore c); [done|]. by destruct (String.index 0 "_" rest).
Qed.

Lemma includes_hasUnderscore (s : string) : JsString.includes s "_" = hasUnderscore s.
Proof.
  induction s as [|c rest IH]; [done|].
  rewrite includes_underscore, IH. done.
Qed.

Lemma uppercase_not_special (c : Ascii.ascii) :
  isUppercase c = true -> isUnderscore c = false /\ isLowercase c = false.
Proof.
  unfold isUppercase, isUnderscore, isLowercase. intros [H1 H2]%andb_true_iff.
  apply Nat.leb_le in H1, H2. split.
  - apply bool_decide_eq_false_2. intros ->. vm_compute in H2. lia.
  - apply andb_false_iff. left. apply Nat.leb_gt. lia.
Qed.

(** C10.  Name validation adds the diagnostic of the first rule that
    matches, in the order empty name (error), leading underscore (error),
    embedded underscore (warning), non-lowercase initial (warning), and
    nothing when no rule matches: at most one diagnostic.  In particular a
    name with an embedded underscore that starts with an uppercase letter
    gets the underscore warning only. *)
Theorem validateName_first_matching_rule (f : Field) (context : ValidationContext) :
  Field.validateName f context
    = context ++ NameRules.diagnostics (Field.name f) (Field.astNode f)
  /\ length (NameRules.diagnostics (Field.name f) (Field.astNode f)) <= 1
  /\ (NameRules.matches EmbeddedUnderscore (Field.name f) = true ->
      NameRules.startsWithUppercase (Field.name f) = true ->
      Field.validateName f context
        = context ++ [ValidationMessage.warn "Field names should not include underscores."
                        (Field.astNode f)]).
Proof.
  assert (Hmain : Field.validateName f context
                  = context ++ NameRules.diagnostics (Field.name f) (Field.astNode f)).
  { unfold Field.validateName, NameRules.diagnostics, firstMatching, ValidationContext.addMessage.
    destruct (Field.name f) as [|c rest] eqn:En.
    - rewrite bool_decide_eq_true_2 by done. done.
    - rewrite bool_decide_eq_false_2 by done.
      rewrite startsWith_underscore, includes_underscore, includes_hasUnderscore.
      simpl. destruct (isUnderscore c); simpl; [done|].
      destruct (hasUnderscore rest); simpl; [done|].
      change (_ && _) with (isLowercase c).
      destruct (isLowercase c); simpl; [|done]. by rewrite app_nil_r. }
  split; [exact Hmain|]. split.
  - unfold NameRules.diagnostics. destruct (firstMatching _); simpl; lia.
  - intros Hemb Hup. rewrite Hmain. f_equal.
    unfold NameRules.diagnostics, firstMatching.
    destruct (Field.name f) as [|c rest]; [done|]. simpl in *.
    apply uppercase_not_special in Hup as [-> _]. by rewrite Hemb.
Qed.

Lemma validateName_first_matching_rule_witness :
  let f := {| input := Samples.fieldConfig "My_field" "String";
              declaringType := Samples.typeAt Samples.oneInverse 0; fieldSlot := 0 |} in
  Field.validateName f []
    = [ValidationMessage.warn "Field names should not include underscores." None].
Proof.
  intros f.
  apply (proj2 (proj2 (validateName_first_matching_rule f []))); reflexivity.
Defined.
End ValidateName.

(** ** Relation resolution *)

Section RelationSide.
Variable m : Model.t.

Lemma relation_to_side (f inv : Field) (h : Heap) :
  Field.isRelation f = true ->
  Type_.kind (declaringType f) = ROOT_ENTITY ->
  Type_.kind (Field.type m f) = ROOT_ENTITY ->
  Field.inverseOf m f = Some inv ->
  Field.relation m f h
    = (Some {| relationId := h; fromType := Field.type m f; fromField := inv;
               toType := declaringType f; toField := Some f |}, S h).
Proof.
  intros Hrel Hd Ht Hinv.
  unfold Field.relation, Field.relationSide, Type_.isRootEntityType.
  rewrite Hrel, Hd, Ht, Hinv. reflexivity.
Qed.

Lemma relation_from_side (f : Field) (h : Heap) :
  Field.isRelation f = true ->
  Type_.kind (declaringType f) = ROOT_ENTITY ->
  Type_.kind (Field.type m f) = ROOT_ENTITY ->
  Field.inverseOf m f = None ->
  Field.relation m f h
    = (Some {| relationId := h; fromType := declaringType f; fromField := f;
               toType := Field.type m f; toField := Field.inverseField m f |}, S h).
Proof.
  intros Hrel Hd Ht Hinv.
  unfold Field.relation, Field.relationSide, Type_.isRootEntityType.
  rewrite Hrel, Hd, Ht, Hinv. reflexivity.
Qed.

Lemma isObjectType_root (ty : Type_) :
  Type_.kind ty = ROOT_ENTITY -> Type_.isObjectType ty = true.
Proof. unfold Type_.isObjectType, Type_.isRootEntityType. by intros ->. Qed.

(** C2, as amended.  [A] on root entity type [T] targets root entity type
    [U] and declares no inverse; [B] on [U] targets [T] and declares
    inverseOf naming [A]; and [B] is the first field of [U], in the order
    of declaration, whose inverseOf resolves to [A].  Then the relation
    resolved from [A] and the one resolved from [B] both have the
    components fromType = T, fromField = A, toType = U, toField = B. *)
Theorem relation_of_inverse_pair (A B : Field) (pre post : list Field) (h : Heap) :
  let T := declaringType A in
  let U := declaringType B in
  Field.isRelation A = true ->
  Field.isRelation B = true ->
  Type_.kind T = ROOT_ENTITY ->
  Type_.kind U = ROOT_ENTITY ->
  Field.type m A = U ->
  Field.type m B = T ->
  Config.inverseOfFieldName (input A) = None ->
  Field.inverseOf m B = Some A ->
  Type_.fields U = pre ++ B :: post ->
  Forall (fun g => Field.inverseOf m g <> Some A) pre ->
  exists rA rB : Relation,
    fst (Field.relation m A h) = Some rA
    /\ fst (Field.relation m B h) = Some rB
    /\ Relation.components rA = (T, A, U, Some B)
    /\ Relation.components rB = (T, A, U, Some B).
Proof.
  intros T U HrA HrB HT HU HtA HtB HnoInv HinvB Hfields Hfirst.
  assert (HinvA : Field.inverseOf m A = None).
  { unfold Field.inverseOf. by rewrite HnoInv. }
  assert (HfieldA : Field.inverseField m A = Some B).
  { unfold Field.inverseField. rewrite HtA, (isObjectType_root U HU), Hfields.
    apply find_first.
    - eapply Forall_impl; [exact Hfirst|]. intros g Hg. by apply bool_decide_eq_false_2.
    - by apply bool_decide_eq_true_2. }
  eexists _, _. split; [|split; [|split]].
  - rewrite relation_from_side; [reflexivity|try done..]. by rewrite HtA.
  - rewrite relation_to_side with (inv := A); [reflexivity|try done..]. by rewrite HtB.
  - unfold Relation.components. simpl. by rewrite HtA, HfieldA.
  - unfold Relation.components. simpl. by rewrite HtB.
Qed.
End RelationSide.

Lemma relation_of_inverse_pair_witness :
  let m := Samples.oneInverse in
  let A := Samples.fieldAt m 0 0 in
  let B := Samples.fieldAt m 1 0 in
  exists rA rB : Relation,
    fst (Field.relation m A 0) = Some rA
    /\ fst (Field.relation m B 0) = Some rB
    /\ Relation.components rA = (declaringType A, A, declaringType B, Some B)
    /\ Relation.components rB = (declaringType A, A, declaringType B, Some B).
Proof.
  intros m A B.
  apply (relation_of_inverse_pair m A B [] [] 0); try reflexivity.
  constructor.
Defined.

(** Without the condition on the order of the fields the statement fails,
    namely when another field of [U] that precedes [B] also
    declares inverseOf naming [A]: in [Samples.twoInverses], [Movie.director]
    (A) and [Person.films] (B) satisfy every condition of the claim, but the
    relation resolved from A has toField = [Person.movies], the one resolved
    from B has toField = [Person.films]. *)
Lemma relation_of_inverse_pair_second_claimant :
  let m := Samples.twoInverses in
  let A := Samples.fieldAt m 0 0 in
  let B := Samples.fieldAt m 1 1 in
  let B0 := Samples.fieldAt m 1 0 in
  (Field.name A = "director" /\ Field.name B = "films" /\ Field.name B0 = "movies")
  /\ (Field.isRelation A = true /\ Field.isRelation B = true)
  /\ (Type_.kind (declaringType A) = ROOT_ENTITY /\ Type_.kind (declaringType B) = ROOT_ENTITY)
  /\ (Field.type m A = declaringType B /\ Field.type m B = declaringType A)
  /\ Config.inverseOfFieldName (input A) = None
  /\ (Config.inverseOfFieldName (input B) = Some "director" /\ Field.inverseOf m B = Some A)
  /\ (toField <$> fst (Field.relation m A 0)) = Some (Some B0)
  /\ (toField <$> fst (Field.relation m B 0)) = Some (Some B)
  /\ B0 <> B
  /\ ~ (exists rA rB : Relation,
          fst (Field.relation m A 0) = Some rA
          /\ fst (Field.relation m B 0) = Some rB
          /\ Relation.components rA = (declaringType A, A, declaringType B, Some B)
          /\ Relation.components rB = (declaringType A, A, declaringType B, Some B)).
Proof.
  intros m A B B0.
  split; [by vm_compute|]. split; [by vm_compute|]. split; [by vm_compute|].
  split; [by vm_compute|]. split; [by vm_compute|]. split; [by vm_compute|].
  split; [by vm_compute|]. split; [by vm_compute|].
  assert (Hne : B0 <> B) by (vm_compute; discriminate).
  split; [exact Hne|].
  intros (rA & rB & HA & _ & HcA & _).
  assert (HtoA : toField rA = Some B) by (unfold Relation.components in HcA; congruence).
  assert (HtoA' : toField <$> fst (Field.relation m A 0) = Some (Some B0)) by (by vm_compute).
  rewrite HA in HtoA'. simpl in HtoA'. congruence.
Qed.

(** ** Validation of relations *)

Section ValidateRelation.
Import RelationRules.
Variable m : Model.t.

Lemma hasValidType_type (f : Field) :
  Field.hasValidType m f = true ->
  Model.getType m (Config.typeName (input f)) = Some (Field.type m f).
Proof.
  unfold Field.hasValidType, Field.type, Model.getTypeOrFallback.
  intros [ty Hty]%bool_decide_eq_true. by rewrite Hty.
Qed.

Lemma add_declaringTypeErrors (f : Field) (context : ValidationContext) :
  (if bool_decide (Type_.kind (declaringType f) <> ROOT_ENTITY)
   then ValidationContext.addMessage context
          (ValidationMessage.error
             "Relations can only be defined on root entity types. Consider using @reference instead."
             (Field.astNode f))
   else context)
  = context ++ declaringTypeErrors f.
Proof.
  unfold declaringTypeErrors, ValidationContext.addMessage.
  destruct (decide (Type_.kind (declaringType f) = ROOT_ENTITY)) as [E|E].
  - rewrite bool_decide_eq_false_2 by tauto. rewrite bool_decide_eq_true_2 by done.
    by rewrite app_nil_r.
  - rewrite bool_decide_eq_true_2 by done. by rewrite bool_decide_eq_false_2 by done.
Qed.

Lemma foldl_addMessage {A} (mk : A -> ValidationMessage) (xs : list A)
    (context : ValidationContext) :
  foldl (fun ctx x => ValidationContext.addMessage ctx (mk x)) context xs
  = context ++ map mk xs.
Proof.
  revert context. induction xs as [|x xs IH]; intros context; simpl.
  - by rewrite app_nil_r.
  - rewrite IH. unfold ValidationContext.addMessage. by rewrite <- app_assoc.
Qed.

(** C3, as amended.  [X] is a relation that declares inverseOf [Y], a field
    of its valid root entity target type; [Y] is a relation back to the
    declaring type of [X], and the inverse that [Y] declares resolves to a
    field.  Then validating the relation of [X] adds, after the check of
    the declaring type, exactly one message: the error that the inverse
    field should not declare inverseOf itself, located at [X]. *)
Theorem validateRelation_second_level_inverse
    (X Y : Field) (yName : string) (context : ValidationContext) :
  Field.isRelation X = true ->
  Field.hasValidType m X = true ->
  Type_.kind (Field.type m X) = ROOT_ENTITY ->
  Config.inverseOfFieldName (input X) = Some yName ->
  Type_.getField (Field.type m X) yName = Some Y ->
  Field.isRelation Y = true ->
  Field.type m Y = declaringType X ->
  is_Some (Field.inverseOf m Y) ->
  Field.validateRelation m X context
    = context ++ declaringTypeErrors X ++ [secondLevelInverseError m X yName]
  /\ location (secondLevelInverseError m X yName)
     = orElse (Config.inverseOfASTNode (input X)) (Field.astNode X)
  /\ severity (secondLevelInverseError m X yName) = ERROR.
Proof.
  intros HrX Hvalid Hkind Hinv HY HrY HtY HinvY.
  split; [|done].
  unfold Field.validateRelation.
  rewrite HrX, Hvalid, add_declaringTypeErrors. simpl.
  rewrite bool_decide_eq_false_2 by (by intros ?).
  rewrite Hinv, HY.
  rewrite bool_decide_eq_false_2 by (by intros ?).
  rewrite HrY. simpl.
  rewrite bool_decide_eq_true_2 by done.
  unfold ValidationContext.addMessage. by rewrite <- app_assoc.
Qed.

(** C4, as amended.  [S] is a relation that declares no inverse and whose
    target type resolves to a root entity type; two or more fields of the
    target type have an inverseOf that resolves to [S].  Then validating the
    relation of [S] adds, after the check of the declaring type, one error
    per such field, in the order of the fields, each located at that
    field. *)
Theorem validateRelation_multiple_inverse_fields (S' : Field) (context : ValidationContext) :
  Field.isRelation S' = true ->
  Config.inverseOfFieldName (input S') = None ->
  Field.hasValidType m S' = true ->
  Type_.kind (Field.type m S') = ROOT_ENTITY ->
  2 <= length (inverseFields m S') ->
  Field.validateRelation m S' context
    = context ++ declaringTypeErrors S' ++ map (multipleInverseError m S') (inverseFields m S')
  /\ length (map (multipleInverseError m S') (inverseFields m S')) = length (inverseFields m S')
  /\ Forall2 (fun g msg => location msg = Field.astNode g /\ severity msg = ERROR)
       (inverseFields m S') (map (multipleInverseError m S') (inverseFields m S')).
Proof.
  intros Hrel Hinv Hvalid Hkind Hlen.
  split; [|split].
  - unfold Field.validateRelation.
    rewrite Hrel, Hvalid, add_declaringTypeErrors. simpl.
    rewrite bool_decide_eq_false_2 by (by intros ?).
    rewrite Hinv.
    change (filter _ (Type_.fields (Field.type m S'))) with (inverseFields m S').
    rewrite bool_decide_eq_false_2 by lia.
    rewrite bool_decide_eq_true_2 by lia.
    rewrite (foldl_addMessage (multipleInverseError m S')). by rewrite <- app_assoc.
  - by rewrite length_map.
  - apply Forall2_fmap_r, Forall_Forall2_diag, Forall_forall. done.
Qed.
End ValidateRelation.

Lemma validateRelation_second_level_inverse_witness :
  let m := Samples.mutualInverses in
  let X := Samples.fieldAt m 0 0 in
  Field.validateRelation m X []
    = [] ++ RelationRules.declaringTypeErrors X
         ++ [RelationRules.secondLevelInverseError m X "order"]
  /\ location (RelationRules.secondLevelInverseError m X "order")
     = orElse (Config.inverseOfASTNode (input X)) (Field.astNode X)
  /\ severity (RelationRules.secondLevelInverseError m X "order") = ERROR.
Proof.
  intros m X.
  apply (validateRelation_second_level_inverse m X (Samples.fieldAt m 1 0) "order" []);
    try reflexivity.
  by eexists.
Defined.

(** In a pair of fields that each declare inverseOf the other, either field
    receives this error when its own relation is validated. *)
Example validateRelation_mutual_inverses :
  let m := Samples.mutualInverses in
  let X := Samples.fieldAt m 0 0 in
  let Y := Samples.fieldAt m 1 0 in
  Field.validateRelation m X [] = [RelationRules.secondLevelInverseError m X "order"]
  /\ Field.validateRelation m Y [] = [RelationRules.secondLevelInverseError m Y "delivery"]
  /\ map location (Field.validateRelation m X [] ++ Field.validateRelation m Y [])
     = [Field.astNode X; Field.astNode Y].
Proof. intros m X Y. by vm_compute. Qed.

(** The statement fails when the inverse that [Y] declares names no field:
    in [Samples.danglingInverse], [Order.delivery] (X) declares inverseOf
    [Delivery.order] (Y), a relation back to [Order] that declares inverseOf
    "shipment"; validating the relation of X adds no message at all. *)
Lemma validateRelation_second_level_inverse_dangling :
  let m := Samples.danglingInverse in
  let X := Samples.fieldAt m 0 0 in
  let Y := Samples.fieldAt m 1 0 in
  (Field.isRelation X = true
   /\ Field.hasValidType m X = true
   /\ Type_.kind (Field.type m X) = ROOT_ENTITY
   /\ Config.inverseOfFieldName (input X) = Some "order"
   /\ Type_.getField (Field.type m X) "order" = Some Y)
  /\ (Field.isRelation Y = true
      /\ Field.type m Y = declaringType X
      /\ Config.inverseOfFieldName (input Y) = Some "shipment")
  /\ Field.validateRelation m X [] = [].
Proof. intros m X Y. by vm_compute. Qed.

Lemma validateRelation_multiple_inverse_fields_witness :
  let m := Samples.twoInverses in
  let S' := Samples.fieldAt m 0 0 in
  Field.validateRelation m S' []
    = [] ++ RelationRules.declaringTypeErrors S'
         ++ map (RelationRules.multipleInverseError m S') (RelationRules.inverseFields m S')
  /\ length (map (RelationRules.multipleInverseError m S') (RelationRules.inverseFields m S'))
     = length (RelationRules.inverseFields m S')
  /\ Forall2 (fun g msg => location msg = Field.astNode g /\ severity msg = ERROR)
       (RelationRules.inverseFields m S')
       (map (RelationRules.multipleInverseError m S') (RelationRules.inverseFields m S')).
Proof.
  intros m S'.
  apply (validateRelation_multiple_inverse_fields m S' []); reflexivity.
Defined.

Example validateRelation_multiple_inverse_fields_run :
  let m := Samples.twoInverses in
  map (fun msg => (severity msg, location msg)) (Field.validateRelation m (Samples.fieldAt m 0 0) [])
  = [(ERROR, Some 2); (ERROR, Some 3)].
Proof. by vm_compute. Qed.

(** The statement fails when the target type of [S] is no root entity type:
    in [Samples.childEntityTarget], [Movie.director] (S) declares no inverse
    and two fields of its target type [Person] declare inverseOf naming it;
    validating the relation of S adds the single error that [Person] is not a
    root entity type, located at S, and none at the two fields. *)
Lemma validateRelation_multiple_inverse_fields_child_target :
  let m := Samples.childEntityTarget in
  let S' := Samples.fieldAt m 0 0 in
  (Field.isRelation S' = true /\ Config.inverseOfFieldName (input S') = None
   /\ Field.hasValidType m S' = true)
  /\ (RelationRules.inverseFields m S' = [Samples.fieldAt m 1 0; Samples.fieldAt m 1 1]
      /\ Config.inverseOfFieldName (input (Samples.fieldAt m 1 0)) = Some (Field.name S')
      /\ Config.inverseOfFieldName (input (Samples.fieldAt m 1 1)) = Some (Field.name S'))
  /\ Field.validateRelation m S' []
     = [ValidationMessage.error
          ("Type " +:+ quoted "Person"
             +:+ " cannot be used with @relation because it is not a root entity type.")
          (Field.astNode S')]
  /\ Forall (fun g => Forall (fun msg => location msg <> Field.astNode g)
                        (Field.validateRelation m S' []))
       (RelationRules.inverseFields m S').
Proof.
  intros m S'. split; [by vm_compute|]. split; [by vm_compute|]. split; [by vm_compute|].
  vm_compute. repeat constructor; discriminate.
Qed.

(** ** Validation of calc mutations *)

Section ValidateCalcMutations.
Import CalcMutationRules.
Variable operators : list CalcMutationOperator.
Variable m : Model.t.
Variable f : Field.

Lemma checkCalcMutationOperators_known (declared : list string) (context : ValidationContext) :
  Forall (fun o => is_Some (lookup operators o)) declared ->
  Field.checkCalcMutationOperators operators (Type_.name (Field.type m f)) (Field.astNode f)
    (supportedOperatorsDesc operators m f) declared context
  = (Return tt, context ++ operatorErrors operators m f declared).
Proof.
  intros Hall. revert context.
  induction Hall as [|o declared [desc Hdesc] _ IH]; intros context; simpl.
  - by rewrite app_nil_r.
  - unfold lookup in Hdesc. rewrite Hdesc. rewrite IH.
    unfold lookup at 1. rewrite Hdesc.
    destruct (bool_decide (Type_.name (Field.type m f) ∈ supportedTypes desc)); simpl.
    + done.
    + unfold ValidationContext.addMessage. by rewrite <- app_assoc.
Qed.

Lemma checkCalcMutationOperators_unknown (pre post : list string) (o : string)
    (context : ValidationContext) :
  Forall (fun o => is_Some (lookup operators o)) pre ->
  lookup operators o = None ->
  Field.checkCalcMutationOperators operators (Type_.name (Field.type m f)) (Field.astNode f)
    (supportedOperatorsDesc operators m f) (pre ++ o :: post) context
  = (Throw ("Unknown calc mutation operator: " +:+ o),
     context ++ operatorErrors operators m f pre).
Proof.
  intros Hall Ho. revert context.
  induction Hall as [|o' pre [desc Hdesc] _ IH]; intros context; simpl.
  - unfold lookup in Ho. rewrite Ho. by rewrite app_nil_r.
  - unfold lookup in Hdesc. rewrite Hdesc. rewrite IH.
    unfold lookup at 1. rewrite Hdesc.
    destruct (bool_decide (Type_.name (Field.type m f) ∈ supportedTypes desc)); simpl.
    + done.
    + unfold ValidationContext.addMessage. by rewrite <- app_assoc.
Qed.

(** C5, as amended.  For a field with at least one declared calc-mutation
    operator:
    - a list field gets one error and nothing else is checked;
    - otherwise, when no operator of the table supports the type of the
      field, the field gets the one error that its type supports no
      operators and nothing else is checked: nothing is thrown, whatever
      the declared operators are;
    - otherwise the declared operators are checked in order: each one that
      the table has and that does not support the type adds an error citing
      the supported operators, and the first one that the table does not
      have throws, the errors added before it staying in the context. *)
Theorem validateCalcMutations_cases (context : ValidationContext) :
  Field.calcMutationOperators f <> [] ->
  (Field.isList f = true ->
     Field.validateCalcMutations operators m f context
     = (Return tt, context ++ [listError f]))
  /\ (Field.isList f = false -> supportedOperators operators m f = [] ->
        Field.validateCalcMutations operators m f context
        = (Return tt, context ++ [noOperatorsError m f]))
  /\ (Field.isList f = false -> supportedOperators operators m f <> [] ->
        Forall (fun o => is_Some (lookup operators o)) (Field.calcMutationOperators f) ->
        Field.validateCalcMutations operators m f context
        = (Return tt,
           context ++ operatorErrors operators m f (Field.calcMutationOperators f)))
  /\ (Field.isList f = false -> supportedOperators operators m f <> [] ->
        forall (pre post : list string) (o : string),
          Field.calcMutationOperators f = pre ++ o :: post ->
          Forall (fun o => is_Some (lookup operators o)) pre ->
          lookup operators o = None ->
          Field.validateCalcMutations operators m f context
          = (Throw ("Unknown calc mutation operator: " +:+ o),
             context ++ operatorErrors operators m f pre)).
Proof.
  intros Hdeclared.
  assert (Hsize : bool_decide (JsSet.size (Field.calcMutationOperators f) = 0) = false).
  { apply bool_decide_eq_false_2. unfold JsSet.size.
    destruct (Field.calcMutationOperators f); [done | simpl; lia]. }
  assert (Hpos : bool_decide (0 < JsSet.size (Field.calcMutationOperators f)) = true).
  { apply bool_decide_eq_true_2. unfold JsSet.size.
    destruct (Field.calcMutationOperators f); [done | simpl; lia]. }
  unfold Field.validateCalcMutations. rewrite Hsize, Hpos.
  change (filter _ operators) with (supportedOperators operators m f).
  change (JsString.join ", " _) with (supportedOperatorsDesc operators m f).
  repeat split.
  - by intros ->.
  - intros -> ->. done.
  - intros -> Hsup Hall.
    rewrite bool_decide_eq_false_2 by (destruct (supportedOperators operators m f); done).
    simpl. by apply checkCalcMutationOperators_known.
  - intros -> Hsup pre post o -> Hall Ho.
    rewrite bool_decide_eq_false_2 by (destruct (supportedOperators operators m f); done).
    simpl. by apply checkCalcMutationOperators_unknown.
Qed.
End ValidateCalcMutations.

Lemma validateCalcMutations_cases_witness :
  let m := Samples.accounts in
  let balance := Samples.fieldAt m 2 0 in
  let score := Samples.fieldAt m 2 2 in
  Field.validateCalcMutations Samples.operators m balance []
    = (Return tt, [CalcMutationRules.unsupportedError Samples.operators m balance "APPEND"])
  /\ Field.validateCalcMutations Samples.operators m score []
     = (Throw "Unknown calc mutation operator: NEGATE",
        [CalcMutationRules.unsupportedError Samples.operators m score "APPEND"]).
Proof.
  intros m balance score. split.
  - apply (validateCalcMutations_cases Samples.operators m balance []).
    + vm_compute. discriminate.
    + reflexivity.
    + vm_compute. discriminate.
    + vm_compute. repeat constructor; by eexists.
  - apply (validateCalcMutations_cases Samples.operators m score [])
      with (pre := ["APPEND"]) (post := ["ADD"]).
    + vm_compute. discriminate.
    + reflexivity.
    + vm_compute. discriminate.
    + reflexivity.
    + vm_compute. repeat constructor; by eexists.
    + reflexivity.
Defined.

(** An operator that the table does not have is not always thrown on: when
    no operator of the table supports the type of the field, as here: in [Samples.accounts], [Account.active: Boolean] is no list
    and declares the operator NEGATE, which the table does not have; nothing
    is thrown, the validation returns with a diagnostic in the context. *)
Lemma validateCalcMutations_unknown_operator_not_thrown :
  let m := Samples.accounts in
  let active := Samples.fieldAt m 2 1 in
  (Field.isList active = false
   /\ Field.calcMutationOperators active = ["NEGATE"]
   /\ CalcMutationRules.lookup Samples.operators "NEGATE" = None)
  /\ Field.validateCalcMutations Samples.operators m active []
     = (Return tt,
        [ValidationMessage.error
           ("Type " +:+ quoted "Boolean" +:+ " does not support any calc mutation operators.")
           (Some 2)]).
Proof. intros m active. by vm_compute. Qed.

(** ** Compilation of field access *)

Section CreateFieldNode.
Import FieldNodes FieldNodeShapes.
Variable m : Model.t.

(** One level of calls of [createFieldNode]. *)
Lemma createFieldNode_step (fuel : nat) (field : Field) (sourceNode : QueryNode) :
  createFieldNode (S fuel) m field sourceNode
  = if Field.isList field then
      if Field.isRelation field then createToNRelationNode m field sourceNode
      else mret (createSafeListQueryNode (FieldQueryNode sourceNode field))
    else if Field.isRelation field then createTo1RelationNode m field sourceNode
    else if Field.isReference field then
      createTo1ReferenceNode (createFieldNode fuel m) m field sourceNode
    else if Type_.isRootEntityType (declaringType field)
            && Field.isSystemField field
            && bool_decide (Field.name field = ID_FIELD) then
      mret (RootEntityIDQueryNode sourceNode)
    else if Type_.isEntityExtensionType (Field.type m field) then
      mret (ConditionalQueryNode
              (TypeCheckQueryNode (FieldQueryNode sourceNode field) OBJECT)
              (FieldQueryNode sourceNode field) QueryNode.EMPTY)
    else mret (FieldQueryNode sourceNode field).
Proof. reflexivity. Qed.

(** A field that is no list, relation or reference is compiled without
    further calls: any positive fuel is enough, nothing is allocated and
    nothing is thrown. *)
Lemma createFieldNode_stored (fuel : nat) (field : Field) (sourceNode : QueryNode) (h : Heap) :
  Field.isList field = false ->
  Field.isRelation field = false ->
  Field.isReference field = false ->
  createFieldNode (S fuel) m field sourceNode h
  = Done (if Type_.isRootEntityType (declaringType field)
             && Field.isSystemField field
             && bool_decide (Field.name field = ID_FIELD)
          then RootEntityIDQueryNode sourceNode
          else storedValue m field sourceNode) h.
Proof.
  intros Hl Hr Hf. rewrite createFieldNode_step, Hl, Hr, Hf. unfold storedValue.
  destruct (_ && _); [done|].
  by destruct (Type_.isEntityExtensionType _).
Qed.

(** What [createTo1ReferenceNode] builds, whatever compiles the key field. *)
Lemma createTo1ReferenceNode_run
    (createFieldNode_ : Field -> QueryNode -> M Heap QueryNode)
    (field keyField : Field) (sourceNode itemKeyNode : QueryNode) (h h' : Heap) :
  Type_.keyField (Field.type m field) = Some keyField ->
  createFieldNode_ keyField (VariableQueryNode h (Field.name field)) (S h)
    = Done itemKeyNode h' ->
  createTo1ReferenceNode createFieldNode_ m field sourceNode h
    = Done (ConditionalQueryNode
              (TypeCheckQueryNode (FieldQueryNode sourceNode field) NULL)
              NullQueryNode
              (referenceLookup (Field.type m field) itemKeyNode
                 (FieldQueryNode sourceNode field)
                 (VariableQueryNode h (Field.name field))))
           h'.
Proof.
  intros Hkey Hitem.
  unfold createTo1ReferenceNode, Type_.getKeyFieldOrThrow. rewrite Hkey.
  unfold mbind, M_bind, mret, M_ret, liftNew, alloc. simpl.
  rewrite Hitem. reflexivity.
Qed.



(** When the key field is a stored field (no list, relation or reference, as
    a scalar key is), the compilation of the reference needs no more than two
    levels of calls: every fuel from 2 on gives the result, and the only
    object allocated is the item variable. *)
Lemma createFieldNode_reference_stored_key (fuel : nat) (field keyField : Field)
    (sourceNode : QueryNode) (h : Heap) :
  Field.isList field = false ->
  Field.isRelation field = false ->
  Field.isReference field = true ->
  Type_.keyField (Field.type m field) = Some keyField ->
  Field.isList keyField = false ->
  Field.isRelation keyField = false ->
  Field.isReference keyField = false ->
  exists itemKeyNode,
    createFieldNode 1 m keyField (VariableQueryNode h (Field.name field)) (S h)
      = Done itemKeyNode (S h)
    /\ createFieldNode (S (S fuel)) m field sourceNode h
       = Done (ConditionalQueryNode
                 (TypeCheckQueryNode (FieldQueryNode sourceNode field) NULL)
                 NullQueryNode
                 (referenceLookup (Field.type m field) itemKeyNode
                    (FieldQueryNode sourceNode field)
                    (VariableQueryNode h (Field.name field))))
              (S h).
Proof.
  intros Hl Hr Hf Hkey Hkl Hkr Hkf.
  eexists. split; [by apply createFieldNode_stored|].
  rewrite createFieldNode_step.
  rewrite Hl, Hr, Hf.
  apply createTo1ReferenceNode_run with (keyField := keyField); [done|].
  by apply createFieldNode_stored.
Qed.

(** C6, as amended.  The system field [id] (no list, relation or
    reference) compiles to the identity accessor [RootEntityIDQueryNode]
    when it is declared on a root entity type; declared on a child entity
    type it compiles to the read of the stored value of the field. *)
Theorem createFieldNode_system_id (fuel : nat) (field : Field) (sourceNode : QueryNode)
    (h : Heap) :
  Field.isList field = false ->
  Field.isRelation field = false ->
  Field.isReference field = false ->
  Field.isSystemField field = true ->
  Field.name field = ID_FIELD ->
  (Type_.kind (declaringType field) = ROOT_ENTITY ->
     createFieldNode (S fuel) m field sourceNode h = Done (RootEntityIDQueryNode sourceNode) h)
  /\ (Type_.kind (declaringType field) = CHILD_ENTITY ->
        createFieldNode (S fuel) m field sourceNode h
        = Done (storedValue m field sourceNode) h).
Proof.
  intros Hl Hr Hf Hsys Hname.
  rewrite createFieldNode_stored by done.
  rewrite Hsys, Hname. unfold Type_.isRootEntityType.
  split; intros ->; by rewrite ?bool_decide_eq_true_2 by done.
Qed.
End CreateFieldNode.



Lemma createFieldNode_system_id_witness :
  let m := Samples.shop in
  FieldNodes.createFieldNode 1 m (Samples.fieldAt m 3 0) Samples.current 7
    = Done (RootEntityIDQueryNode Samples.current) 7
  /\ FieldNodes.createFieldNode 1 m (Samples.fieldAt m 4 0) Samples.current 7
     = Done (FieldQueryNode Samples.current (Samples.fieldAt m 4 0)) 7.
Proof.
  intros m. split.
  - apply (createFieldNode_system_id m 0 (Samples.fieldAt m 3 0) Samples.current 7);
      reflexivity.
  - apply (createFieldNode_system_id m 0 (Samples.fieldAt m 4 0) Samples.current 7);
      reflexivity.
Defined.

(** The identity accessor is not used on a child entity type: in [Samples.shop], the
    system field [id] of the child entity type [Item] compiles to the
    ordinary read of the stored field, not to [RootEntityIDQueryNode]. *)
Lemma createFieldNode_system_id_on_child_entity :
  let m := Samples.shop in
  let id := Samples.fieldAt m 4 0 in
  (Field.name id = "id" /\ Field.isSystemField id = true
   /\ Type_.kind (declaringType id) = CHILD_ENTITY
   /\ Field.isList id = false /\ Field.isRelation id = false /\ Field.isReference id = false)
  /\ (forall fuel h,
        FieldNodes.createFieldNode (S fuel) m id Samples.current h
        = Done (FieldQueryNode Samples.current id) h)
  /\ (forall fuel h,
        FieldNodes.createFieldNode (S fuel) m id Samples.current h
        <> Done (RootEntityIDQueryNode Samples.current) h).
Proof.
  intros m id.
  assert (Hrun : forall fuel h,
             FieldNodes.createFieldNode (S fuel) m id Samples.current h
             = Done (FieldQueryNode Samples.current id) h).
  { intros fuel h. by rewrite createFieldNode_stored by reflexivity. }
  split; [by vm_compute|]. split; [exact Hrun|].
  intros fuel h. rewrite Hrun. discriminate.
Qed.

(** ** Update input fields *)

Section InputFields.
Lemma JsSet_add_elem {A} `{EqDecision A} (s : list A) (x : A) : x ∈ JsSet.add s x.
Proof.
  unfold JsSet.add. destruct (decide (x ∈ s)); [done|].
  apply elem_of_app. right. by apply list_elem_of_singleton.
Qed.

Lemma JsSet_add_keeps {A} `{EqDecision A} (s : list A) (x y : A) : y ∈ s -> y ∈ JsSet.add s x.
Proof.
  unfold JsSet.add. destruct (decide (x ∈ s)); [done|].
  intros Hy. apply elem_of_app. by left.
Qed.

(** C7.  For the list-typed setter inputs (the scalar or enum list and the
    value object list), the input [null] is coerced to the empty list, the
    set-field node that is produced carries the empty list, and collecting
    the affected fields for [null] adds the field itself to the set. *)
Theorem list_setter_null (field : Field) (objectInputType : CreateObjectInputType)
    (fields : list Field) :
  (BasicListUpdateInputField.coerceValue VNull = VArray []
   /\ BasicListUpdateInputField.getProperties field VNull
      = Return [ {| setField := field; valueNode := LiteralQueryNode (VArray []) |} ]
   /\ BasicListUpdateInputField.collectAffectedFields field VNull fields
      = Done tt (JsSet.add fields field))
  /\ (UpdateValueObjectListInputField.coerceValue field objectInputType VNull
      = Return (VArray [])
      /\ UpdateValueObjectListInputField.getProperties field objectInputType VNull
         = Return [ {| setField := field; valueNode := LiteralQueryNode (VArray []) |} ]
      /\ UpdateValueObjectListInputField.collectAffectedFields field objectInputType VNull fields
         = Done tt (JsSet.add fields field))
  /\ field ∈ JsSet.add fields field.
Proof.
  split; [done|]. split; [done|]. apply JsSet_add_elem.
Qed.
End InputFields.

(** ** The update input type generator *)

Section Generator.
Import UpdateInputTypeGenerator.
Variable getUpdateInputTypeName : string -> string.
Variable getUpdateAllInputTypeName : string -> string.
Variable CALC_MUTATIONS_OPERATORS : list CalcMutationOperator.
Variable this : UpdateInputTypeGenerator.
Variable m : Model.t.

Local Abbreviation generateFields :=
  (generateFields getUpdateInputTypeName CALC_MUTATIONS_OPERATORS this m).
Local Abbreviation inputFields :=
  (inputFields getUpdateInputTypeName CALC_MUTATIONS_OPERATORS this m).
Local Abbreviation generate := (generate getUpdateInputTypeName).

(** Every input field that [generateFields] produces for a field is
    constructed with that field. *)
Lemma generateFields_field (field : Field) (options : GenerateFieldsOptions)
    (st st' : GeneratorState) (l : list UpdateInputField) :
  generateFields field options st = Done l st' ->
  Forall (fun i => UpdateInputField.field i = field) l.
Proof.
  unfold UpdateInputTypeGenerator.generateFields, mbind, M_bind, mret, M_ret, throw.
  intros H.
  repeat case_match; simplify_eq; repeat constructor;
    apply Forall_fmap, Forall_forall; done.
Qed.

Lemma generateFields_skipID_system (field : Field) (options : GenerateFieldsOptions)
    (st : GeneratorState) :
  Field.isSystemField field = true ->
  skipID options = true ->
  generateFields field options st = Done [] st.
Proof.
  intros Hsys Hskip. unfold UpdateInputTypeGenerator.generateFields.
  by rewrite Hsys, Hskip.
Qed.

Lemma mapM_generateFields_no_system (options : GenerateFieldsOptions) (fs : list Field)
    (st st' : GeneratorState) (ls : list (list UpdateInputField)) :
  skipID options = true ->
  mapM_ (fun field => generateFields field options) fs st = Done ls st' ->
  Forall (fun i => Field.isSystemField (UpdateInputField.field i) = false) (concat ls).
Proof.
  intros Hskip. revert st st' ls.
  induction fs as [|field fs IH]; intros st st' ls; simpl.
  - intros [= <- _]. constructor.
  - unfold mbind, M_bind, mret, M_ret.
    destruct (generateFields field options st) as [l st1| |] eqn:Hgen; [|done..].
    destruct (mapM_ _ fs st1) as [ls' st2| |] eqn:Hrest; [|done..].
    intros [= <- _]. simpl. apply Forall_app. split; [|by eapply IH].
    destruct (Field.isSystemField field) eqn:Hsys.
    + rewrite generateFields_skipID_system in Hgen by done.
      injection Hgen as <- _. constructor.
    + apply generateFields_field in Hgen.
      eapply Forall_impl; [exact Hgen|]. by intros i ->.
Qed.

(** With [skipID], as in the update-all input type, none of the input
    fields of the whole input type belongs to a system field. *)
Lemma inputFields_skipID_no_system (inputType : UpdateObjectInputType)
    (st st' : GeneratorState) (l : list UpdateInputField) :
  skipID (fieldOptions inputType) = true ->
  inputFields inputType st = Done l st' ->
  Forall (fun i => Field.isSystemField (UpdateInputField.field i) = false) l.
Proof.
  intros Hskip. unfold UpdateInputTypeGenerator.inputFields, mbind, M_bind, mret, M_ret.
  destruct (mapM_ _ _ st) as [ls st1| |] eqn:Hmap; [|done..].
  intros [= <- _]. by eapply mapM_generateFields_no_system.
Qed.

(** The list-typed setter inputs: a list field of a scalar or enum type gets
    a [BasicListUpdateInputField], a list field of a value object type an
    [UpdateValueObjectListInputField], and nothing else. *)
Lemma generateFields_list_setter (field : Field) (options : GenerateFieldsOptions)
    (st : GeneratorState) :
  Field.isSystemField field = false ->
  Field.isList field = true ->
  (Type_.kind (Field.type m field) = SCALAR ->
     generateFields field options st
     = Done [BasicListUpdateInputField field
               (GraphQLList (GraphQLNonNull (graphQLScalarType (Field.type m field))))] st)
  /\ (Type_.kind (Field.type m field) = ENUM ->
        generateFields field options st
        = Done [BasicListUpdateInputField field
                  (GraphQLList (GraphQLNonNull
                     (enumGenerate (enumTypeGenerator this) (Field.type m field))))] st)
  /\ (Type_.kind (Field.type m field) = VALUE_OBJECT ->
        generateFields field options st
        = Done [UpdateValueObjectListInputField field
                  (createGenerate (createInputTypeGenerator this) (Field.type m field))] st).
Proof.
  intros Hsys Hlist. unfold UpdateInputTypeGenerator.generateFields.
  rewrite Hsys, Hlist.
  unfold Type_.isScalarType, Type_.isEnumType, Type_.isValueObjectType.
  repeat split; intros ->; reflexivity.
Qed.

(** C8.  The input that is compiled for the system identity field is
    filter-only: whatever the value and the expression for the current
    entity, it yields no set-field node and leaves the set of affected
    fields as it is.  It is what [generateFields] produces for the system
    field [id] of a root or child entity type; and with [skipID], as for
    the update-all input type, no input field is produced for a system
    field at all. *)
Theorem identity_input_is_filter_only (field : Field) (options : GenerateFieldsOptions)
    (st : GeneratorState) :
  Field.isSystemField field = true ->
  Field.name field = ID_FIELD ->
  Type_.kind (declaringType field) = ROOT_ENTITY
    \/ Type_.kind (declaringType field) = CHILD_ENTITY ->
  (skipID options = false ->
     generateFields field options st
     = Done [UpdateFilterInputField field (GraphQLNonNull GraphQLID)] st)
  /\ (forall (value : AnyValue) (currentEntityNode : QueryNode) (fields : list Field),
        UpdateFilterInputField.getProperties value currentEntityNode = []
        /\ UpdateFilterInputField.collectAffectedFields value fields = Done [] fields)
  /\ (skipID options = true -> generateFields field options st = Done [] st)
  /\ (forall (ty : Type_) (st0 : GeneratorState),
        Memorize.lookup generateUpdateAllRootEntitiesInputType_ ty st0 = None ->
        exists inputType st1,
          generateUpdateAllRootEntitiesInputType getUpdateAllInputTypeName ty st0
            = Done inputType st1
          /\ skipID (fieldOptions inputType) = true).
Proof.
  intros Hsys Hname Hkind.
  split; [|split; [done|split]].
  - intros Hskip. unfold UpdateInputTypeGenerator.generateFields.
    rewrite Hsys, Hskip, Hname. unfold Type_.isRootEntityType, Type_.isChildEntityType.
    destruct Hkind as [-> | ->]; reflexivity.
  - intros Hskip. unfold UpdateInputTypeGenerator.generateFields.
    by rewrite Hsys, Hskip.
  - intros ty st0 Hlookup.
    unfold generateUpdateAllRootEntitiesInputType, Memorize.memorize.
    rewrite Hlookup. simpl. by eexists _, _.
Qed.
End Generator.

Lemma identity_input_is_filter_only_witness :
  let m := Samples.shop in
  let id := Samples.fieldAt m 3 0 in
  let generateFields :=
    UpdateInputTypeGenerator.generateFields Samples.updateName Samples.operators
      Samples.generator m in
  generateFields id {| skipID := false; skipRelations := false |} Samples.freshGenerator
    = Done [UpdateFilterInputField id (GraphQLNonNull GraphQLID)] Samples.freshGenerator
  /\ generateFields id {| skipID := true; skipRelations := true |} Samples.freshGenerator
     = Done [] Samples.freshGenerator.
Proof.
  intros m id generateFields. split.
  - apply (identity_input_is_filter_only Samples.updateName Samples.updateAllName
             Samples.operators Samples.generator m id
             {| skipID := false; skipRelations := false |} Samples.freshGenerator);
      [reflexivity | reflexivity | left; reflexivity | reflexivity].
  - apply (identity_input_is_filter_only Samples.updateName Samples.updateAllName
             Samples.operators Samples.generator m id
             {| skipID := true; skipRelations := true |} Samples.freshGenerator);
      [reflexivity | reflexivity | left; reflexivity | reflexivity].
Defined.

(** ** Identity of the objects that repeated accesses return *)

Section ObjectIdentity.
Import UpdateInputTypeGenerator Memorize.
Variable getUpdateInputTypeName : string -> string.
Variable m : Model.t.

Local Abbreviation generate := (generate getUpdateInputTypeName).

(** Every access of [relationSide] that yields a side constructs a new
    relation: the next access yields a different object with the same
    components. *)
Lemma relationSide_again (f : Field) (h : Heap) :
  match Field.relationSide m f h with
  | (None, h1) => h1 = h /\ Field.relationSide m f h1 = (None, h1)
  | (Some s1, h1) =>
      exists s2 h2,
        Field.relationSide m f h1 = (Some s2, h2)
        /\ s1 <> s2
        /\ relationId (relation s1) <> relationId (relation s2)
        /\ Relation.components (relation s1) = Relation.components (relation s2)
        /\ side s1 = side s2
  end.
Proof.
  unfold Field.relationSide.
  destruct (_ || _); [done|].
  destruct (Field.inverseOf m f) as [inv|]; simpl.
  - eexists _, _. split; [reflexivity|]. simpl.
    split; [intros [= E]; lia|]. split; [lia|]. done.
  - eexists _, _. split; [reflexivity|]. simpl.
    split; [intros [= E]; lia|]. split; [lia|]. done.
Qed.

Lemma lookup_store_eq (method : MemoizedMethod) (ty : Type_) (r : UpdateObjectInputType)
    (st : GeneratorState) :
  lookup method ty st = None -> lookup method ty (store method ty r st) = Some r.
Proof.
  unfold lookup, store. simpl. induction (memo st) as [|e l IH]; simpl.
  - by rewrite bool_decide_eq_true_2.
  - destruct (bool_decide (fst e = (method, ty))); [done|]. exact IH.
Qed.

Lemma lookup_store_ne (method method' : MemoizedMethod) (ty ty' : Type_)
    (r : UpdateObjectInputType) (st : GeneratorState) :
  (method', ty') <> (method, ty) ->
  lookup method ty (store method' ty' r st) = lookup method ty st.
Proof.
  intros Hne. unfold lookup, store. simpl. induction (memo st) as [|e l IH]; simpl.
  - by rewrite bool_decide_eq_false_2.
  - destruct (bool_decide (fst e = (method, ty))); [done|]. exact IH.
Qed.

(** A memoized method whose body succeeds and does not itself record a
    result for this call returns, when called again, the object it
    returned first and leaves the state as it is. *)
Lemma memorize_again (method : MemoizedMethod)
    (body : Type_ -> M GeneratorState UpdateObjectInputType) (ty : Type_)
    (st : GeneratorState) :
  (forall st0, lookup method ty st0 = None ->
     exists r st1, body ty st0 = Done r st1 /\ lookup method ty st1 = None) ->
  exists r st1,
    memorize method body ty st = Done r st1
    /\ memorize method body ty st1 = Done r st1.
Proof.
  intros Hbody. unfold memorize.
  destruct (lookup method ty st) as [r|] eqn:Hl.
  - exists r, st. by rewrite Hl.
  - destruct (Hbody st Hl) as (r & st1 & -> & Hl1).
    exists r, (store method ty r st1). by rewrite lookup_store_eq.
Qed.

Lemma memorize_new (method method' : MemoizedMethod) (class : UpdateObjectInputTypeClass)
    (n : string) (options : GenerateFieldsOptions) (ty : Type_) (st : GeneratorState) :
  method <> method' ->
  lookup method' ty st = None ->
  exists r st1,
    memorize method (fun ty => newInputType class ty n options) ty st = Done r st1
    /\ lookup method' ty st1 = None.
Proof.
  intros Hne Hl. unfold memorize.
  destruct (lookup method ty st) as [r|] eqn:Hl'.
  - by exists r, st.
  - simpl. eexists _, _. split; [reflexivity|].
    rewrite lookup_store_ne by congruence. exact Hl.
Qed.

(** C9, as amended.
    - [relationSide] and [relation] are computed anew on every access and
      construct a new relation each time: two successive accesses return
      different objects, whose components are the same.
    - [inverseField] and [permissionProfile] are computed anew on every
      access as well, but what they return is an object that the model
      holds: a field of the target type, a profile of the namespace.
    - [generate] is memoized: for a root entity, entity extension or child
      entity type, two successive requests return the identical object. *)
Theorem repeated_access (f : Field) (h : Heap) :
  (forall s1 h1, Field.relationSide m f h = (Some s1, h1) ->
     exists s2 h2,
       Field.relationSide m f h1 = (Some s2, h2)
       /\ s1 <> s2
       /\ Relation.components (relation s1) = Relation.components (relation s2))
  /\ (forall r1 h1, Field.relation m f h = (Some r1, h1) ->
        exists r2 h2,
          Field.relation m f h1 = (Some r2, h2)
          /\ r1 <> r2
          /\ Relation.components r1 = Relation.components r2)
  /\ (forall g, Field.inverseField m f = Some g -> g ∈ Type_.fields (Field.type m f))
  /\ (forall p, Field.permissionProfile f = Some p ->
        p ∈ Config.namespaceProfiles (typeInput (declaringType f)))
  /\ (forall (ty : Type_) (st : GeneratorState),
        Type_.kind ty = ROOT_ENTITY \/ Type_.kind ty = ENTITY_EXTENSION
          \/ Type_.kind ty = CHILD_ENTITY ->
        exists inputType st1,
          generate ty st = Done inputType st1
          /\ generate ty st1 = Done inputType st1).
Proof.
  pose proof (relationSide_again f h) as Hside.
  split; [|split; [|split; [|split]]].
  - intros s1 h1 E. rewrite E in Hside.
    destruct Hside as (s2 & h2 & E2 & Hne & _ & Hc & _). by exists s2, h2.
  - unfold Field.relation, bindNew, pureNew. intros r1 h1.
    destruct (Field.relationSide m f h) as [[s1|] h1'] eqn:E; [|done].
    intros [= <- <-].
    destruct Hside as (s2 & h2 & E2 & _ & Hid & Hc & _).
    exists (relation s2), h2. rewrite E2. split; [done|]. split; [congruence|done].
  - unfold Field.inverseField. destruct (Type_.isObjectType _); [|done].
    intros g [Hin _]%find_some. by apply list_elem_of_In.
  - unfold Field.permissionProfile, Type_.getPermissionProfile.
    destruct (Config.permissions (input f)) as [p'|]; [|done].
    destruct (Config.permissionProfileName p'); [|done].
    intros p [Hin _]%find_some. by apply list_elem_of_In.
  - intros ty st Hkind. apply memorize_again. intros st0 Hl.
    unfold Type_.isRootEntityType, Type_.isEntityExtensionType, Type_.isChildEntityType.
    destruct Hkind as [-> | [-> | ->]]; simpl; by apply memorize_new.
Qed.
End ObjectIdentity.

Lemma repeated_access_witness :
  let m := Samples.oneInverse in
  let director := Samples.fieldAt m 0 0 in
  let first :=
    {| relation := {| relationId := 0; fromType := Samples.typeAt m 0; fromField := director;
                      toType := Samples.typeAt m 1;
                      toField := Some (Samples.fieldAt m 1 0) |};
       side := FROM_SIDE |} in
  exists s2 h2,
    Field.relationSide m director 1 = (Some s2, h2)
    /\ first <> s2
    /\ Relation.components (relation first) = Relation.components (relation s2).
Proof.
  intros m director first.
  apply (proj1 (repeated_access Samples.updateName m director 0) first 1).
  reflexivity.
Defined.

(** The relation side is not the identical object on every access: in [Samples.oneInverse], two
    successive accesses of [relationSide] (and of [relation]) on
    [Movie.director] return two different objects. *)
Lemma repeated_access_relation_side_not_identical :
  let m := Samples.oneInverse in
  let director := Samples.fieldAt m 0 0 in
  exists s1 s2 h1 h2,
    Field.relationSide m director 0 = (Some s1, h1)
    /\ Field.relationSide m director h1 = (Some s2, h2)
    /\ s1 <> s2
    /\ relation s1 <> relation s2.
Proof.
  intros m director. eexists _, _, _, _.
  split; [reflexivity|]. split; [reflexivity|].
  split; intros E; by vm_compute in E.
Qed.

(** The sample shop: what the generator produces for the fields of [Order]. *)
Example generateFields_of_order :
  let m := Samples.shop in
  let order := Samples.typeAt m 3 in
  let generateFields f :=
    UpdateInputTypeGenerator.generateFields Samples.updateName Samples.operators
      Samples.generator m f UpdateInputTypeGenerator.defaultOptions Samples.freshGenerator in
  generateFields (Samples.fieldAt m 3 0)
    = Done [UpdateFilterInputField (Samples.fieldAt m 3 0) (GraphQLNonNull GraphQLID)]
        Samples.freshGenerator
  /\ generateFields (Samples.fieldAt m 3 1)
     = Done [BasicUpdateInputField (Samples.fieldAt m 3 1) (GraphQLNamedType "String")]
         Samples.freshGenerator
  /\ generateFields (Samples.fieldAt m 3 3)
     = Done [BasicListUpdateInputField (Samples.fieldAt m 3 3)
               (GraphQLList (GraphQLNonNull (GraphQLNamedType "String")))]
         Samples.freshGenerator
  /\ generateFields (Samples.fieldAt m 3 4)
     = Done [UpdateValueObjectListInputField (Samples.fieldAt m 3 4)
               (Samples.createObjectInputType "Address")]
         Samples.freshGenerator.
Proof. intros m order generateFields. repeat split. Qed.

(** * Further properties of the model, the validation and the compilation *)

(** ** Inverse fields and relation sides *)

Section InverseAndSides.
Variable m : Model.t.

(** X1.  The inverse field that a field resolves to is a field of its target
    type that declares inverseOf naming this field, and whose inverseOf
    resolves back to this field. *)
Theorem inverseField_round_trip (f g : Field) :
  Field.inverseField m f = Some g ->
  Field.inverseOf m g = Some f
  /\ g ∈ Type_.fields (Field.type m f)
  /\ declaringType g = Field.type m f
  /\ Field.type m g = declaringType f
  /\ Config.inverseOfFieldName (input g) = Some (Field.name f).
Proof.
  unfold Field.inverseField. destruct (Type_.isObjectType (Field.type m f)); [|done].
  intros [Hin Hinv]%find_some. apply bool_decide_eq_true in Hinv.
  apply list_elem_of_In in Hin.
  pose proof (inverseOf_Some m g f Hinv) as [Hd Hn].
  repeat split; try done. by apply fields_declaringType.
Qed.

(** X2.  [relationSide] yields a side exactly for a relation field between
    two root entity types.  The side it yields is the one on which the field
    itself sits: the to side exactly when the inverseOf of the field
    resolves, the from side otherwise.  An access that yields a side
    allocates one object, the relation; one that yields none allocates
    nothing. *)
Theorem relationSide_defined_iff (f : Field) (h : Heap) :
  (is_Some (fst (Field.relationSide m f h))
   <-> Field.isRelation f = true
       /\ Type_.kind (declaringType f) = ROOT_ENTITY
       /\ Type_.kind (Field.type m f) = ROOT_ENTITY)
  /\ (forall s, fst (Field.relationSide m f h) = Some s ->
        snd (Field.relationSide m f h) = S h
        /\ relationId (relation s) = h
        /\ RelationSides.ownField s = Some f
        /\ RelationSides.ownType s = declaringType f
        /\ (side s = TO_SIDE <-> is_Some (Field.inverseOf m f)))
  /\ (fst (Field.relationSide m f h) = None -> snd (Field.relationSide m f h) = h).
Proof.
  unfold Field.relationSide, Type_.isRootEntityType.
  destruct (Field.isRelation f); simpl.
  2: { split; [|done]. split; [by intros [? [=]] | by intros [[=] _]]. }
  destruct (decide (Type_.kind (declaringType f) = ROOT_ENTITY)) as [Hd|Hd].
  2: { rewrite (bool_decide_eq_false_2 _ Hd). simpl.
       split; [|done]. split; [by intros [? [=]] | by intros (_ & ? & _)]. }
  rewrite (bool_decide_eq_true_2 _ Hd). simpl.
  destruct (decide (Type_.kind (Field.type m f) = ROOT_ENTITY)) as [Ht|Ht].
  2: { rewrite (bool_decide_eq_false_2 _ Ht). simpl.
       split; [|done]. split; [by intros [? [=]] | by intros (_ & _ & ?)]. }
  rewrite (bool_decide_eq_true_2 _ Ht). simpl.
  destruct (Field.inverseOf m f) as [inv|] eqn:Hinv; simpl.
  - split; [split; [done | by eexists]|]. split; [|done].
    intros s [= <-]. simpl. repeat split; try done; by eexists.
  - split; [split; [done | by eexists]|]. split; [|done].
    intros s [= <-]. simpl. repeat split; try done; by intros [? [=]].
Qed.

(** X3.  [getRelationSideOrThrow] returns the side that [relationSide]
    yields, and throws exactly when [relationSide] yields none.  When both
    types are root entity types and the field is no relation, the error
    names the field as an object: [`${this}`] has no better text. *)
Theorem getRelationSideOrThrow_agrees (f : Field) (h : Heap) :
  (forall s h', Field.relationSide m f h = (Some s, h') ->
     Field.getRelationSideOrThrow m f h = Done s h')
  /\ (fst (Field.relationSide m f h) = None ->
        exists e, Field.getRelationSideOrThrow m f h = Thrown e)
  /\ (Type_.kind (Field.type m f) = ROOT_ENTITY ->
      Type_.kind (declaringType f) = ROOT_ENTITY ->
      Field.isRelation f = false ->
      Field.getRelationSideOrThrow m f h
      = Thrown ("Expected " +:+ quoted (Type_.name (declaringType f) +:+ ".[object Object]")
                  +:+ " to be a relation")).
Proof.
  unfold Field.getRelationSideOrThrow, Field.relationSide, Type_.isRootEntityType.
  unfold mbind, M_bind, mret, M_ret, liftNew, throw.
  destruct (decide (Type_.kind (Field.type m f) = ROOT_ENTITY)) as [Ht|Ht].
  2: { rewrite (bool_decide_eq_true_2 (_ <> _) Ht), (bool_decide_eq_false_2 _ Ht).
       rewrite orb_true_r. simpl. split; [done|]. split; [by eexists | done]. }
  rewrite (bool_decide_eq_false_2 (_ <> _)) by tauto.
  rewrite (bool_decide_eq_true_2 _ Ht).
  destruct (decide (Type_.kind (declaringType f) = ROOT_ENTITY)) as [Hd|Hd].
  2: { rewrite (bool_decide_eq_true_2 (_ <> _) Hd), (bool_decide_eq_false_2 _ Hd).
       rewrite orb_true_r. simpl. split; [done|]. split; [by eexists | done]. }
  rewrite (bool_decide_eq_false_2 (_ <> _)) by tauto.
  rewrite (bool_decide_eq_true_2 _ Hd).
  destruct (Field.isRelation f); simpl.
  - destruct (Field.inverseOf m f); simpl;
      (split; [by intros s h' [= <- <-]|]); (split; [by intros [=] | done]).
  - split; [done|]. split; [by eexists | done].
Qed.
End InverseAndSides.

Lemma inverseField_round_trip_witness :
  let m := Samples.oneInverse in
  let director := Samples.fieldAt m 0 0 in
  let movies := Samples.fieldAt m 1 0 in
  Field.inverseOf m movies = Some director
  /\ movies ∈ Type_.fields (Field.type m director)
  /\ declaringType movies = Field.type m director
  /\ Field.type m movies = declaringType director
  /\ Config.inverseOfFieldName (input movies) = Some (Field.name director).
Proof.
  intros m director movies.
  apply (inverseField_round_trip m director movies). reflexivity.
Defined.

(** ** Collection names *)

Section CollectionNames.
Import CollectionNames.
Variable pluralize : string -> string.
Variable decapitalize : string -> string.
Variable m : Model.t.

(** X4.  The collection of a relation is named after its from side only.
    For a relation field [A] between two root entity types that declares no
    inverse and a relation field [B] whose inverseOf resolves to [A], the
    relation resolved from [A] and the one resolved from [B] get the same
    collection name, made of the collection name of the declaring type of
    [A] and the name of [A]: whether or not other fields declare inverseOf
    [A] as well. *)
Theorem getCollectionNameForRelation_either_side (A B : Field) (h h' : Heap) :
  Field.isRelation A = true ->
  Field.isRelation B = true ->
  Type_.kind (declaringType A) = ROOT_ENTITY ->
  Type_.kind (declaringType B) = ROOT_ENTITY ->
  Field.type m A = declaringType B ->
  Config.inverseOfFieldName (input A) = None ->
  Field.inverseOf m B = Some A ->
  exists rA rB : Relation,
    fst (Field.relation m A h) = Some rA
    /\ fst (Field.relation m B h') = Some rB
    /\ getCollectionNameForRelation pluralize decapitalize rA
       = getCollectionNameForRootEntity pluralize decapitalize (declaringType A)
           +:+ "_" +:+ Field.name A
    /\ getCollectionNameForRelation pluralize decapitalize rB
       = getCollectionNameForRelation pluralize decapitalize rA.
Proof.
  intros HrA HrB HT HU HtA HnoInv HinvB.
  assert (HinvA : Field.inverseOf m A = None).
  { unfold Field.inverseOf. by rewrite HnoInv. }
  pose proof (inverseOf_Some m B A HinvB) as [HtB _].
  eexists _, _. split; [|split; [|split]].
  - rewrite relation_from_side; [reflexivity|try done..]. by rewrite HtA.
  - rewrite relation_to_side with (inv := A); [reflexivity|try done..]. by rewrite <- HtB.
  - reflexivity.
  - unfold getCollectionNameForRelation. simpl. by rewrite <- HtB.
Qed.
End CollectionNames.

Lemma getCollectionNameForRelation_either_side_witness :
  let m := Samples.twoInverses in
  let A := Samples.fieldAt m 0 0 in
  let B := Samples.fieldAt m 1 1 in
  exists rA rB : Relation,
    fst (Field.relation m A 0) = Some rA
    /\ fst (Field.relation m B 5) = Some rB
    /\ CollectionNames.getCollectionNameForRelation
         SampleNaming.pluralize SampleNaming.decapitalize rA
       = CollectionNames.getCollectionNameForRootEntity
           SampleNaming.pluralize SampleNaming.decapitalize (declaringType A)
           +:+ "_" +:+ Field.name A
    /\ CollectionNames.getCollectionNameForRelation
         SampleNaming.pluralize SampleNaming.decapitalize rB
       = CollectionNames.getCollectionNameForRelation
           SampleNaming.pluralize SampleNaming.decapitalize rA.
Proof.
  intros m A B.
  apply (getCollectionNameForRelation_either_side
           SampleNaming.pluralize SampleNaming.decapitalize m A B 0 5); reflexivity.
Defined.

Example getCollectionNameForRelation_sample :
  let m := Samples.twoInverses in
  CollectionNames.getCollectionNameForRelation SampleNaming.pluralize SampleNaming.decapitalize
    <$> fst (Field.relation m (Samples.fieldAt m 1 1) 0)
  = Some "movies_director".
Proof. by vm_compute. Qed.

(** ** Validation: relations with and without a declared inverse *)

Section ValidateRelationCases.
Import RelationRules.
Variable m : Model.t.

(** The field that a declared inverse has to name: a relation back to the
    declaring type whose own inverseOf does not resolve. *)
Lemma validateRelation_explicit_run (X : Field) (yName : string) (context : ValidationContext) :
  Field.isRelation X = true ->
  Field.hasValidType m X = true ->
  Type_.kind (Field.type m X) = ROOT_ENTITY ->
  Config.inverseOfFieldName (input X) = Some yName ->
  exists errs,
    Field.validateRelation m X context = context ++ declaringTypeErrors X ++ errs
    /\ length errs <= 1
    /\ Forall (fun e => severity e = ERROR
                        /\ location e = orElse (Config.inverseOfASTNode (input X))
                                               (Field.astNode X)) errs
    /\ (errs = [] <->
        exists Y, Type_.getField (Field.type m X) yName = Some Y
                  /\ Field.type m Y = declaringType X
                  /\ Field.isRelation Y = true
                  /\ Field.inverseOf m Y = None).
Proof.
  intros HrX Hvalid Hkind Hinv.
  unfold Field.validateRelation.
  rewrite HrX, Hvalid, add_declaringTypeErrors. simpl.
  rewrite bool_decide_eq_false_2 by (by intros ?).
  rewrite Hinv. unfold ValidationContext.addMessage.
  destruct (Type_.getField (Field.type m X) yName) as [Y|] eqn:HY.
  2: { eexists [_]. rewrite <- app_assoc. split; [done|]. split; [simpl; lia|].
       split; [by repeat constructor|]. split; [done|]. by intros (Y & [=] & _). }
  destruct (decide (Field.type m Y = declaringType X)) as [HtY|HtY].
  2: { rewrite bool_decide_eq_true_2 by done.
       eexists [_]. rewrite <- app_assoc. split; [done|]. split; [simpl; lia|].
       split; [by repeat constructor|]. split; [done|].
       intros (Y' & [= <-] & ? & _). done. }
  rewrite bool_decide_eq_false_2 by tauto.
  destruct (Field.isRelation Y) eqn:HrY; simpl.
  2: { eexists [_]. rewrite <- app_assoc. split; [done|]. split; [simpl; lia|].
       split; [by repeat constructor|]. split; [done|].
       intros (Y' & [= <-] & _ & ? & _). congruence. }
  destruct (Field.inverseOf m Y) as [z|] eqn:HinvY.
  - rewrite bool_decide_eq_true_2 by (by eexists).
    eexists [_]. rewrite <- app_assoc. split; [done|]. split; [simpl; lia|].
    split; [by repeat constructor|]. split; [done|].
    intros (Y' & [= <-] & _ & _ & ?). congruence.
  - rewrite bool_decide_eq_false_2 by (by intros [? [=]]).
    exists []. rewrite app_nil_r. split; [done|]. split; [simpl; lia|].
    split; [constructor|]. split; [|done]. intros _. by exists Y.
Qed.

(** X5.  For a relation field that declares an inverse (on a valid root
    entity target type), the validation of the relation adds at most one
    message about the inverse, an error at the inverseOf argument (or at the
    field); it adds none exactly when the named field exists on the target
    type, is a relation back to the declaring type, and has no inverseOf
    that resolves. *)
Theorem validateRelation_declared_inverse (X : Field) (yName : string)
    (context : ValidationContext) :
  Field.isRelation X = true ->
  Field.hasValidType m X = true ->
  Type_.kind (Field.type m X) = ROOT_ENTITY ->
  Config.inverseOfFieldName (input X) = Some yName ->
  exists errs,
    Field.validateRelation m X context = context ++ declaringTypeErrors X ++ errs
    /\ length errs <= 1
    /\ Forall (fun e => severity e = ERROR
                        /\ location e = orElse (Config.inverseOfASTNode (input X))
                                               (Field.astNode X)) errs
    /\ (errs = [] <->
        exists Y, Type_.getField (Field.type m X) yName = Some Y
                  /\ Field.type m Y = declaringType X
                  /\ Field.isRelation Y = true
                  /\ Field.inverseOf m Y = None).
Proof. apply validateRelation_explicit_run. Qed.

Lemma validateRelation_implicit_run (S' : Field) (context : ValidationContext) :
  Field.isRelation S' = true ->
  Config.inverseOfFieldName (input S') = None ->
  Field.hasValidType m S' = true ->
  Type_.kind (Field.type m S') = ROOT_ENTITY ->
  length (inverseFields m S') <= 1 ->
  exists msgs,
    Field.validateRelation m S' context = context ++ declaringTypeErrors S' ++ msgs
    /\ length msgs <= 1
    /\ Forall (fun e => severity e = WARNING /\ location e = Field.astNode S') msgs
    /\ (msgs = [] <-> length (inverseFields m S') = 1 \/ SeparateRelations.separateRelation m S' = None).
Proof.
  intros Hrel Hinv Hvalid Hkind Hlen.
  unfold Field.validateRelation.
  rewrite Hrel, Hvalid, add_declaringTypeErrors. simpl.
  rewrite bool_decide_eq_false_2 by (by intros ?).
  rewrite Hinv.
  change (filter _ (Type_.fields (Field.type m S'))) with (inverseFields m S').
  change (List.find _ (Type_.fields (Field.type m S'))) with (SeparateRelations.separateRelation m S').
  destruct (decide (length (inverseFields m S') = 0)) as [Hz|Hz].
  - rewrite (bool_decide_eq_true_2 _ Hz).
    destruct (SeparateRelations.separateRelation m S') as [g|].
    + unfold ValidationContext.addMessage. eexists [_]. rewrite <- app_assoc.
      split; [done|]. split; [simpl; lia|]. split; [by repeat constructor|].
      split; [done|]. intros [?|?]; [lia|done].
    + exists []. rewrite app_nil_r. split; [done|]. split; [simpl; lia|].
      split; [constructor|]. split; [|done]. intros _. by right.
  - rewrite (bool_decide_eq_false_2 _ Hz).
    rewrite bool_decide_eq_false_2 by lia.
    exists []. rewrite app_nil_r. split; [done|]. split; [simpl; lia|].
    split; [constructor|]. split; [|done]. intros _. left. lia.
Qed.
End ValidateRelationCases.

Lemma validateRelation_declared_inverse_witness :
  let m := MoreSamples.missingInverse in
  let X := Samples.fieldAt m 0 0 in
  exists errs,
    Field.validateRelation m X [] = [] ++ RelationRules.declaringTypeErrors X ++ errs
    /\ length errs <= 1
    /\ Forall (fun e => severity e = ERROR
                        /\ location e = orElse (Config.inverseOfASTNode (input X))
                                               (Field.astNode X)) errs
    /\ (errs = [] <->
        exists Y, Type_.getField (Field.type m X) "order" = Some Y
                  /\ Field.type m Y = declaringType X
                  /\ Field.isRelation Y = true
                  /\ Field.inverseOf m Y = None).
Proof.
  intros m X.
  apply (validateRelation_declared_inverse m X "order" []); reflexivity.
Defined.

Section ValidateRelationUnclaimed.
Import RelationRules.
Variable m : Model.t.

(** X6.  For a relation field that declares no inverse (on a valid root
    entity target type) and that at most one field of the target type
    claims as its inverse, the validation of the relation reports no error
    about the relation.  It adds a single warning, at the field, exactly when
    no field claims it and the target type has a relation back to the
    declaring type that declares no inverse either; otherwise it adds
    nothing. *)
Theorem validateRelation_undeclared_inverse (S' : Field) (context : ValidationContext) :
  Field.isRelation S' = true ->
  Config.inverseOfFieldName (input S') = None ->
  Field.hasValidType m S' = true ->
  Type_.kind (Field.type m S') = ROOT_ENTITY ->
  length (inverseFields m S') <= 1 ->
  exists msgs,
    Field.validateRelation m S' context = context ++ declaringTypeErrors S' ++ msgs
    /\ length msgs <= 1
    /\ Forall (fun e => severity e = WARNING /\ location e = Field.astNode S') msgs
    /\ (msgs = [] <->
        length (inverseFields m S') = 1 \/ SeparateRelations.separateRelation m S' = None).
Proof. apply validateRelation_implicit_run. Qed.

(** X7.  A properly linked pair validates clean: when [A] (on a root entity
    type, declaring no inverse) is claimed by exactly one field [B] of its
    target type, and [B] is a relation on that root entity type, then the
    validation of the relation adds no message, neither for [A] nor for
    [B]. *)
Theorem validateRelation_linked_pair (A B : Field) (context : ValidationContext) :
  Field.isRelation A = true ->
  Field.isRelation B = true ->
  Type_.kind (declaringType A) = ROOT_ENTITY ->
  Type_.kind (declaringType B) = ROOT_ENTITY ->
  Field.hasValidType m A = true ->
  Field.hasValidType m B = true ->
  Field.type m A = declaringType B ->
  Config.inverseOfFieldName (input A) = None ->
  inverseFields m A = [B] ->
  Field.validateRelation m A context = context
  /\ Field.validateRelation m B context = context.
Proof.
  intros HrA HrB HT HU HvA HvB HtA HnoInv Hclaim.
  assert (HinvB : Field.inverseOf m B = Some A).
  { assert (Hin : B ∈ inverseFields m A) by (rewrite Hclaim; apply list_elem_of_here).
    unfold inverseFields in Hin. by apply list_elem_of_filter in Hin as [? _]. }
  pose proof (inverseOf_Some m B A HinvB) as [HtB HnB].
  assert (HdA : declaringTypeErrors A = []).
  { unfold declaringTypeErrors. by rewrite bool_decide_eq_true_2. }
  assert (HdB : declaringTypeErrors B = []).
  { unfold declaringTypeErrors. by rewrite bool_decide_eq_true_2. }
  split.
  - destruct (validateRelation_implicit_run m A context) as (msgs & -> & _ & _ & Hiff);
      try done.
    + by rewrite HtA.
    + rewrite Hclaim. simpl. lia.
    + rewrite HdA. simpl. rewrite (proj2 Hiff); [by rewrite app_nil_r|].
      left. by rewrite Hclaim.
  - destruct (validateRelation_explicit_run m B (Field.name A) context)
      as (errs & -> & _ & _ & Hiff); try done.
    + by rewrite <- HtB.
    + rewrite HdB. simpl. rewrite (proj2 Hiff); [by rewrite app_nil_r|].
      exists A. split; [|split; [|split]]; try done.
      * unfold Field.inverseOf in HinvB. rewrite HnB in HinvB.
        by destruct (Type_.isObjectType (Field.type m B)).
      * unfold Field.inverseOf. by rewrite HnoInv.
Qed.
End ValidateRelationUnclaimed.

Lemma validateRelation_undeclared_inverse_witness :
  let m := MoreSamples.separateRelations in
  let S' := Samples.fieldAt m 0 0 in
  exists msgs,
    Field.validateRelation m S' [] = [] ++ RelationRules.declaringTypeErrors S' ++ msgs
    /\ length msgs <= 1
    /\ Forall (fun e => severity e = WARNING /\ location e = Field.astNode S') msgs
    /\ (msgs = [] <->
        length (RelationRules.inverseFields m S') = 1
        \/ SeparateRelations.separateRelation m S' = None).
Proof.
  intros m S'.
  apply (validateRelation_undeclared_inverse m S' []); try reflexivity.
  vm_compute. lia.
Defined.

Example validateRelation_separate_relations_warning :
  let m := MoreSamples.separateRelations in
  map (fun e => (severity e, location e)) (Field.validateRelation m (Samples.fieldAt m 0 0) [])
  = [(WARNING, Some 1)].
Proof. by vm_compute. Qed.

Lemma validateRelation_linked_pair_witness :
  let m := Samples.oneInverse in
  Field.validateRelation m (Samples.fieldAt m 0 0) [] = []
  /\ Field.validateRelation m (Samples.fieldAt m 1 0) [] = [].
Proof.
  intros m.
  apply (validateRelation_linked_pair m (Samples.fieldAt m 0 0) (Samples.fieldAt m 1 0) []);
    reflexivity.
Defined.

(** ** Validation: references and embedding *)

Section ValidateReference.
Variable m : Model.t.

(** X8.  The validation of a reference adds only errors located at the
    field, at most two of them (a list reference to a type without key gets
    both).  It accepts the field, adding nothing, exactly when the field is
    no reference, or its type does not resolve (that is reported elsewhere),
    or the field is no list and its type is a root entity type with a key
    field. *)
Theorem validateReference_accepts_iff (f : Field) (context : ValidationContext) :
  exists errs,
    Field.validateReference m f context = context ++ errs
    /\ length errs <= 2
    /\ Forall (fun e => severity e = ERROR /\ location e = Field.astNode f) errs
    /\ (errs = [] <->
        Field.isReference f = false
        \/ Field.hasValidType m f = false
        \/ (Type_.kind (Field.type m f) = ROOT_ENTITY
            /\ Field.isList f = false
            /\ is_Some (Type_.keyField (Field.type m f))))
    /\ (Field.isReference f = true -> Field.hasValidType m f = true ->
        Type_.kind (Field.type m f) = ROOT_ENTITY ->
        Field.isList f = true -> Type_.keyField (Field.type m f) = None ->
        length errs = 2).
Proof.
  unfold Field.validateReference, ValidationContext.addMessage.
  destruct (Field.isReference f); simpl.
  2: { exists []. rewrite app_nil_r. split; [done|]. split; [simpl; lia|].
       split; [constructor|]. split; [|done]. split; [by left | done]. }
  destruct (Field.hasValidType m f); simpl.
  2: { exists []. rewrite app_nil_r. split; [done|]. split; [simpl; lia|].
       split; [constructor|]. split; [|done]. split; [by right; left | done]. }
  destruct (decide (Type_.kind (Field.type m f) = ROOT_ENTITY)) as [Hk|Hk].
  2: { rewrite bool_decide_eq_true_2 by done. eexists [_].
       split; [done|]. split; [simpl; lia|]. split; [by repeat constructor|].
       split; [|done]. split; [done|]. intros [?|[?|[? _]]]; done. }
  rewrite bool_decide_eq_false_2 by tauto.
  destruct (Field.isList f), (Type_.keyField (Field.type m f)) as [k|].
  - eexists [_]. split; [done|]. split; [simpl; lia|]. split; [by repeat constructor|].
    split; [|done]. split; [done|]. intros [?|[?|(_ & ? & _)]]; done.
  - eexists [_; _]. rewrite <- app_assoc. split; [done|]. split; [simpl; lia|].
    split; [by repeat constructor|].
    split; [|done]. split; [done|]. intros [?|[?|(_ & ? & _)]]; done.
  - exists []. rewrite app_nil_r. split; [done|]. split; [simpl; lia|].
    split; [constructor|]. split; [|done]. split; [|done]. intros _. right. right.
    split; [done|]. split; [done|]. by eexists.
  - eexists [_]. split; [done|]. split; [simpl; lia|]. split; [by repeat constructor|].
    split; [|done]. split; [done|]. intros [?|[?|(_ & _ & [? [=]])]]; done.
Qed.

(** X9.  The embedding rules.  The validators of root entity, entity
    extension and child entity typed fields together add at most two
    messages, all errors at the field, and they add none exactly for the
    fields that the rules accept: no field is both reference and relation; a
    field of a root entity type is a reference or a relation; a field of an
    entity extension type is no list and not in a value object type; a field
    of a child entity type is a list and not in a value object type. *)
Theorem embedding_rules (f : Field) :
  length (EmbeddingRules.messages m f) <= 2
  /\ Forall (fun e => severity e = ERROR /\ location e = Field.astNode f)
       (EmbeddingRules.messages m f)
  /\ (EmbeddingRules.messages m f = [] <-> EmbeddingRules.accepts m f = true)
  /\ (Field.isReference f && Field.isRelation f = false ->
      length (EmbeddingRules.messages m f) <= 1).
Proof.
  unfold EmbeddingRules.messages, EmbeddingRules.accepts,
    Field.validateChildEntityType, Field.validateEntityExtensionType,
    Field.validateRootEntityType, ValidationContext.addMessage.
  destruct (Type_.kind (Field.type m f)) eqn:Hk;
    destruct (Field.isReference f), (Field.isRelation f), (Field.isList f);
    destruct (bool_decide (Type_.kind (declaringType f) = VALUE_OBJECT));
    simpl;
    (split; [lia|]); (split; [by repeat constructor|]); (split; [done|]);
    first [done | intros _; lia].
Qed.
End ValidateReference.

Example validateReference_list_without_key :
  let m := ReferenceSamples.listReferenceWithoutKey in
  map (fun e => (severity e, location e))
      (Field.validateReference m (Samples.fieldAt m 2 0) [])
  = [(ERROR, Some 4); (ERROR, Some 4)].
Proof. by vm_compute. Qed.

(** ** Validation: calc mutations *)

Section ValidateCalcMutationsMore.
Import CalcMutationRules.
Variable operators : list CalcMutationOperator.
Variable m : Model.t.
Variable f : Field.

(** Either all elements satisfy a decidable property, or there is a first one
    that does not. *)
Lemma first_failing {A} (P : A -> Prop) `{forall x, Decision (P x)} (l : list A) :
  Forall P l
  \/ exists pre x post, l = pre ++ x :: post /\ Forall P pre /\ ~ P x.
Proof.
  induction l as [|x l IH]; [by left|].
  destruct (decide (P x)) as [Hx|Hx].
  - destruct IH as [IH|(pre & y & post & -> & Hpre & Hy)].
    + left. by constructor.
    + right. exists (x :: pre), y, post. split; [done|]. split; [by constructor | done].
  - right. exists [], x, l. split; [done|]. split; [constructor | done].
Qed.

Lemma operatorErrors_shape (declared : list string) :
  length (operatorErrors operators m f declared) <= length declared
  /\ Forall (fun e => severity e = ERROR /\ location e = Field.astNode f)
       (operatorErrors operators m f declared).
Proof.
  unfold operatorErrors. induction declared as [|o declared [IHl IHf]]; simpl.
  - split; [lia | constructor].
  - rewrite length_app. split.
    + destruct (lookup operators o) as [d|]; [|simpl; lia].
      destruct (bool_decide _); simpl; lia.
    + apply Forall_app. split; [|done].
      destruct (lookup operators o) as [d|]; [|constructor].
      destruct (bool_decide _); by repeat constructor.
Qed.

(** The two ways in which the validation of the calc mutations of a field
    that is checked operator by operator ends. *)
Lemma validateCalcMutations_checked (context : ValidationContext) :
  Field.calcMutationOperators f <> [] ->
  Field.isList f = false ->
  supportedOperators operators m f <> [] ->
  (Forall (fun o => is_Some (lookup operators o)) (Field.calcMutationOperators f)
   /\ Field.validateCalcMutations operators m f context
      = (Return tt, context ++ operatorErrors operators m f (Field.calcMutationOperators f)))
  \/ (exists pre o post,
        Field.calcMutationOperators f = pre ++ o :: post
        /\ Forall (fun o => is_Some (lookup operators o)) pre
        /\ lookup operators o = None
        /\ Field.validateCalcMutations operators m f context
           = (Throw ("Unknown calc mutation operator: " +:+ o),
              context ++ operatorErrors operators m f pre)).
Proof.
  intros Hdeclared Hlist Hsup.
  assert (Hsize : bool_decide (JsSet.size (Field.calcMutationOperators f) = 0) = false).
  { apply bool_decide_eq_false_2. unfold JsSet.size.
    destruct (Field.calcMutationOperators f); [done | simpl; lia]. }
  assert (Hrun : Field.validateCalcMutations operators m f context
                 = Field.checkCalcMutationOperators operators (Type_.name (Field.type m f))
                     (Field.astNode f) (supportedOperatorsDesc operators m f)
                     (Field.calcMutationOperators f) context).
  { unfold Field.validateCalcMutations. rewrite Hsize, Hlist.
    change (filter _ operators) with (supportedOperators operators m f).
    rewrite (bool_decide_eq_false_2 (length _ = 0))
      by (destruct (supportedOperators operators m f); done).
    by rewrite andb_false_r. }
  rewrite Hrun.
  destruct (first_failing (fun o => is_Some (lookup operators o))
              (Field.calcMutationOperators f)) as [Hall|(pre & o & post & E & Hpre & Ho)].
  - left. split; [done|]. by apply checkCalcMutationOperators_known.
  - right. exists pre, o, post.
    assert (Hnone : lookup operators o = None).
    { destruct (lookup operators o) eqn:E'; [|done]. exfalso. apply Ho. by eexists. }
    split; [done|]. split; [done|]. split; [done|].
    rewrite E. by apply checkCalcMutationOperators_unknown.
Qed.

(** X10.  The validation of the calc mutations throws exactly when the field
    is no list, at least one operator of the table supports its type, and it
    declares an operator that the table does not have; the error then names
    the first such operator. *)
Theorem validateCalcMutations_throws_iff (context : ValidationContext) :
  (forall e, fst (Field.validateCalcMutations operators m f context) = Throw e ->
     Field.isList f = false
     /\ supportedOperators operators m f <> []
     /\ exists pre o post,
          Field.calcMutationOperators f = pre ++ o :: post
          /\ Forall (fun o => is_Some (lookup operators o)) pre
          /\ lookup operators o = None
          /\ e = "Unknown calc mutation operator: " +:+ o)
  /\ (Field.isList f = false ->
      supportedOperators operators m f <> [] ->
      forall o, o ∈ Field.calcMutationOperators f -> lookup operators o = None ->
      exists e, fst (Field.validateCalcMutations operators m f context) = Throw e).
Proof.
  split.
  - intros e He.
    destruct (decide (Field.calcMutationOperators f = [])) as [Hd|Hd].
    { unfold Field.validateCalcMutations in He. rewrite Hd in He. simpl in He. done. }
    destruct (Field.isList f) eqn:Hlist.
    { unfold Field.validateCalcMutations in He.
      rewrite bool_decide_eq_false_2 in He
        by (unfold JsSet.size; destruct (Field.calcMutationOperators f); [done | simpl; lia]).
      rewrite Hlist in He. done. }
    destruct (decide (supportedOperators operators m f = [])) as [Hs|Hs].
    { unfold Field.validateCalcMutations in He.
      rewrite bool_decide_eq_false_2 in He
        by (unfold JsSet.size; destruct (Field.calcMutationOperators f); [done | simpl; lia]).
      rewrite Hlist in He.
      change (filter _ operators) with (supportedOperators operators m f) in He.
      rewrite Hs in He.
      rewrite bool_decide_eq_true_2 in He
        by (unfold JsSet.size; destruct (Field.calcMutationOperators f); [done | simpl; lia]).
      done. }
    split; [done|]. split; [done|].
    destruct (validateCalcMutations_checked context Hd Hlist Hs)
      as [[_ E]|(pre & o & post & Hsplit & Hpre & Ho & E)]; rewrite E in He; [done|].
    injection He as <-. by exists pre, o, post.
  - intros Hlist Hs o Hin Ho.
    assert (Hd : Field.calcMutationOperators f <> []).
    { intros E. rewrite E in Hin. by apply not_elem_of_nil in Hin. }
    destruct (validateCalcMutations_checked context Hd Hlist Hs)
      as [[Hall _]|(pre & o' & post & _ & _ & _ & E)].
    + rewrite Forall_forall in Hall. destruct (Hall o Hin) as [d Hd']. congruence.
    + rewrite E. by eexists.
Qed.

Lemma validateCalcMutations_messages_run (context : ValidationContext) :
  exists errs,
    snd (Field.validateCalcMutations operators m f context) = context ++ errs
    /\ length errs <= length (Field.calcMutationOperators f)
    /\ Forall (fun e => severity e = ERROR /\ location e = Field.astNode f) errs.
Proof.
  destruct (decide (Field.calcMutationOperators f = [])) as [Hd|Hd].
  { unfold Field.validateCalcMutations. rewrite Hd. simpl.
    exists []. rewrite app_nil_r. split; [done|]. split; [simpl; lia | constructor]. }
  assert (Hpos : 1 <= length (Field.calcMutationOperators f)).
  { destruct (Field.calcMutationOperators f); [done | simpl; lia]. }
  destruct (Field.isList f) eqn:Hlist.
  { unfold Field.validateCalcMutations.
    rewrite bool_decide_eq_false_2 by (unfold JsSet.size; lia).
    rewrite Hlist. simpl. eexists [_]. split; [done|]. split; [simpl; lia|].
    by repeat constructor. }
  destruct (decide (supportedOperators operators m f = [])) as [Hs|Hs].
  { unfold Field.validateCalcMutations.
    rewrite bool_decide_eq_false_2 by (unfold JsSet.size; lia).
    rewrite Hlist.
    change (filter _ operators) with (supportedOperators operators m f).
    rewrite Hs. rewrite bool_decide_eq_true_2 by (unfold JsSet.size; lia).
    simpl. eexists [_]. split; [done|]. split; [simpl; lia|]. by repeat constructor. }
  destruct (validateCalcMutations_checked context Hd Hlist Hs)
    as [[_ E]|(pre & o & post & Hsplit & _ & _ & E)]; rewrite E; simpl.
  - eexists. split; [done|]. apply operatorErrors_shape.
  - eexists. split; [done|]. destruct (operatorErrors_shape pre) as [Hl Hf].
    split; [|done]. rewrite Hsplit, length_app. simpl. lia.
Qed.

(** X11.  Whatever the validation of the calc mutations adds to the context,
    it adds at the end; it adds errors only, located at the field, and at
    most one for each declared operator. *)
Theorem validateCalcMutations_messages (context : ValidationContext) :
  exists errs,
    snd (Field.validateCalcMutations operators m f context) = context ++ errs
    /\ length errs <= length (Field.calcMutationOperators f)
    /\ Forall (fun e => severity e = ERROR /\ location e = Field.astNode f) errs.
Proof. apply validateCalcMutations_messages_run. Qed.
End ValidateCalcMutationsMore.

(** ** Validation: the whole field *)

Section ValidateField.
Variable rolesAstNode : list string -> option ASTNode.
Variable rolesValidate : list string -> ValidationContext -> Completion unit * ValidationContext.
Variable operators : list CalcMutationOperator.
Variable m : Model.t.

Local Ltac appends :=
  unfold ValidationContext.addMessage; rewrite <- ?app_assoc;
  first [ by eexists | exists []; by rewrite app_nil_r ].

Lemma validateName_appends (f : Field) (c : ValidationContext) :
  exists l, Field.validateName f c = c ++ l.
Proof. unfold Field.validateName. repeat case_match; appends. Qed.

Lemma validateType_appends (f : Field) (c : ValidationContext) :
  exists l, Field.validateType m f c = c ++ l.
Proof. unfold Field.validateType. repeat case_match; appends. Qed.

Lemma validateRootEntityType_appends (f : Field) (c : ValidationContext) :
  exists l, Field.validateRootEntityType m f c = c ++ l.
Proof. unfold Field.validateRootEntityType. repeat case_match; appends. Qed.

Lemma validateEntityExtensionType_appends (f : Field) (c : ValidationContext) :
  exists l, Field.validateEntityExtensionType m f c = c ++ l.
Proof. unfold Field.validateEntityExtensionType. repeat case_match; appends. Qed.

Lemma validateChildEntityType_appends (f : Field) (c : ValidationContext) :
  exists l, Field.validateChildEntityType m f c = c ++ l.
Proof. unfold Field.validateChildEntityType. repeat case_match; appends. Qed.

Lemma validateRelation_appends (f : Field) (c : ValidationContext) :
  exists l, Field.validateRelation m f c = c ++ l.
Proof.
  unfold Field.validateRelation. rewrite add_declaringTypeErrors.
  repeat case_match; rewrite ?foldl_addMessage; appends.
Qed.

Lemma validateReference_appends (f : Field) (c : ValidationContext) :
  exists l, Field.validateReference m f c = c ++ l.
Proof. unfold Field.validateReference. repeat case_match; appends. Qed.

Lemma validateDefaultValue_appends (f : Field) (c : ValidationContext) :
  exists l, Field.validateDefaultValue f c = c ++ l.
Proof. unfold Field.validateDefaultValue. repeat case_match; appends. Qed.

Lemma validatePermissions_appends (f : Field) (c : ValidationContext) :
  (forall r c0, exists l, snd (rolesValidate r c0) = c0 ++ l) ->
  exists l, snd (Field.validatePermissions rolesAstNode rolesValidate f c) = c ++ l.
Proof.
  intros Hroles. unfold Field.validatePermissions, Field.roles.
  destruct (Config.permissions (input f)) as [p|]; simpl; [|appends].
  destruct (Config.permissionProfileName p) as [n|], (Config.roles p) as [r|]; simpl;
    try destruct (Type_.getPermissionProfile (declaringType f) n);
    try (match goal with |- context [rolesValidate ?r0 ?c0] =>
           destruct (Hroles r0 c0) as [l ->] end);
    appends.
Qed.

(** X12.  The validation of a field only ever adds to the context: provided
    the validation of the role specifier does, the context that [validate]
    leaves, whether it returns or throws, starts with the context it was
    given. *)
Theorem validate_appends (f : Field) (context : ValidationContext) :
  (forall r c0, exists l, snd (rolesValidate r c0) = c0 ++ l) ->
  exists l,
    snd (Field.validate rolesAstNode rolesValidate operators m f context) = context ++ l.
Proof.
  intros Hroles. unfold Field.validate.
  destruct (validateName_appends f context) as [l1 ->].
  destruct (validateType_appends f (context ++ l1)) as [l2 ->].
  destruct (validatePermissions_appends f ((context ++ l1) ++ l2) Hroles) as [l3 E3].
  destruct (Field.validatePermissions _ _ f _) as [[[]|e] c3]; simpl in E3; subst c3.
  2: { simpl. rewrite <- !app_assoc. by eexists. }
  destruct (validateRootEntityType_appends f (((context ++ l1) ++ l2) ++ l3)) as [l4 ->].
  match goal with |- context [Field.validateEntityExtensionType m f ?c0] =>
    destruct (validateEntityExtensionType_appends f c0) as [l5 ->] end.
  match goal with |- context [Field.validateChildEntityType m f ?c0] =>
    destruct (validateChildEntityType_appends f c0) as [l6 ->] end.
  match goal with |- context [Field.validateRelation m f ?c0] =>
    destruct (validateRelation_appends f c0) as [l7 ->] end.
  match goal with |- context [Field.validateReference m f ?c0] =>
    destruct (validateReference_appends f c0) as [l8 ->] end.
  match goal with |- context [Field.validateDefaultValue f ?c0] =>
    destruct (validateDefaultValue_appends f c0) as [l9 ->] end.
  match goal with |- context [Field.validateCalcMutations operators m f ?c0] =>
    destruct (validateCalcMutations_messages_run operators m f c0) as (l10 & -> & _) end.
  rewrite <- !app_assoc. by eexists.
Qed.
End ValidateField.

Lemma validate_appends_witness :
  let m := Samples.accounts in
  let score := Samples.fieldAt m 2 2 in
  exists l,
    snd (Field.validate SampleRoles.rolesAstNode SampleRoles.rolesValidate Samples.operators
           m score [ValidationMessage.info "earlier" None])
    = [ValidationMessage.info "earlier" None] ++ l.
Proof.
  intros m score.
  apply (validate_appends SampleRoles.rolesAstNode SampleRoles.rolesValidate Samples.operators
           m score).
  intros r c0. exists []. by rewrite app_nil_r.
Defined.

Section ValidatePlainField.
Variable rolesAstNode : list string -> option ASTNode.
Variable rolesValidate : list string -> ValidationContext -> Completion unit * ValidationContext.
Variable operators : list CalcMutationOperator.
Variable m : Model.t.

Lemma validateName_clean (f : Field) (c : ValidationContext) :
  NameRules.firstMatching (Field.name f) = None -> Field.validateName f c = c.
Proof.
  unfold NameRules.firstMatching, Field.validateName, ValidationContext.addMessage.
  destruct (Field.name f) as [|ch rest]; [done|].
  rewrite bool_decide_eq_false_2 by done.
  rewrite startsWith_underscore, includes_underscore, includes_hasUnderscore.
  simpl. destruct (NameRules.isUnderscore ch); simpl; [done|].
  destruct (NameRules.hasUnderscore rest); simpl; [done|].
  change (_ && _) with (NameRules.isLowercase ch).
  by destruct (NameRules.isLowercase ch).
Qed.

(** X13.  A plain field validates clean.  A field whose name breaks no
    naming rule, whose type resolves to a scalar, enum or value object type,
    that is no reference and no relation and that configures no permissions,
    no default value and no calc mutation operators passes the whole
    validation: [validate] returns and leaves the context as it was. *)
Theorem validate_plain_field (f : Field) (context : ValidationContext) :
  NameRules.firstMatching (Field.name f) = None ->
  Field.hasValidType m f = true ->
  Type_.kind (Field.type m f) = SCALAR \/ Type_.kind (Field.type m f) = ENUM
    \/ Type_.kind (Field.type m f) = VALUE_OBJECT ->
  Field.isReference f = false ->
  Field.isRelation f = false ->
  Config.permissions (input f) = None ->
  Config.hasDefault (input f) = false ->
  Config.calcMutationOperators (input f) = [] ->
  Field.validate rolesAstNode rolesValidate operators m f context = (Return tt, context).
Proof.
  intros Hname Hvalid Hkind Href Hrel Hperm Hdef Hops.
  assert (Hroot : Type_.kind (Field.type m f) <> ROOT_ENTITY)
    by (destruct Hkind as [E | [E | E]]; rewrite E; done).
  assert (Hext : Type_.kind (Field.type m f) <> ENTITY_EXTENSION)
    by (destruct Hkind as [E | [E | E]]; rewrite E; done).
  assert (Hchild : Type_.kind (Field.type m f) <> CHILD_ENTITY)
    by (destruct Hkind as [E | [E | E]]; rewrite E; done).
  unfold Field.validate. rewrite (validateName_clean f context Hname).
  unfold Field.validateType. unfold Field.hasValidType in Hvalid. rewrite Hvalid.
  cbn [negb].
  unfold Field.validatePermissions, Field.roles. rewrite Hperm. cbn iota beta zeta.
  unfold Field.validateRootEntityType. rewrite Href. cbn [andb].
  rewrite (bool_decide_eq_true_2 _ Hroot).
  unfold Field.validateEntityExtensionType. rewrite (bool_decide_eq_true_2 _ Hext).
  unfold Field.validateChildEntityType. rewrite (bool_decide_eq_true_2 _ Hchild).
  unfold Field.validateRelation. rewrite Hrel.
  unfold Field.validateReference. rewrite Href. cbn [negb].
  unfold Field.validateDefaultValue. rewrite Hdef. cbn [negb].
  unfold Field.validateCalcMutations, Field.calcMutationOperators. rewrite Hops.
  reflexivity.
Qed.
End ValidatePlainField.

Lemma validate_plain_field_witness :
  let m := Samples.shop in
  let title := Samples.fieldAt m 4 1 in
  Field.validate SampleRoles.rolesAstNode SampleRoles.rolesValidate Samples.operators m title []
  = (Return tt, []).
Proof.
  intros m title.
  apply (validate_plain_field SampleRoles.rolesAstNode SampleRoles.rolesValidate
           Samples.operators m title []); try reflexivity.
  left. reflexivity.
Defined.

(** ** Compilation of field access: relations, lists, and lookups *)

Section CreateFieldNodeMore.
Import FieldNodes FieldNodeShapes.
Variable m : Model.t.

(** X14.  Read access to a relation field follows the edge of the side on
    which the field sits.  For a relation field between two root entity
    types the compilation allocates the relation and yields the edge
    traversal from the source, of which a field that is no list takes the
    first element; when one of the two types is no root entity type, it
    throws. *)
Theorem createFieldNode_relation (fuel : nat) (field : Field) (sourceNode : QueryNode)
    (h : Heap) :
  Field.isRelation field = true ->
  (Type_.kind (declaringType field) = ROOT_ENTITY ->
   Type_.kind (Field.type m field) = ROOT_ENTITY ->
   exists s,
     Field.relationSide m field h = (Some s, S h)
     /\ RelationSides.ownField s = Some field
     /\ createFieldNode (S fuel) m field sourceNode h
        = Done (if Field.isList field then FollowEdgeQueryNode s sourceNode
                else FirstOfListQueryNode (FollowEdgeQueryNode s sourceNode))
               (S h))
  /\ (Type_.kind (declaringType field) <> ROOT_ENTITY
      \/ Type_.kind (Field.type m field) <> ROOT_ENTITY ->
      exists e, createFieldNode (S fuel) m field sourceNode h = Thrown e).
Proof.
  intros Hrel. rewrite createFieldNode_step, Hrel.
  unfold createToNRelationNode, createTo1RelationNode, Field.getRelationSideOrThrow,
    Field.relationSide, Type_.isRootEntityType, mbind, M_bind, mret, M_ret, liftNew, throw.
  rewrite Hrel. split.
  - intros Hd Ht.
    rewrite !(bool_decide_eq_false_2 (_ <> _)) by tauto.
    rewrite !bool_decide_eq_true_2 by done. simpl.
    destruct (Field.inverseOf m field) as [inv|]; simpl;
      eexists; (split; [reflexivity|]); (split; [reflexivity|]);
      by destruct (Field.isList field).
  - intros Hne.
    destruct (decide (Type_.kind (Field.type m field) = ROOT_ENTITY)) as [Ht|Ht].
    + destruct Hne as [Hd|?]; [|done].
      rewrite (bool_decide_eq_false_2 (Type_.kind (Field.type m field) <> _)) by tauto.
      rewrite (bool_decide_eq_true_2 (Type_.kind (declaringType field) <> _)) by done.
      destruct (Field.isList field); by eexists.
    + rewrite (bool_decide_eq_true_2 (Type_.kind (Field.type m field) <> _)) by done.
      destruct (Field.isList field); by eexists.
Qed.

(** X15.  Only references and relations reach other entities.  For a
    field that is a list or a relation, or that is no reference, one level
    of calls is enough.  When such a field is no relation, the compilation
    returns, constructs nothing, and the node it yields yields entities
    exactly where the source expression does: it adds neither an entity-set
    node nor an edge traversal.  When it is a relation, the node that the
    compilation yields, if it returns, does reach other entities: it is an
    edge traversal. *)
Theorem createFieldNode_without_lookup (fuel : nat) (field : Field) (sourceNode : QueryNode)
    (h : Heap) :
  Field.isList field = true \/ Field.isRelation field = true
    \/ Field.isReference field = false ->
  createFieldNode (S fuel) m field sourceNode h <> OutOfFuel
  /\ (Field.isRelation field = false ->
      exists node,
        createFieldNode (S fuel) m field sourceNode h = Done node h
        /\ QueryNode.readsEntities node = QueryNode.readsEntities sourceNode)
  /\ (Field.isRelation field = true ->
      forall node h',
        createFieldNode (S fuel) m field sourceNode h = Done node h' ->
        QueryNode.readsEntities node = true
        /\ exists s, node = FollowEdgeQueryNode s sourceNode
                     \/ node = FirstOfListQueryNode (FollowEdgeQueryNode s sourceNode)).
Proof.
  intros Hcase. rewrite createFieldNode_step.
  unfold createToNRelationNode, createTo1RelationNode, createSafeListQueryNode,
    Field.getRelationSideOrThrow, mbind, M_bind, mret, M_ret, liftNew, throw.
  destruct (Field.isList field) eqn:Hl, (Field.isRelation field) eqn:Hr.
  - repeat case_match; simplify_eq; (split; [done|]); (split; [done|]);
      intros _ node h' [= <- <-]; (split; [done|]); eexists; by left.
  - split; [done|]. split; [|done]. intros _. eexists. split; [reflexivity|].
    simpl. rewrite orb_false_r. by destruct (QueryNode.readsEntities sourceNode).
  - repeat case_match; simplify_eq; (split; [done|]); (split; [done|]);
      intros _ node h' [= <- <-]; (split; [done|]); eexists; by right.
  - destruct Hcase as [[=]|[[=]|Href]]. rewrite Href.
    destruct (_ && _).
    + split; [done|]. split; [|done]. intros _. by eexists.
    + destruct (Type_.isEntityExtensionType _).
      * split; [done|]. split; [|done]. intros _. eexists. split; [reflexivity|].
        simpl. rewrite orb_false_r. by destruct (QueryNode.readsEntities sourceNode).
      * split; [done|]. split; [|done]. intros _. by eexists.
Qed.

(** X16.  Nothing bounds the calls through key fields.  For a reference
    field (no list, no relation) that is itself the key field of the type it
    refers to, compiling the read of the field calls for the read of the key
    field, which is the same field again: no number of nested calls is
    enough. *)
Theorem createFieldNode_self_keyed_reference (field : Field) :
  Field.isList field = false ->
  Field.isRelation field = false ->
  Field.isReference field = true ->
  Type_.keyField (Field.type m field) = Some field ->
  forall (fuel : nat) (sourceNode : QueryNode) (h : Heap),
    createFieldNode fuel m field sourceNode h = OutOfFuel.
Proof.
  intros Hl Hr Hf Hkey fuel.
  induction fuel as [|fuel IH]; intros sourceNode h; [done|].
  rewrite createFieldNode_step, Hl, Hr, Hf.
  unfold createTo1ReferenceNode, Type_.getKeyFieldOrThrow. rewrite Hkey.
  unfold mbind, M_bind, mret, M_ret, liftNew, alloc. simpl.
  by rewrite IH.
Qed.

(** X17.  A reference to a type that is keyed by its system field [id] is
    looked up by the identity of the entities: the key that the filter
    compares is the identity accessor on the item variable. *)
Theorem createFieldNode_reference_by_id (fuel : nat) (field keyField : Field)
    (sourceNode : QueryNode) (h : Heap) :
  Field.isList field = false ->
  Field.isRelation field = false ->
  Field.isReference field = true ->
  Type_.keyField (Field.type m field) = Some keyField ->
  Field.isList keyField = false ->
  Field.isRelation keyField = false ->
  Field.isReference keyField = false ->
  Type_.kind (declaringType keyField) = ROOT_ENTITY ->
  Field.isSystemField keyField = true ->
  Field.name keyField = ID_FIELD ->
  createFieldNode (S (S fuel)) m field sourceNode h
  = Done (ConditionalQueryNode
            (TypeCheckQueryNode (FieldQueryNode sourceNode field) NULL)
            NullQueryNode
            (referenceLookup (Field.type m field)
               (RootEntityIDQueryNode (VariableQueryNode h (Field.name field)))
               (FieldQueryNode sourceNode field)
               (VariableQueryNode h (Field.name field))))
         (S h).
Proof.
  intros Hl Hr Hf Hkey Hkl Hkr Hkf Hkind Hsys Hname.
  rewrite createFieldNode_step, Hl, Hr, Hf.
  apply createTo1ReferenceNode_run with (keyField := keyField); [done|].
  rewrite createFieldNode_stored by done.
  unfold Type_.isRootEntityType. rewrite Hkind, Hsys, Hname. reflexivity.
Qed.
End CreateFieldNodeMore.

Lemma createFieldNode_relation_witness :
  let m := Samples.oneInverse in
  let movies := Samples.fieldAt m 1 0 in
  exists s,
    Field.relationSide m movies 3 = (Some s, 4)
    /\ RelationSides.ownField s = Some movies
    /\ FieldNodes.createFieldNode 1 m movies Samples.current 3
       = Done (if Field.isList movies then FollowEdgeQueryNode s Samples.current
               else FirstOfListQueryNode (FollowEdgeQueryNode s Samples.current))
              4.
Proof.
  intros m movies.
  apply (createFieldNode_relation m 0 movies Samples.current 3); reflexivity.
Defined.

Lemma createFieldNode_without_lookup_witness :
  let m := Samples.shop in
  let tags := Samples.fieldAt m 3 3 in
  FieldNodes.createFieldNode 1 m tags Samples.current 0 <> OutOfFuel
  /\ (Field.isRelation tags = false ->
      exists node,
        FieldNodes.createFieldNode 1 m tags Samples.current 0 = Done node 0
        /\ QueryNode.readsEntities node = QueryNode.readsEntities Samples.current)
  /\ (Field.isRelation tags = true ->
      forall node h',
        FieldNodes.createFieldNode 1 m tags Samples.current 0 = Done node h' ->
        QueryNode.readsEntities node = true
        /\ exists s, node = FollowEdgeQueryNode s Samples.current
                     \/ node = FirstOfListQueryNode (FollowEdgeQueryNode s Samples.current)).
Proof.
  intros m tags.
  apply (createFieldNode_without_lookup m 0 tags Samples.current 0).
  left. reflexivity.
Defined.

Lemma createFieldNode_self_keyed_reference_witness :
  let m := NodeSamples.selfKeyed in
  FieldNodes.createFieldNode 1000 m (Samples.fieldAt m 0 0) Samples.current 0 = OutOfFuel.
Proof.
  intros m.
  apply (createFieldNode_self_keyed_reference m (Samples.fieldAt m 0 0)); reflexivity.
Defined.

Lemma createFieldNode_reference_by_id_witness :
  let m := NodeSamples.keyedById in
  let customer := Samples.fieldAt m 2 1 in
  FieldNodes.createFieldNode 2 m customer Samples.current 5
  = Done (ConditionalQueryNode
            (TypeCheckQueryNode (FieldQueryNode Samples.current customer) NULL)
            NullQueryNode
            (FieldNodeShapes.referenceLookup (Field.type m customer)
               (RootEntityIDQueryNode (VariableQueryNode 5 (Field.name customer)))
               (FieldQueryNode Samples.current customer)
               (VariableQueryNode 5 (Field.name customer))))
         6.
Proof.
  intros m customer.
  apply (createFieldNode_reference_by_id m 0 customer (Samples.fieldAt m 1 0)
           Samples.current 5); reflexivity.
Defined.

(** ** Update input fields: lists and value objects *)

Section ListInputs.
Variable field : Field.
Variable objectInputType : CreateObjectInputType.

(** X18.  The list-typed setters never write null: whatever the input, a
    set-field node that [getProperties] of the scalar list setter or of the
    value object list setter produces is a single node for the field, and its
    literal is not null. *)
Theorem list_setters_never_write_null (value : AnyValue) (nodes : list SetFieldQueryNode) :
  BasicListUpdateInputField.getProperties field value = Return nodes
  \/ UpdateValueObjectListInputField.getProperties field objectInputType value = Return nodes ->
  exists literal,
    nodes = [ {| setField := field; valueNode := LiteralQueryNode literal |} ]
    /\ literal <> VNull.
Proof.
  unfold BasicListUpdateInputField.getProperties,
    UpdateValueObjectListInputField.getProperties,
    BasicUpdateInputField.getPropertiesWith,
    BasicListUpdateInputField.coerceValue,
    UpdateValueObjectListInputField.coerceValue, BasicUpdateInputField.coerceValue.
  intros [H|H].
  - injection H as <-. eexists. split; [done|]. by destruct value.
  - destruct value; simpl in H; try done;
      try (injection H as <-; eexists; split; done).
    destruct (mapCompletion _ items); [|done].
    injection H as <-. eexists. split; done.
Qed.

(** X19.  The value object list setter prepares the items one by one: when
    the create input type prepares every item of an array, the coerced value
    is the array of the prepared items, in the same order and of the same
    length. *)
Theorem valueObjectList_coerces_items (items : list AnyValue) :
  Forall (fun item => exists prepared, prepareValue objectInputType item = Return prepared)
         items ->
  exists items',
    UpdateValueObjectListInputField.coerceValue field objectInputType (VArray items)
      = Return (VArray items')
    /\ length items' = length items
    /\ Forall2 (fun item prepared => prepareValue objectInputType item = Return prepared)
         items items'.
Proof.
  intros Hall.
  assert (Hmap : exists items',
             mapCompletion (prepareValue objectInputType) items = Return items'
             /\ Forall2 (fun item prepared =>
                           prepareValue objectInputType item = Return prepared)
                  items items').
  { induction Hall as [|item items [prepared Hp] _ (items' & IH & IH2)]; simpl.
    - exists []. split; [done | constructor].
    - rewrite Hp, IH. exists (prepared :: items'). split; [done | by constructor]. }
  destruct Hmap as (items' & Hmap & H2).
  exists items'. unfold UpdateValueObjectListInputField.coerceValue,
    BasicUpdateInputField.coerceValue. rewrite Hmap.
  split; [done|]. split; [|done]. symmetry. by eapply Forall2_length.
Qed.

(** X20.  The value object list setter rejects what is no list consistently:
    for a value that is no array and neither null nor undefined, coercing
    the value, producing the set-field nodes and collecting the affected
    fields all throw the same error, which names the field and the
    [typeof] of the value. *)
Theorem valueObjectList_rejects_non_arrays (value : AnyValue) (fields : list Field) :
  ValueShapes.isArray value = false ->
  ValueShapes.isNullish value = false ->
  let error :=
    "Expected value for " +:+ quoted (Field.name field) +:+ " to be an array, but is "
      +:+ quoted (UpdateValueObjectListInputField.typeOf value) in
  UpdateValueObjectListInputField.coerceValue field objectInputType value = Throw error
  /\ UpdateValueObjectListInputField.getProperties field objectInputType value = Throw error
  /\ UpdateValueObjectListInputField.collectAffectedFields field objectInputType value fields
     = Thrown error.
Proof. destruct value; try done. Qed.

(** X21.  Collecting the affected fields of a value object setter, single or
    list, reports the field itself next to what the nested values touch:
    provided the collector of the create input type only adds to the set,
    the set that results contains the field and everything it held
    before. *)
Theorem valueObject_collects_field (value : AnyValue) (fields fields' : list Field) :
  (forall v s s', createCollectAffectedFields objectInputType v s = Done tt s' -> s ⊆ s') ->
  UpdateValueObjectInputField.collectAffectedFields field objectInputType value fields
    = Done tt fields'
  \/ UpdateValueObjectListInputField.collectAffectedFields field objectInputType value fields
     = Done tt fields' ->
  field ∈ fields' /\ fields ⊆ fields'.
Proof.
  intros Hmono.
  assert (Hadd : field ∈ JsSet.add fields field /\ fields ⊆ JsSet.add fields field).
  { split; [apply JsSet_add_elem|]. intros x Hx. by apply JsSet_add_keeps. }
  assert (Heach : forall items s s',
             forEach (createCollectAffectedFields objectInputType) items s = Done tt s' ->
             s ⊆ s').
  { induction items as [|item items IH]; intros s s'; simpl.
    - by intros [= <-].
    - unfold mbind, M_bind.
      destruct (createCollectAffectedFields objectInputType item s) as [[] s1| |] eqn:E;
        [|done..].
      intros Hrest. transitivity s1; [by eapply Hmono | by eapply IH]. }
  unfold UpdateValueObjectInputField.collectAffectedFields,
    UpdateValueObjectListInputField.collectAffectedFields,
    BasicUpdateInputField.collectAffectedFields, mbind, M_bind, mret, M_ret, throw.
  destruct Hadd as [Hin Hsub].
  intros [H|H]; destruct value; simplify_eq; try done;
    try (apply Hmono in H; split; [by apply H | by transitivity (JsSet.add fields field)]).
  apply Heach in H. split; [by apply H | by transitivity (JsSet.add fields field)].
Qed.
End ListInputs.

Lemma list_setters_never_write_null_witness :
  let tags := Samples.fieldAt Samples.shop 3 3 in
  exists literal,
    [ {| setField := tags; valueNode := LiteralQueryNode (VArray []) |} ]
    = [ {| setField := tags; valueNode := LiteralQueryNode literal |} ]
    /\ literal <> VNull.
Proof.
  intros tags.
  apply (list_setters_never_write_null tags SampleInputTypes.wrapping VNull).
  left. reflexivity.
Defined.

Lemma valueObjectList_coerces_items_witness :
  let addresses := Samples.fieldAt Samples.shop 3 4 in
  exists items',
    UpdateValueObjectListInputField.coerceValue addresses SampleInputTypes.wrapping
      (VArray [VString "a"; VNull])
    = Return (VArray items')
    /\ length items' = 2
    /\ Forall2 (fun item prepared =>
                  prepareValue SampleInputTypes.wrapping item = Return prepared)
         [VString "a"; VNull] items'.
Proof.
  intros addresses.
  apply (valueObjectList_coerces_items addresses SampleInputTypes.wrapping
           [VString "a"; VNull]).
  repeat constructor; by eexists.
Defined.

Lemma valueObjectList_rejects_non_arrays_witness :
  let addresses := Samples.fieldAt Samples.shop 3 4 in
  UpdateValueObjectListInputField.coerceValue addresses SampleInputTypes.wrapping
    (VObject [("city", VString "x")])
  = Throw ("Expected value for " +:+ quoted "addresses" +:+ " to be an array, but is "
             +:+ quoted "object")
  /\ UpdateValueObjectListInputField.getProperties addresses SampleInputTypes.wrapping
       (VObject [("city", VString "x")])
     = Throw ("Expected value for " +:+ quoted "addresses" +:+ " to be an array, but is "
                +:+ quoted "object")
  /\ UpdateValueObjectListInputField.collectAffectedFields addresses SampleInputTypes.wrapping
       (VObject [("city", VString "x")]) []
     = Thrown ("Expected value for " +:+ quoted "addresses" +:+ " to be an array, but is "
                 +:+ quoted "object").
Proof.
  intros addresses.
  apply (valueObjectList_rejects_non_arrays addresses SampleInputTypes.wrapping
           (VObject [("city", VString "x")]) []); reflexivity.
Defined.

Lemma valueObject_collects_field_witness :
  let addresses := Samples.fieldAt Samples.shop 3 4 in
  addresses ∈ [addresses] /\ [] ⊆ [addresses].
Proof.
  intros addresses.
  apply (valueObject_collects_field addresses SampleInputTypes.wrapping
           (VArray [VString "a"]) [] [addresses]).
  - by intros v s s' [= <-].
  - right. reflexivity.
Defined.

(** ** The generator: what is settable *)

Section GeneratorMore.
Import UpdateInputTypeGenerator.
Variable getUpdateInputTypeName : string -> string.
Variable CALC_MUTATIONS_OPERATORS : list CalcMutationOperator.
Variable this : UpdateInputTypeGenerator.
Variable m : Model.t.

Local Abbreviation generateFields :=
  (generateFields getUpdateInputTypeName CALC_MUTATIONS_OPERATORS this m).
Local Abbreviation inputFields :=
  (inputFields getUpdateInputTypeName CALC_MUTATIONS_OPERATORS this m).

(** X22.  A system field is never settable.  Whatever the options and the
    state of the generator, [generateFields] returns for a system field
    without touching the state, and it yields either no input field or the
    one filter input; the filter input only for the field [id] of a root or
    child entity type, and only without [skipID]. *)
Theorem system_field_never_settable (field : Field) (options : GenerateFieldsOptions)
    (st : GeneratorState) :
  Field.isSystemField field = true ->
  generateFields field options st = Done [] st
  \/ (generateFields field options st
        = Done [UpdateFilterInputField field (GraphQLNonNull GraphQLID)] st
      /\ Field.name field = ID_FIELD
      /\ skipID options = false
      /\ (Type_.kind (declaringType field) = ROOT_ENTITY
          \/ Type_.kind (declaringType field) = CHILD_ENTITY)).
Proof.
  intros Hsys. unfold UpdateInputTypeGenerator.generateFields. rewrite Hsys.
  unfold Type_.isRootEntityType, Type_.isChildEntityType.
  destruct (skipID options); simpl; [by left|].
  destruct (decide (Field.name field = ID_FIELD)) as [Hn|Hn].
  2: { rewrite (bool_decide_eq_false_2 _ Hn), andb_false_r. by left. }
  rewrite (bool_decide_eq_true_2 _ Hn), andb_true_r.
  destruct (decide (Type_.kind (declaringType field) = ROOT_ENTITY)) as [Hr|Hr].
  { rewrite (bool_decide_eq_true_2 _ Hr). simpl. right. repeat split; try done. by left. }
  rewrite (bool_decide_eq_false_2 _ Hr). simpl.
  destruct (decide (Type_.kind (declaringType field) = CHILD_ENTITY)) as [Hc|Hc].
  { rewrite (bool_decide_eq_true_2 _ Hc). right. repeat split; try done. by right. }
  rewrite (bool_decide_eq_false_2 _ Hc). by left.
Qed.

Lemma generateFields_skipRelations_no_edges (field : Field) (options : GenerateFieldsOptions)
    (st st' : GeneratorState) (l : list UpdateInputField) :
  skipRelations options = true ->
  generateFields field options st = Done l st' ->
  Forall (fun i => InputKinds.isEdgeInput i = false) l.
Proof.
  intros Hskip.
  unfold UpdateInputTypeGenerator.generateFields, mbind, M_bind, mret, M_ret, throw.
  rewrite Hskip. intros H.
  repeat case_match; simplify_eq; repeat constructor;
    apply Forall_fmap, Forall_forall; done.
Qed.

Lemma mapM_generateFields_no_edges (options : GenerateFieldsOptions) (fs : list Field)
    (st st' : GeneratorState) (ls : list (list UpdateInputField)) :
  skipRelations options = true ->
  mapM_ (fun field => generateFields field options) fs st = Done ls st' ->
  Forall (fun i => InputKinds.isEdgeInput i = false) (concat ls).
Proof.
  intros Hskip. revert st st' ls.
  induction fs as [|field fs IH]; intros st st' ls; simpl.
  - intros [= <- _]. constructor.
  - unfold mbind, M_bind, mret, M_ret.
    destruct (generateFields field options st) as [l st1| |] eqn:Hgen; [|done..].
    destruct (mapM_ _ fs st1) as [ls' st2| |] eqn:Hrest; [|done..].
    intros [= <- _]. simpl. apply Forall_app. split; [|by eapply IH].
    by eapply generateFields_skipRelations_no_edges.
Qed.

(** X23.  The update-all input type depends neither on the identity of the
    entities nor on their edges: with [skipID] and [skipRelations], as the
    update-all type is constructed, none of its input fields belongs to a
    system field and none of them is an input that adds, removes, sets or
    creates edges. *)
Theorem update_all_input_fields (inputType : UpdateObjectInputType)
    (st st' : GeneratorState) (l : list UpdateInputField) :
  fieldOptions inputType = {| skipID := true; skipRelations := true |} ->
  inputFields inputType st = Done l st' ->
  Forall (fun i => Field.isSystemField (UpdateInputField.field i) = false
                   /\ InputKinds.isEdgeInput i = false
                   /\ UpdateInputField.field i ∈ Type_.fields (objectType inputType)) l.
Proof.
  intros Hopt Hrun.
  assert (Hsys : Forall (fun i => Field.isSystemField (UpdateInputField.field i) = false) l).
  { eapply (inputFields_skipID_no_system getUpdateInputTypeName CALC_MUTATIONS_OPERATORS this m);
      [|exact Hrun]. by rewrite Hopt. }
  assert (Hedge : Forall (fun i => InputKinds.isEdgeInput i = false) l).
  { revert Hrun. unfold UpdateInputTypeGenerator.inputFields, mbind, M_bind, mret, M_ret.
    destruct (mapM_ _ _ st) as [ls st1| |] eqn:Hmap; [|done..].
    intros [= <- _]. eapply mapM_generateFields_no_edges; [|exact Hmap]. by rewrite Hopt. }
  assert (Hown : Forall (fun i => UpdateInputField.field i ∈ Type_.fields (objectType inputType))
                   l).
  { clear Hsys Hedge. revert Hrun. unfold UpdateInputTypeGenerator.inputFields, mbind, M_bind, mret, M_ret.
    destruct (mapM_ _ _ st) as [ls st1| |] eqn:Hmap; [|done..].
    intros [= <- _]. revert st st1 ls Hmap.
    generalize (fieldOptions inputType) as options.
    induction (Type_.fields (objectType inputType)) as [|field fs IH];
      intros options st st1 ls; simpl.
    - intros [= <- _]. constructor.
    - unfold mbind, M_bind, mret, M_ret.
      destruct (generateFields field options st) as [l0 st2| |] eqn:Hgen; [|done..].
      destruct (mapM_ _ fs st2) as [ls' st3| |] eqn:Hrest; [|done..].
      intros [= <- _]. simpl. apply Forall_app. split.
      + apply generateFields_field in Hgen.
        eapply Forall_impl; [exact Hgen|]. intros i ->. apply list_elem_of_here.
      + eapply Forall_impl; [by eapply IH|]. intros i Hi. by apply list_elem_of_further. }
  rewrite Forall_forall in Hsys, Hedge, Hown. apply Forall_forall. intros i Hi.
  split; [by apply Hsys|]. split; [by apply Hedge | by apply Hown].
Qed.

(** X24.  A root entity cannot be embedded, for the validation and for the
    generator alike.  For a field of a root entity type that is neither a
    reference nor a relation (and no system field), the validation adds the
    error that the type cannot be embedded, and generating the update input
    fields throws, naming the field. *)
Theorem embedded_root_entity_rejected (field : Field) (options : GenerateFieldsOptions)
    (st : GeneratorState) (context : ValidationContext) :
  Field.isSystemField field = false ->
  Field.isReference field = false ->
  Field.isRelation field = false ->
  Type_.kind (Field.type m field) = ROOT_ENTITY ->
  (exists e,
     Field.validateRootEntityType m field context = context ++ [e]
     /\ severity e = ERROR /\ location e = Field.astNode field)
  /\ generateFields field options st
     = Thrown ("Field " +:+ quoted (Type_.name (declaringType field) +:+ "."
                                       +:+ Field.name field)
                 +:+ " has an unexpected configuration").
Proof.
  intros Hsys Href Hrel Hkind. split.
  - unfold Field.validateRootEntityType, ValidationContext.addMessage.
    rewrite Href, Hrel, Hkind. simpl.
    destruct (bool_decide (Type_.kind (declaringType field) = VALUE_OBJECT));
      by eexists.
  - unfold UpdateInputTypeGenerator.generateFields.
    rewrite Hsys, Href, Hrel.
    unfold Type_.isScalarType, Type_.isEnumType, Type_.isValueObjectType,
      Type_.isEntityExtensionType, Type_.isChildEntityType.
    rewrite Hkind. reflexivity.
Qed.
End GeneratorMore.

Lemma system_field_never_settable_witness :
  let m := Samples.shop in
  let id := Samples.fieldAt m 4 0 in
  let generateFields :=
    UpdateInputTypeGenerator.generateFields Samples.updateName Samples.operators
      Samples.generator m in
  generateFields id UpdateInputTypeGenerator.defaultOptions Samples.freshGenerator
    = Done [] Samples.freshGenerator
  \/ (generateFields id UpdateInputTypeGenerator.defaultOptions Samples.freshGenerator
        = Done [UpdateFilterInputField id (GraphQLNonNull GraphQLID)] Samples.freshGenerator
      /\ Field.name id = ID_FIELD
      /\ skipID UpdateInputTypeGenerator.defaultOptions = false
      /\ (Type_.kind (declaringType id) = ROOT_ENTITY
          \/ Type_.kind (declaringType id) = CHILD_ENTITY)).
Proof.
  intros m id generateFields.
  apply (system_field_never_settable Samples.updateName Samples.operators Samples.generator
           m id UpdateInputTypeGenerator.defaultOptions Samples.freshGenerator).
  reflexivity.
Defined.

Lemma update_all_input_fields_witness :
  let m := Samples.shop in
  let updateAllOrders :=
    {| inputTypeId := 0; inputTypeClass := UpdateRootEntityInputType;
       objectType := Samples.typeAt m 3; inputTypeName := Samples.updateAllName "Order";
       fieldOptions := {| skipID := true; skipRelations := true |} |} in
  exists l st',
    UpdateInputTypeGenerator.inputFields Samples.updateName Samples.operators
      Samples.generator m updateAllOrders Samples.freshGenerator = Done l st'
    /\ length l = 6
    /\ Forall (fun i => Field.isSystemField (UpdateInputField.field i) = false
                        /\ InputKinds.isEdgeInput i = false
                        /\ UpdateInputField.field i ∈ Type_.fields (objectType updateAllOrders))
         l.
Proof.
  intros m updateAllOrders. eexists _, _.
  split; [vm_compute; reflexivity|]. split; [reflexivity|].
  eapply (update_all_input_fields Samples.updateName Samples.operators Samples.generator m
            updateAllOrders Samples.freshGenerator); [reflexivity | vm_compute; reflexivity].
Defined.

Lemma embedded_root_entity_rejected_witness :
  let m := Samples.oneInverse in
  let embedded :=
    {| input := Samples.fieldConfig "lead" "Person"; declaringType := Samples.typeAt m 0;
       fieldSlot := 1 |} in
  (exists e,
     Field.validateRootEntityType m embedded [] = [] ++ [e]
     /\ severity e = ERROR /\ location e = Field.astNode embedded)
  /\ UpdateInputTypeGenerator.generateFields Samples.updateName Samples.operators
       Samples.generator m embedded UpdateInputTypeGenerator.defaultOptions
       Samples.freshGenerator
     = Thrown ("Field " +:+ quoted "Movie.lead" +:+ " has an unexpected configuration").
Proof.
  intros m embedded.
  apply (embedded_root_entity_rejected Samples.updateName Samples.operators Samples.generator
           m embedded UpdateInputTypeGenerator.defaultOptions Samples.freshGenerator []);
    reflexivity.
Defined.

(** ** The generator: memoized input types *)

Section GeneratorMemo.
Import UpdateInputTypeGenerator Memorize GeneratorInvariant.
Variable getUpdateInputTypeName : string -> string.
Variable getUpdateAllInputTypeName : string -> string.

Local Abbreviation generate := (generate getUpdateInputTypeName).
Local Abbreviation specific := (specific getUpdateInputTypeName getUpdateAllInputTypeName).

(** A memoized method that constructs an input type: it returns, records
    the result under its own key and nothing else, and when it has a result
    already it returns that and leaves the state alone. *)
Lemma memorize_newInputType (method : MemoizedMethod) (class : UpdateObjectInputTypeClass)
    (n : Type_ -> string) (options : GenerateFieldsOptions) (ty : Type_)
    (st : GeneratorState) :
  exists r st1,
    memorize method (fun ty => newInputType class ty (n ty) options) ty st = Done r st1
    /\ lookup method ty st1 = Some r
    /\ (forall method' ty', (method', ty') <> (method, ty) ->
          lookup method' ty' st1 = lookup method' ty' st)
    /\ (forall r0, lookup method ty st = Some r0 -> r = r0 /\ st1 = st).
Proof.
  unfold memorize. destruct (lookup method ty st) as [r0|] eqn:Hl.
  - exists r0, st. split; [done|]. split; [done|]. split; [done|]. by intros ? [= <-].
  - simpl. eexists _, _. split; [reflexivity|]. split; [by apply lookup_store_eq|].
    split; [|done]. intros method' ty' Hne.
    rewrite lookup_store_ne by congruence. reflexivity.
Qed.

Lemma specific_run (method : MemoizedMethod) (ty : Type_) (st : GeneratorState) :
  method <> generate_ ->
  exists r st1,
    specific method ty st = Done r st1
    /\ lookup method ty st1 = Some r
    /\ (forall method' ty', (method', ty') <> (method, ty) ->
          lookup method' ty' st1 = lookup method' ty' st)
    /\ (forall r0, lookup method ty st = Some r0 -> r = r0 /\ st1 = st).
Proof.
  intros Hne. destruct method; [done|..]; apply memorize_newInputType.
Qed.

Lemma delegate_not_generate (ty : Type_) (method : MemoizedMethod) :
  delegate ty = Some method -> method <> generate_.
Proof. unfold delegate. repeat case_match; by intros [= <-]. Qed.

Lemma generate_body (ty : Type_) (method : MemoizedMethod) (st : GeneratorState) :
  delegate ty = Some method ->
  lookup generate_ ty st = None ->
  forall r st1,
    specific method ty st = Done r st1 ->
    generate ty st = Done r (store generate_ ty r st1).
Proof.
  intros Hd Hl r st1 Hrun.
  unfold UpdateInputTypeGenerator.generate. unfold memorize at 1. rewrite Hl.
  unfold delegate in Hd.
  destruct (Type_.isRootEntityType ty).
  { injection Hd as <-. unfold GeneratorInvariant.specific in Hrun. by rewrite Hrun. }
  destruct (Type_.isEntityExtensionType ty).
  { injection Hd as <-. unfold GeneratorInvariant.specific in Hrun. by rewrite Hrun. }
  destruct (Type_.isChildEntityType ty); [|done].
  injection Hd as <-. unfold GeneratorInvariant.specific in Hrun. by rewrite Hrun.
Qed.

Lemma consistent_after_specific (method : MemoizedMethod) (ty : Type_) (r : UpdateObjectInputType)
    (st st1 : GeneratorState) :
  method <> generate_ ->
  consistent st ->
  lookup method ty st1 = Some r ->
  (forall method' ty', (method', ty') <> (method, ty) ->
     lookup method' ty' st1 = lookup method' ty' st) ->
  (forall r0, lookup method ty st = Some r0 -> r = r0 /\ st1 = st) ->
  consistent st1.
Proof.
  intros Hne Hcons Hl Hother Hcached ty0 r0 Hg.
  rewrite Hother in Hg by congruence.
  destruct (Hcons ty0 r0 Hg) as (method0 & Hd & Hl0).
  exists method0. split; [done|].
  destruct (decide ((method0, ty0) = (method, ty))) as [[= -> ->]|Hk].
  - destruct (Hcached r0 Hl0) as [-> ->]. done.
  - by rewrite Hother.
Qed.

Lemma consistent_after_generate (method : MemoizedMethod) (ty : Type_)
    (r : UpdateObjectInputType) (st : GeneratorState) :
  delegate ty = Some method ->
  consistent st ->
  lookup generate_ ty st = None ->
  lookup method ty st = Some r ->
  consistent (store generate_ ty r st).
Proof.
  intros Hd Hcons Hnone Hl ty0 r0 Hg.
  pose proof (delegate_not_generate ty method Hd) as Hne.
  destruct (decide (ty0 = ty)) as [->|Hty].
  - rewrite lookup_store_eq in Hg by done. injection Hg as <-.
    exists method. split; [done|]. rewrite lookup_store_ne by congruence. done.
  - rewrite lookup_store_ne in Hg by congruence.
    destruct (Hcons ty0 r0 Hg) as (method0 & Hd0 & Hl0).
    exists method0. split; [done|].
    rewrite lookup_store_ne; [done|].
    pose proof (delegate_not_generate ty0 method0 Hd0). congruence.
Qed.

(** X25.  [generate] and the method for the kind of the type hand out the
    identical object.  In a state of the generator in which [generate] has
    recorded nothing but what the methods for the kinds have recorded (as in
    a fresh generator, and the calls keep it so), for a root entity, entity
    extension or child entity type: [generate] followed by the method for
    its kind, and the method for its kind followed by [generate], both
    return twice the same object. *)
Theorem generate_delegates (ty : Type_) (method : MemoizedMethod) (st : GeneratorState) :
  consistent st ->
  delegate ty = Some method ->
  (exists r st1,
     generate ty st = Done r st1
     /\ specific method ty st1 = Done r st1
     /\ consistent st1)
  /\ (exists r st1 st2,
        specific method ty st = Done r st1
        /\ generate ty st1 = Done r st2
        /\ consistent st2).
Proof.
  intros Hcons Hd.
  pose proof (delegate_not_generate ty method Hd) as Hne.
  split.
  - destruct (lookup generate_ ty st) as [r|] eqn:Hg.
    + exists r, st. split.
      { unfold UpdateInputTypeGenerator.generate, memorize. by rewrite Hg. }
      destruct (Hcons ty r Hg) as (method0 & Hd0 & Hl0).
      assert (method0 = method) as -> by congruence.
      destruct (specific_run method ty st Hne) as (r' & st' & Hrun & _ & _ & Hcached).
      destruct (Hcached r Hl0) as [-> ->]. done.
    + destruct (specific_run method ty st Hne) as (r & st' & Hrun & Hl & Hother & Hcached).
      exists r, (store generate_ ty r st').
      split; [by apply generate_body with (method := method)|].
      assert (Hcons' : consistent st') by (by eapply consistent_after_specific).
      assert (Hg' : lookup generate_ ty st' = None).
      { rewrite Hother by congruence. done. }
      split; [|by eapply consistent_after_generate].
      destruct (specific_run method ty (store generate_ ty r st') Hne)
        as (r2 & st2 & Hrun2 & _ & _ & Hcached2).
      destruct (Hcached2 r) as [-> ->]; [|done].
      rewrite lookup_store_ne by congruence. done.
  - destruct (specific_run method ty st Hne) as (r & st1 & Hrun & Hl & Hother & Hcached).
    assert (Hcons1 : consistent st1) by (by eapply consistent_after_specific).
    destruct (lookup generate_ ty st1) as [r0|] eqn:Hg.
    + destruct (Hcons1 ty r0 Hg) as (method0 & Hd0 & Hl0).
      assert (method0 = method) as -> by congruence.
      assert (r0 = r) as -> by congruence.
      exists r, st1, st1. split; [done|]. split; [|done].
      unfold UpdateInputTypeGenerator.generate, memorize. by rewrite Hg.
    + destruct (specific_run method ty st1 Hne) as (r2 & st2 & Hrun2 & _ & _ & Hcached2).
      destruct (Hcached2 r Hl) as [-> ->].
      exists r, st1, (store generate_ ty r st1). split; [done|].
      split; [by apply generate_body with (method := method)|].
      by eapply consistent_after_generate.
Qed.

Lemma fresh_generator_consistent : consistent Samples.freshGenerator.
Proof. intros ty r. done. Qed.
End GeneratorMemo.

Lemma generate_delegates_witness :
  let order := Samples.typeAt Samples.shop 3 in
  (exists r st1,
     UpdateInputTypeGenerator.generate Samples.updateName order Samples.freshGenerator
       = Done r st1
     /\ GeneratorInvariant.specific Samples.updateName Samples.updateAllName
          generateForRootEntityType_ order st1 = Done r st1
     /\ GeneratorInvariant.consistent st1)
  /\ (exists r st1 st2,
        GeneratorInvariant.specific Samples.updateName Samples.updateAllName
          generateForRootEntityType_ order Samples.freshGenerator = Done r st1
        /\ UpdateInputTypeGenerator.generate Samples.updateName order st1 = Done r st2
        /\ GeneratorInvariant.consistent st2).
Proof.
  intros order.
  apply (generate_delegates Samples.updateName Samples.updateAllName order
           generateForRootEntityType_ Samples.freshGenerator).
  - apply fresh_generator_consistent.
  - reflexivity.
Defined.

(** ** The generator: calc mutation inputs *)

Section GeneratorCalc.
Import UpdateInputTypeGenerator CalcMutationRules.
Variable getUpdateInputTypeName : string -> string.
Variable operators : list CalcMutationOperator.
Variable this : UpdateInputTypeGenerator.
Variable m : Model.t.

Local Abbreviation generateFields :=
  (generateFields getUpdateInputTypeName operators this m).

Lemma mapM_operators_cons {S} (o : string) (declared : list string) (st : S) :
  mapM_ (getCalcMutationOperatorOrThrow operators) (o :: declared) st
  = match lookup operators o with
    | None => Thrown ("Calc mutation operator " +:+ quoted o +:+ " is not defined")
    | Some d =>
        match mapM_ (getCalcMutationOperatorOrThrow operators) declared st with
        | Done found st' => Done ((d, o) :: found) st'
        | Thrown e => Thrown e
        | OutOfFuel => OutOfFuel
        end
    end.
Proof.
  cbn [mapM_]. unfold mbind, M_bind, lookup.
  unfold getCalcMutationOperatorOrThrow at 1.
  destruct (List.find _ operators) as [d|]; [|done].
  unfold mret, M_ret.
  by destruct (mapM_ _ declared st).
Qed.

Lemma mapM_operators_known {S} (declared : list string) (st : S) :
  Forall (fun o => is_Some (lookup operators o)) declared ->
  exists found,
    mapM_ (getCalcMutationOperatorOrThrow operators) declared st = Done found st
    /\ map snd found = declared
    /\ Forall (fun p => lookup operators (snd p) = Some (fst p)) found.
Proof.
  induction 1 as [|o declared [d Hd] _ (found & IH & Hnames & Hall)].
  - exists []. split; [done|]. split; [done | constructor].
  - rewrite mapM_operators_cons, Hd, IH.
    exists ((d, o) :: found). split; [done|]. split; [by rewrite <- Hnames|].
    by constructor.
Qed.

Lemma mapM_operators_unknown {S} (pre post : list string) (o : string) (st : S) :
  Forall (fun o => is_Some (lookup operators o)) pre ->
  lookup operators o = None ->
  mapM_ (getCalcMutationOperatorOrThrow operators) (pre ++ o :: post) st
  = Thrown ("Calc mutation operator " +:+ quoted o +:+ " is not defined").
Proof.
  intros Hpre Ho. induction Hpre as [|o' pre [d Hd] _ IH].
  - change ([] ++ o :: post) with (o :: post). by rewrite mapM_operators_cons, Ho.
  - change ((o' :: pre) ++ o :: post) with (o' :: (pre ++ o :: post)).
    by rewrite mapM_operators_cons, Hd, IH.
Qed.

(** X26.  A scalar field gets its setter and one calc mutation input for
    each declared operator, in the order of the declaration and with the
    prefix that the table gives the operator; generating the inputs throws
    when a declared operator is not in the table, naming the first such
    operator.  The state of the generator is not touched. *)
Theorem scalar_field_inputs (field : Field) (options : GenerateFieldsOptions)
    (st : GeneratorState) :
  Field.isSystemField field = false ->
  Type_.kind (Field.type m field) = SCALAR ->
  Field.isList field = false ->
  (Forall (fun o => is_Some (lookup operators o)) (Field.calcMutationOperators field) ->
   exists found,
     generateFields field options st
     = Done (BasicUpdateInputField field (graphQLScalarType (Field.type m field))
               :: map (fun p => CalcMutationInputField field
                                  (graphQLScalarType (Field.type m field))
                                  (snd p) (opPrefix (fst p))) found)
            st
     /\ map snd found = Field.calcMutationOperators field
     /\ Forall (fun p => lookup operators (snd p) = Some (fst p)) found)
  /\ (forall pre o post,
        Field.calcMutationOperators field = pre ++ o :: post ->
        Forall (fun o => is_Some (lookup operators o)) pre ->
        lookup operators o = None ->
        generateFields field options st
        = Thrown ("Calc mutation operator " +:+ quoted o +:+ " is not defined")).
Proof.
  intros Hsys Hkind Hlist.
  unfold UpdateInputTypeGenerator.generateFields.
  rewrite Hsys, Hlist. unfold Type_.isScalarType, Type_.isEnumType. rewrite Hkind. simpl.
  split.
  - intros Hall.
    destruct (mapM_operators_known (Field.calcMutationOperators field) st Hall)
      as (found & Hrun & Hnames & Hfound).
    exists found. unfold mbind, M_bind, mret, M_ret. rewrite Hrun. done.
  - intros pre o post -> Hpre Ho. unfold mbind, M_bind.
    by rewrite (mapM_operators_unknown pre post o st Hpre Ho).
Qed.

(** X27.  What the validation of the calc mutations lets pass, the generator
    can generate.  For a scalar field that is no list and no system field,
    if the validation of the calc mutations returns without adding a
    message, then generating the update input fields, with the same table
    of operators, returns as well: the setter and one input for each
    declared operator. *)
Theorem validated_calc_mutations_generate (field : Field) (options : GenerateFieldsOptions)
    (st : GeneratorState) (context : ValidationContext) :
  Field.isSystemField field = false ->
  Type_.kind (Field.type m field) = SCALAR ->
  Field.isList field = false ->
  Field.validateCalcMutations operators m field context = (Return tt, context) ->
  exists inputs,
    generateFields field options st = Done inputs st
    /\ length inputs = S (length (Field.calcMutationOperators field))
    /\ Forall (fun i => UpdateInputField.field i = field) inputs.
Proof.
  intros Hsys Hkind Hlist Hvalid.
  assert (Hall : Forall (fun o => is_Some (lookup operators o))
                   (Field.calcMutationOperators field)).
  { destruct (decide (Field.calcMutationOperators field = [])) as [->|Hd]; [constructor|].
    assert (Hsize : bool_decide (JsSet.size (Field.calcMutationOperators field) = 0) = false).
    { apply bool_decide_eq_false_2. unfold JsSet.size.
      destruct (Field.calcMutationOperators field); [done | simpl; lia]. }
    destruct (decide (supportedOperators operators m field = [])) as [Hs|Hs].
    { exfalso. unfold Field.validateCalcMutations in Hvalid.
      rewrite Hsize, Hlist in Hvalid.
      change (filter _ operators) with (supportedOperators operators m field) in Hvalid.
      rewrite Hs in Hvalid.
      rewrite bool_decide_eq_true_2 in Hvalid
        by (unfold JsSet.size; destruct (Field.calcMutationOperators field);
            [done | simpl; lia]).
      simpl in Hvalid. injection Hvalid as Hctx.
      unfold ValidationContext.addMessage in Hctx.
      apply (f_equal length) in Hctx. rewrite length_app in Hctx. simpl in Hctx. lia. }
    destruct (validateCalcMutations_checked operators m field context Hd Hlist Hs)
      as [[Hall _]|(pre & o & post & _ & _ & _ & E)]; [done|].
    rewrite E in Hvalid. done. }
  destruct (mapM_operators_known (Field.calcMutationOperators field) st Hall)
    as (found & Hrun & Hnames & _).
  unfold UpdateInputTypeGenerator.generateFields.
  rewrite Hsys, Hlist. unfold Type_.isScalarType, Type_.isEnumType. rewrite Hkind. simpl.
  unfold mbind, M_bind, mret, M_ret. rewrite Hrun.
  eexists. split; [reflexivity|]. split.
  - simpl. rewrite length_map. f_equal. rewrite <- Hnames. by rewrite length_map.
  - constructor; [done|]. apply Forall_fmap, Forall_forall. done.
Qed.
End GeneratorCalc.

Lemma scalar_field_inputs_witness :
  let m := Samples.accounts in
  let balance := Samples.fieldAt m 2 0 in
  exists found,
    UpdateInputTypeGenerator.generateFields Samples.updateName Samples.operators
      Samples.generator m balance UpdateInputTypeGenerator.defaultOptions
      Samples.freshGenerator
    = Done (BasicUpdateInputField balance (GraphQLNamedType "Int")
              :: map (fun p => CalcMutationInputField balance (GraphQLNamedType "Int")
                                 (snd p) (opPrefix (fst p))) found)
           Samples.freshGenerator
    /\ map snd found = ["ADD"; "APPEND"]
    /\ Forall (fun p => CalcMutationRules.lookup Samples.operators (snd p) = Some (fst p))
         found.
Proof.
  intros m balance.
  apply (scalar_field_inputs Samples.updateName Samples.operators Samples.generator m
           balance UpdateInputTypeGenerator.defaultOptions Samples.freshGenerator);
    try reflexivity.
  vm_compute. repeat constructor; by eexists.
Defined.

Lemma validated_calc_mutations_generate_witness :
  let m := Samples.accounts in
  let plain :=
    {| input := Samples.scalarWithOperators "total" "Int" 9 ["ADD"; "MULTIPLY"; "ADD"];
       declaringType := Samples.typeAt m 2; fieldSlot := 3 |} in
  exists inputs,
    UpdateInputTypeGenerator.generateFields Samples.updateName Samples.operators
      Samples.generator m plain UpdateInputTypeGenerator.defaultOptions
      Samples.freshGenerator
    = Done inputs Samples.freshGenerator
    /\ length inputs = 3
    /\ Forall (fun i => UpdateInputField.field i = plain) inputs.
Proof.
  intros m plain.
  apply (validated_calc_mutations_generate Samples.updateName Samples.operators
           Samples.generator m plain UpdateInputTypeGenerator.defaultOptions
           Samples.freshGenerator []); reflexivity.
Defined.
